(** * DrowsyGuard API: session ledger and dashboard aggregates

    A shallow embedding of [api/app.py]: the three SQLite tables, the
    inference wrapper [infer_image] and the route handlers that read or
    write sessions and detections, followed by the properties of the
    session ledger and of the dashboards.

    Conventions of the embedding.
    - A table is the list of its rows in rowid order; an [INTEGER PRIMARY
      KEY AUTOINCREMENT] column receives one more than the largest id of
      the table (no row is ever deleted by the program).  Foreign keys
      are declared but SQLite does not enforce them on these connections.
    - [ORDER BY] is a stable sort of the rows in rowid order.  SQL leaves
      the order of rows with equal keys open; no statement below depends
      on it.
    - A Python [float] is the rational [Q] it denotes, and [round(x, n)]
      rounds that rational to the nearest multiple of [10^-n], ties to
      even, as CPython does on the exact binary value.  An arithmetic
      operation on floats is the exact operation followed by [binary64],
      the rounding to the nearest double (53 significant bits, ties to
      even, subnormals below [2^-1022]); no value computed here comes
      near the largest double.  The confidences are rounded to 4 decimals
      once and then only compared, which needs no rounding to a double.
      The doubles of the kernel serve only to check [binary64] at sample
      values.
    - Clock readings ([datetime.now()], [CURRENT_TIMESTAMP]) and the salt
      drawn by [secrets.token_hex] are inputs of the handler that uses
      them.  Timestamps are integers; SQLite compares the stored text in
      chronological order.
    - Labels are strings of ASCII characters; [str.lower] maps [A-Z] to
      [a-z] and leaves every other character alone.
    - A handler maps the store to an outcome and a store.  An exception
      raised before [conn.commit()] leaves the tables as they were.  The
      handlers are given twice: first on a connection that executes every
      statement, then, in [Live], on the database file, where a parameter
      may fail to bind and a write may find the file locked.
    - SHA-256 is a parameter of the handlers that hash passwords; where a
      property needs it, its digests are assumed to contain no colon, as
      hexadecimal digests do. *)

From Stdlib Require Import List ZArith QArith Qround Qminmax Qabs Qpower Bool Ascii String.
From Stdlib Require Import Lia Lqa Sorting.Sorted Sorting.Permutation.
From Stdlib Require Floats.
Import ListNotations.

Open Scope string_scope.
Open Scope list_scope.
Open Scope Z_scope.

(** ** Python values *)

(** Exceptions that the handlers raise or catch.  The detail of a wrapped
    error is the f-string [f"{prefix}{str(e)}"], kept symbolic. *)
Inductive exn : Type :=
| HTTPException (status_code : Z) (detail : detail)
| IntegrityError
| KeyError
| RuntimeError (msg : string)
| OverflowError (msg : string)
| OperationalError (msg : string)
| cv2_error (msg : string)
with detail : Type :=
| Text (s : string)
| FStr (prefix : string) (e : exn).

Inductive outcome (A : Type) : Type :=
| Return (a : A)
| Raise (e : exn).
Arguments Return {A} a.
Arguments Raise {A} e.

Definition isinstance_HTTPException (e : exn) : bool :=
  match e with HTTPException _ _ => true | _ => false end.

Definition isinstance_IntegrityError (e : exn) : bool :=
  match e with IntegrityError => true | _ => false end.

(** [try: body / except Exception as e: handler e]. *)
Definition try_except {A} (body : outcome A) (handler : exn -> outcome A) : outcome A :=
  match body with
  | Return a => Return a
  | Raise e => handler e
  end.

(** ** Strings *)

(** [str.lower] on one ASCII character. *)
Definition lower_char (c : ascii) : ascii :=
  let n := N_of_ascii c in
  if ((65 <=? n) && (n <=? 90))%N then ascii_of_N (n + 32) else c.

Fixpoint lower (s : string) : string :=
  match s with
  | EmptyString => EmptyString
  | String c s' => String (lower_char c) (lower s')
  end.

(** [x in xs] for a list of strings. *)
Definition str_in (x : string) (xs : list string) : bool :=
  existsb (String.eqb x) xs.

(** [sub in s] for strings: [sub] occurs in [s] as a contiguous block. *)
Fixpoint contains (sub s : string) : bool :=
  prefix sub s ||
  match s with
  | EmptyString => false
  | String _ s' => contains sub s'
  end.

(** [s.split(sep)] for a separator of one character. *)
Fixpoint str_split (sep : ascii) (s : string) : list string :=
  match s with
  | EmptyString => [EmptyString]
  | String c s' =>
      if Ascii.eqb c sep then EmptyString :: str_split sep s'
      else match str_split sep s' with
           | part :: parts => String c part :: parts
           | [] => [String c EmptyString]
           end
  end.

(** ** Numbers *)

Definition Qltb (x y : Q) : bool := negb (Qle_bool y x).

(** Nearest integer, ties to even. *)
Definition round_half_even (x : Q) : Z :=
  let f := Qfloor x in
  match (x - inject_Z f ?= 1 # 2)%Q with
  | Lt => f
  | Gt => f + 1
  | Eq => if Z.even f then f else f + 1
  end.

(** [round(x, ndigits)]. *)
Definition round (x : Q) (ndigits : nat) : Q :=
  let scale := inject_Z (10 ^ Z.of_nat ndigits) in
  (inject_Z (round_half_even (x * scale)) / scale)%Q.

(** [floor(log2 x)] of a positive rational: the difference of the bit
    lengths of numerator and denominator, or one less. *)
Definition Qlog2 (x : Q) : Z :=
  let k := Z.log2 (Qnum x) - Z.log2 (Zpos (Qden x)) in
  if Qle_bool (2 ^ k) x then k else k - 1.

(** The double nearest to [x], ties to even: [x] is rounded to an
    integer multiple of [2^e], where [e] leaves 53 bits to the
    significand and is no less than -1074. *)
Definition binary64 (x : Q) : Q :=
  if Qeq_bool x 0 then 0%Q
  else
    let e := Z.max (Qlog2 (Qabs x) - 52) (-1074) in
    Qred (inject_Z (round_half_even (x / 2 ^ e)) * 2 ^ e)%Q.

(** A double of the kernel: the one that holds an integer, and the
    rational that a finite one denotes. *)
Definition float_of_Z (n : Z) : PrimFloat.float :=
  FloatOps.SF2Prim (SpecFloat.binary_normalize FloatOps.prec FloatOps.emax n 0 false).

Definition float_value (x : PrimFloat.float) : Q :=
  match FloatOps.Prim2SF x with
  | SpecFloat.S754_finite sign m e =>
      ((if sign then -1 else 1) * inject_Z (Zpos m) * 2 ^ e)%Q
  | _ => 0%Q
  end.

(** [max(0, x)]: the first argument unless the second is larger. *)
Definition max0 (x : Q) : Q := if Qltb 0 x then x else 0%Q.

(** Truth value of an optional float: [None] and [0.0] are falsy. *)
Definition truthy (x : option Q) : bool :=
  match x with
  | None => false
  | Some q => negb (Qeq_bool q 0%Q)
  end.

(** ** The persisted schema *)

Module Users.
Record row : Type := {
  id : Z;
  username : string;
  email : string;
  password_hash : string;
  phone : option string;
  role : string;
  created_at : Z
}.
End Users.

Module Sessions.
Record row : Type := {
  id : Z;
  user_id : Z;
  start_time : Z;
  end_time : option Z;
  total_detections : Z;
  drowsy_detections : Z;
  distance_km : Q;
  start_lat : option Q;
  start_lng : option Q;
  end_lat : option Q;
  end_lng : option Q
}.
End Sessions.

Module Detections.
Record row : Type := {
  id : Z;
  session_id : Z;
  timestamp : Z;
  prediction : string;
  confidence : Q;
  latitude : option Q;
  longitude : option Q
}.
End Detections.

Record DB : Type := {
  users : list Users.row;
  sessions : list Sessions.row;
  detections : list Detections.row
}.

(** ** SQL building blocks *)

(** The id an AUTOINCREMENT column gives to the next inserted row. *)
Definition next_rowid {A} (id : A -> Z) (rows : list A) : Z :=
  1 + fold_right Z.max 0 (map id rows).

Fixpoint insert_by {A} (le : A -> A -> bool) (x : A) (l : list A) : list A :=
  match l with
  | [] => [x]
  | y :: l' => if le x y then x :: l else y :: insert_by le x l'
  end.

(** [ORDER BY key]: rows with equal keys keep their rowid order. *)
Definition order_by {A} (key : A -> Z) (rows : list A) : list A :=
  fold_right (insert_by (fun x y => key x <=? key y)) [] rows.

(** [ORDER BY key DESC]. *)
Definition order_by_desc {A} (key : A -> Z) (rows : list A) : list A :=
  fold_right (insert_by (fun x y => key y <=? key x)) [] rows.

(** [SUM(col)]: NULL over no rows. *)
Definition SUM {A} (col : A -> Z) (rows : list A) : option Z :=
  match rows with
  | [] => None
  | _ => Some (fold_right Z.add 0 (map col rows))
  end.

(** [x if x else 0] and [x or 0] on a nullable integer. *)
Definition or0 (x : option Z) : Z :=
  match x with
  | Some v => v
  | None => 0
  end.

Definition is_some {A} (x : option A) : bool :=
  match x with Some _ => true | None => false end.

Definition is_none {A} (x : option A) : bool :=
  match x with Some _ => false | None => true end.

(** [LIMIT limit OFFSET offset]: a negative limit is no limit, a
    negative offset is offset 0. *)
Definition limit_offset {A} (limit offset : Z) (rows : list A) : list A :=
  let rest := skipn (Z.to_nat offset) rows in
  if limit <? 0 then rest else firstn (Z.to_nat limit) rest.

(** [SELECT * FROM sessions WHERE id = ?] followed by [fetchone()]. *)
Definition select_session (db : DB) (session_id : Z) : option Sessions.row :=
  find (fun s => Sessions.id s =? session_id) (sessions db).

(** ** JSON bodies returned by the handlers

    [JFStr prefix e] is the string [f"{prefix}{str(e)}"], kept symbolic
    like the detail of a wrapped error. *)

#[local] Unset Elimination Schemes.
Inductive json : Type :=
| JNone
| JBool (b : bool)
| JInt (n : Z)
| JFloat (x : Q)
| JStr (s : string)
| JFStr (prefix : string) (e : exn)
| JList (l : list json)
| JDict (items : list (string * json)).
#[local] Set Elimination Schemes.

Definition JOpt {A} (f : A -> json) (x : option A) : json :=
  match x with
  | Some a => f a
  | None => JNone
  end.

(** Truth value of a Python object that is [None], a [str] or a [bool]. *)
Definition json_truthy (v : json) : bool :=
  match v with
  | JBool b => b
  | JStr s => negb (String.eqb s "")
  | _ => false
  end.

(** ** The detector's output *)

Module Yolo.
(** One detected box: [boxes.conf[i]] and [int(boxes.cls[i])]. *)
Record Box : Type := { conf : Q; cls : Z }.

(** One element of the list returned by the model: [boxes] may be
    [None]; [names] is the dict from class index to label. *)
Record Results : Type := {
  boxes : option (list Box);
  names : list (Z * string)
}.
End Yolo.

(** [d[k]] on a dict with integer keys. *)
Fixpoint getitem (d : list (Z * string)) (k : Z) : outcome string :=
  match d with
  | [] => Raise KeyError
  | (k', v) :: d' => if k' =? k then Return v else getitem d' k
  end.

Fixpoint argmax_from (best_idx : nat) (best : Q) (i : nat) (xs : list Q) : nat :=
  match xs with
  | [] => best_idx
  | x :: xs' =>
      if Qltb best x then argmax_from i x (S i) xs'
      else argmax_from best_idx best (S i) xs'
  end.

(** [np.argmax]: the index of the first occurrence of the maximum. *)
Definition argmax (xs : list Q) : nat :=
  match xs with
  | [] => 0%nat
  | x :: xs' => argmax_from 0 x 1 xs'
  end.

(** The dict [{"prediction": ..., "confidence": ...}]. *)
Record Prediction : Type := { prediction : string; confidence : Q }.

Definition bind {A B} (c : outcome A) (k : A -> outcome B) : outcome B :=
  match c with
  | Return a => k a
  | Raise e => Raise e
  end.

Notation "x <- c ;; k" := (bind c (fun x => k))
  (at level 61, c at next level, right associativity).

(** [salt:sha256(password + salt)]. *)
Definition hash_password (sha256_hexdigest : string -> string)
    (password salt : string) : string :=
  String.append salt (String.append ":" (sha256_hexdigest (String.append password salt))).

Definition empty_db : DB := {| users := []; sessions := []; detections := [] |}.

(** [init_db]: the tables exist afterwards and a default admin is
    inserted unless a user named admin is already there. *)
Definition init_db (sha256_hexdigest : string -> string)
    (db : DB) (salt : string) (now : Z) : DB :=
  match find (fun u => String.eqb (Users.username u) "admin") (users db) with
  | Some _ => db
  | None =>
      let admin_password := hash_password sha256_hexdigest "admin123" salt in
      {| users := users db ++
           [ {| Users.id := next_rowid Users.id (users db);
                Users.username := "admin";
                Users.email := "admin@drowsyguard.com";
                Users.password_hash := admin_password;
                Users.phone := None;
                Users.role := "admin";
                Users.created_at := now |} ];
         sessions := sessions db;
         detections := detections db |}
  end.

(** Request bodies. *)
Record UserCreate : Type := {
  uc_username : string;
  uc_email : string;
  uc_password : string;
  uc_phone : option string;
  uc_role : option string
}.

Record SessionStart : Type := {
  ss_user_id : Z;
  ss_latitude : option Q;
  ss_longitude : option Q
}.

Record UserLogin : Type := {
  ul_username : string;
  ul_password : string;
  ul_role : option string
}.

(** ** The handlers

    Each handler on a connection that executes every statement it is
    given; [Live] below adds the statements that fail. *)

Section Api.

(** The uploaded file, the decoded frame and [cv2.imdecode] between
    them, where it returns; the global [model], [None] when loading it
    failed; SHA-256. *)
Variables Upload Image : Type.
Variable imdecode : Upload -> option Image.
Variable model : option (Image -> outcome (list Yolo.Results)).
Variable sha256_hexdigest : string -> string.

Definition infer_image (img_bgr : Image) : Prediction :=
  match model with
  | None => {| prediction := "model_error"; confidence := 0 |}
  | Some model =>
      let body :=
        results <- model img_bgr ;;
        match results with
        | [] => Return {| prediction := "no_detection"; confidence := 0 |}
        | r0 :: _ =>
            match Yolo.boxes r0 with
            | None => Return {| prediction := "no_detection"; confidence := 0 |}
            | Some boxes =>
                if (List.length boxes =? 0)%nat
                then Return {| prediction := "no_detection"; confidence := 0 |}
                else
                  let confs := map Yolo.conf boxes in
                  let clss := map Yolo.cls boxes in
                  let top_idx := argmax confs in
                  label <- getitem (Yolo.names r0) (nth top_idx clss 0) ;;
                  let conf := nth top_idx confs 0%Q in
                  Return {| prediction := label; confidence := round conf 4 |}
            end
        end in
      match body with
      | Return r => r
      | Raise _ => {| prediction := "error"; confidence := 0 |}
      end
  end.

Definition register_user (db : DB) (user : UserCreate) (salt : string) (now : Z)
  : outcome json * DB :=
  let body : outcome json * DB :=
    if match uc_role user with
       | Some r => negb (String.eqb r "") && negb (String.eqb r "driver")
       | None => false
       end
    then (Raise (HTTPException 403 (Text "Only driver registration allowed")), db)
    else
      let password_hash := hash_password sha256_hexdigest (uc_password user) salt in
      if existsb (fun u => String.eqb (Users.username u) (uc_username user)
                           || String.eqb (Users.email u) (uc_email user)) (users db)
      then (Raise IntegrityError, db)
      else
        let user_id := next_rowid Users.id (users db) in
        (Return (JDict [("success", JBool true); ("user_id", JInt user_id);
                        ("message", JStr "User registered successfully")]),
         {| users := users db ++
              [ {| Users.id := user_id;
                   Users.username := uc_username user;
                   Users.email := uc_email user;
                   Users.password_hash := password_hash;
                   Users.phone := uc_phone user;
                   Users.role := "driver";
                   Users.created_at := now |} ];
            sessions := sessions db;
            detections := detections db |})
  in
  match body with
  | (Raise e, _) =>
      if isinstance_IntegrityError e
      then (Raise (HTTPException 400 (Text "Username or email already exists")), db)
      else (Raise (HTTPException 500 (FStr "Registration failed: " e)), db)
  | ok => ok
  end.

Definition start_session (db : DB) (session_data : SessionStart) (now : Z)
  : outcome json * DB :=
  let session_id := next_rowid Sessions.id (sessions db) in
  (Return (JDict [("success", JBool true); ("session_id", JInt session_id)]),
   {| users := users db;
      sessions := sessions db ++
        [ {| Sessions.id := session_id;
             Sessions.user_id := ss_user_id session_data;
             Sessions.start_time := now;
             Sessions.end_time := None;
             Sessions.total_detections := 0;
             Sessions.drowsy_detections := 0;
             Sessions.distance_km := 0;
             Sessions.start_lat := ss_latitude session_data;
             Sessions.start_lng := ss_longitude session_data;
             Sessions.end_lat := None;
             Sessions.end_lng := None |} ];
      detections := detections db |}).

(** [UPDATE sessions SET end_time = ? WHERE id = ?]. *)
Definition set_end_time (now session_id : Z) (s : Sessions.row) : Sessions.row :=
  if Sessions.id s =? session_id
  then {| Sessions.id := Sessions.id s;
          Sessions.user_id := Sessions.user_id s;
          Sessions.start_time := Sessions.start_time s;
          Sessions.end_time := Some now;
          Sessions.total_detections := Sessions.total_detections s;
          Sessions.drowsy_detections := Sessions.drowsy_detections s;
          Sessions.distance_km := Sessions.distance_km s;
          Sessions.start_lat := Sessions.start_lat s;
          Sessions.start_lng := Sessions.start_lng s;
          Sessions.end_lat := Sessions.end_lat s;
          Sessions.end_lng := Sessions.end_lng s |}
  else s.

(** [cursor.rowcount] of an update with [WHERE id = ?]. *)
Definition rowcount (session_id : Z) (rows : list Sessions.row) : nat :=
  List.length (filter (fun s => Sessions.id s =? session_id) rows).

Definition end_session (db : DB) (session_id : Z) (now : Z) : outcome json * DB :=
  let updated := map (set_end_time now session_id) (sessions db) in
  let body : outcome json * DB :=
    if (rowcount session_id (sessions db) =? 0)%nat
    then (Raise (HTTPException 404 (Text "Session not found")), db)
    else (Return (JDict [("success", JBool true);
                         ("message", JStr "Session ended successfully")]),
          {| users := users db; sessions := updated; detections := detections db |})
  in
  match body with
  | (Raise e, _) =>
      if isinstance_HTTPException e then (Raise e, db)
      else (Raise (HTTPException 500 (FStr "Failed to end session: " e)), db)
  | ok => ok
  end.

(** [UPDATE sessions SET total_detections = total_detections + 1,
    drowsy_detections = drowsy_detections + ? WHERE id = ?]. *)
Definition update_stats (inc session_id : Z) (s : Sessions.row) : Sessions.row :=
  if Sessions.id s =? session_id
  then {| Sessions.id := Sessions.id s;
          Sessions.user_id := Sessions.user_id s;
          Sessions.start_time := Sessions.start_time s;
          Sessions.end_time := Sessions.end_time s;
          Sessions.total_detections := Sessions.total_detections s + 1;
          Sessions.drowsy_detections := Sessions.drowsy_detections s + inc;
          Sessions.distance_km := Sessions.distance_km s;
          Sessions.start_lat := Sessions.start_lat s;
          Sessions.start_lng := Sessions.start_lng s;
          Sessions.end_lat := Sessions.end_lat s;
          Sessions.end_lng := Sessions.end_lng s |}
  else s.

Definition detect_drowsiness (db : DB) (session_id : Z) (file : Upload)
    (latitude longitude : option Q) (now : Z) : json * DB :=
  match imdecode file with
  | None => (JDict [("success", JBool false); ("message", JStr "Invalid image")], db)
  | Some img =>
      let result := infer_image img in
      let is_drowsy :=
        str_in (lower (prediction result)) ["drowsy"; "sleepy"; "tired"]
        && Qltb (7 # 10) (confidence result) in
      let logged :=
        detections db ++
        [ {| Detections.id := next_rowid Detections.id (detections db);
             Detections.session_id := session_id;
             Detections.timestamp := now;
             Detections.prediction := prediction result;
             Detections.confidence := confidence result;
             Detections.latitude := latitude;
             Detections.longitude := longitude |} ] in
      let updated :=
        map (update_stats (if is_drowsy then 1 else 0) session_id) (sessions db) in
      (JDict [("success", JBool true);
              ("data", JDict [("prediction", JStr (prediction result));
                              ("confidence", JFloat (confidence result));
                              ("is_drowsy", JBool is_drowsy);
                              ("alert_level",
                               JStr (if is_drowsy && Qltb (8 # 10) (confidence result)
                                     then "high" else "low"))])],
       {| users := users db; sessions := updated; detections := logged |})
  end.

(** Sessions of a user that have ended:
    [WHERE user_id = ? AND end_time IS NOT NULL]. *)
Definition ended_sessions_of (db : DB) (user_id : Z) : list Sessions.row :=
  filter (fun s => (Sessions.user_id s =? user_id) && is_some (Sessions.end_time s))
         (sessions db).

(** [COUNT(d.id)] of the left join of one session with its detections. *)
Definition detection_count (db : DB) (s : Sessions.row) : Z :=
  Z.of_nat (List.length
    (filter (fun d => Detections.session_id d =? Sessions.id s) (detections db))).

(** The same computation on the doubles of the kernel, against which
    [safety_score] is checked at sample values; the operands (counts
    below [2^53]) are doubles themselves. *)
Definition float_safety_score (total_drowsy total_detections : Z) : PrimFloat.float :=
  if 0 <? total_detections
  then
    let drowsy_percentage :=
      PrimFloat.mul
        (PrimFloat.div (float_of_Z total_drowsy) (float_of_Z total_detections))
        (float_of_Z 100) in
    let score :=
      PrimFloat.sub (float_of_Z 100) (PrimFloat.mul drowsy_percentage (float_of_Z 2)) in
    if PrimFloat.ltb (float_of_Z 0) score then score else float_of_Z 0
  else float_of_Z 100.

(** [(total_drowsy / total_detections) * 100] and
    [max(0, 100 - (drowsy_percentage * 2))]: the true division of two
    ints, two products and a difference, each rounded to a double. *)
Definition safety_score (total_drowsy total_detections : Z) : Q :=
  if 0 <? total_detections
  then
    let drowsy_percentage :=
      binary64 (binary64 (inject_Z total_drowsy / inject_Z total_detections) * 100)%Q in
    max0 (binary64 (100 - binary64 (drowsy_percentage * 2)))%Q
  else 100%Q.

Definition get_dashboard (db : DB) (user_id : Z) : outcome json :=
  let rows := ended_sessions_of db user_id in
  let stats := (Z.of_nat (List.length rows),
                SUM Sessions.drowsy_detections rows,
                SUM Sessions.total_detections rows) in
  let recent_sessions := firstn 10 (order_by_desc Sessions.start_time rows) in
  let total_detections := or0 (snd stats) in
  let total_drowsy := or0 (snd (fst stats)) in
  let safety_score := safety_score total_drowsy total_detections in
  Return (JDict [("success", JBool true);
    ("data", JDict [
       ("total_sessions", JInt (fst (fst stats)));
       ("total_alerts", JInt total_drowsy);
       ("total_detections", JInt total_detections);
       ("safety_score", JFloat (round safety_score 1));
       ("recent_sessions",
        JList (map (fun session =>
                 JDict [("id", JInt (Sessions.id session));
                        ("start_time", JInt (Sessions.start_time session));
                        ("end_time", JOpt JInt (Sessions.end_time session));
                        ("alerts", JInt (Sessions.drowsy_detections session));
                        ("total_detections", JInt (Sessions.total_detections session));
                        ("detection_count", JInt (detection_count db session))])
               recent_sessions))])]).

(** The scalar subquery of the admin dashboard: the prediction of the
    first row of the session's detections in descending timestamp
    order, NULL when the session has none. *)
Definition latest_detection (db : DB) (session_id : Z) : option Detections.row :=
  hd_error (order_by_desc Detections.timestamp
              (filter (fun d => Detections.session_id d =? session_id) (detections db))).

Definition latest_prediction (db : DB) (session_id : Z) : option string :=
  option_map Detections.prediction (latest_detection db session_id).

(** [FROM sessions s JOIN users u ON s.user_id = u.id
     WHERE s.end_time IS NULL ORDER BY s.start_time DESC]. *)
Definition active_sessions (db : DB) : list (Sessions.row * Users.row) :=
  order_by_desc (fun su => Sessions.start_time (fst su))
    (flat_map (fun s =>
                 map (fun u => (s, u))
                     (filter (fun u => Sessions.user_id s =? Users.id u) (users db)))
              (filter (fun s => is_none (Sessions.end_time s)) (sessions db))).

(** [latest_prediction and 'drowsy' in latest_prediction.lower()]. *)
Definition latest_is_drowsy (latest_prediction : option string) : json :=
  match latest_prediction with
  | None => JNone
  | Some p => if String.eqb p "" then JStr "" else JBool (contains "drowsy" (lower p))
  end.

(** The counting loop over the active sessions. *)
Fixpoint count_drowsy (db : DB) (rows : list (Sessions.row * Users.row))
    (drowsy_count : Z) : Z :=
  match rows with
  | [] => drowsy_count
  | session :: rest =>
      let is_drowsy := latest_is_drowsy (latest_prediction db (Sessions.id (fst session))) in
      count_drowsy db rest (if json_truthy is_drowsy then drowsy_count + 1 else drowsy_count)
  end.

(** [FROM detections d JOIN sessions s ON d.session_id = s.id
     JOIN users u ON s.user_id = u.id ORDER BY d.timestamp DESC LIMIT 50]. *)
Definition recent_logs (db : DB) : list (Detections.row * Users.row) :=
  firstn 50
    (order_by_desc (fun du => Detections.timestamp (fst du))
       (flat_map (fun d =>
          flat_map (fun s =>
             map (fun u => (d, u))
                 (filter (fun u => Sessions.user_id s =? Users.id u) (users db)))
            (filter (fun s => Detections.session_id d =? Sessions.id s) (sessions db)))
          (detections db))).

Definition get_admin_dashboard (db : DB) : outcome json :=
  let total_drivers :=
    Z.of_nat (List.length (filter (fun u => String.eqb (Users.role u) "driver") (users db))) in
  let active_sessions := active_sessions db in
  let drowsy_count := count_drowsy db active_sessions 0 in
  let active_sessions_list :=
    map (fun session =>
           JDict [("session_id", JInt (Sessions.id (fst session)));
                  ("user_id", JInt (Sessions.user_id (fst session)));
                  ("username", JStr (Users.username (snd session)));
                  ("start_time", JInt (Sessions.start_time (fst session)));
                  ("total_detections", JInt (Sessions.total_detections (fst session)));
                  ("alerts", JInt (Sessions.drowsy_detections (fst session)));
                  ("latest_drowsy",
                   latest_is_drowsy (latest_prediction db (Sessions.id (fst session))))])
        active_sessions in
  let total_sessions :=
    Z.of_nat (List.length (filter (fun s => is_some (Sessions.end_time s)) (sessions db))) in
  Return (JDict [("success", JBool true);
    ("data", JDict [
       ("total_drivers", JInt total_drivers);
       ("active_drivers", JInt (Z.of_nat (List.length active_sessions)));
       ("drowsy_drivers", JInt drowsy_count);
       ("total_sessions", JInt total_sessions);
       ("active_sessions", JList active_sessions_list);
       ("recent_logs",
        JList (map (fun log =>
                 JDict [("id", JInt (Detections.id (fst log)));
                        ("session_id", JInt (Detections.session_id (fst log)));
                        ("timestamp", JInt (Detections.timestamp (fst log)));
                        ("prediction", JStr (Detections.prediction (fst log)));
                        ("confidence", JFloat (Detections.confidence (fst log)));
                        ("username", JStr (Users.username (snd log)))])
               (recent_logs db)))])]).

(** [SELECT ... FROM detections WHERE session_id = ? ORDER BY timestamp]. *)
Definition session_detections (db : DB) (session_id : Z) : list Detections.row :=
  order_by Detections.timestamp
    (filter (fun d => Detections.session_id d =? session_id) (detections db)).

Definition get_session_details (db : DB) (session_id : Z) : outcome json :=
  let body :=
    match select_session db session_id with
    | None => Raise (HTTPException 404 (Text "Session not found"))
    | Some session =>
        let detections := session_detections db session_id in
        Return (JDict [("success", JBool true);
          ("data", JDict [
             ("session", JDict [
                ("id", JInt (Sessions.id session));
                ("start_time", JInt (Sessions.start_time session));
                ("end_time", JOpt JInt (Sessions.end_time session));
                ("distance", JFloat (Sessions.distance_km session));
                ("total_detections", JInt (Sessions.total_detections session));
                ("drowsy_detections", JInt (Sessions.drowsy_detections session))]);
             ("detections",
              JList (map (fun det =>
                       JDict [("timestamp", JInt (Detections.timestamp det));
                              ("prediction", JStr (Detections.prediction det));
                              ("confidence", JFloat (Detections.confidence det));
                              ("location",
                               if truthy (Detections.latitude det)
                                  && truthy (Detections.longitude det)
                               then JDict [("lat", JOpt JFloat (Detections.latitude det));
                                           ("lng", JOpt JFloat (Detections.longitude det))]
                               else JNone)])
                     detections))])])
    end in
  try_except body
    (fun e => Raise (HTTPException 500 (FStr "Failed to get session details: " e))).

(** [verify_password]: the stored text must split at its colons into
    exactly a salt and a digest; anything else raises inside the [try]
    and gives [False]. *)
Definition verify_password (password hashed : string) : bool :=
  match str_split ":" hashed with
  | [salt; password_hash] =>
      String.eqb (sha256_hexdigest (String.append password salt)) password_hash
  | _ => false
  end.

Definition login_user (db : DB) (login_data : UserLogin) : outcome json :=
  let body :=
    let user :=
      find (fun u => String.eqb (Users.username u) (ul_username login_data)) (users db) in
    match user with
    | Some user =>
        if verify_password (ul_password login_data) (Users.password_hash user)
        then
          let user_role := Users.role user in
          if match ul_role login_data with
             | Some r => negb (String.eqb r "") && negb (String.eqb user_role r)
             | None => false
             end
          then Raise (HTTPException 403 (Text "Invalid role for this account"))
          else
            Return (JDict [("success", JBool true);
                           ("user", JDict [("id", JInt (Users.id user));
                                           ("username", JStr (Users.username user));
                                           ("email", JStr (Users.email user));
                                           ("phone", JOpt JStr (Users.phone user));
                                           ("role", JStr user_role)])])
        else Raise (HTTPException 401 (Text "Invalid username or password"))
    | None => Raise (HTTPException 401 (Text "Invalid username or password"))
    end in
  match body with
  | Raise e =>
      if isinstance_HTTPException e then Raise e
      else Raise (HTTPException 500 (FStr "Login failed: " e))
  | ok => ok
  end.

(** The sessions of one driver in the roster query:
    [LEFT JOIN sessions s ON u.id = s.user_id]. *)
Definition driver_sessions (db : DB) (u : Users.row) : list Sessions.row :=
  filter (fun s => Users.id u =? Sessions.user_id s) (sessions db).

(** The scalar subquery of the roster: the start_time of the first
    active session of the driver that the scan meets ([LIMIT 1] without
    [ORDER BY]). *)
Definition active_session_start (db : DB) (u : Users.row) : option Z :=
  option_map Sessions.start_time
    (hd_error (filter (fun s2 => (Sessions.user_id s2 =? Users.id u)
                                 && is_none (Sessions.end_time s2))
                      (sessions db))).

(** [WHERE u.role = 'driver' GROUP BY u.id ORDER BY u.created_at DESC];
    [u.id] is the primary key, so a group is one user row. *)
Definition get_all_drivers (db : DB) : outcome json :=
  let drivers :=
    order_by_desc Users.created_at
      (filter (fun u => String.eqb (Users.role u) "driver") (users db)) in
  Return (JDict [("success", JBool true);
    ("data",
     JList (map (fun driver =>
              let joined := driver_sessions db driver in
              JDict [("id", JInt (Users.id driver));
                     ("username", JStr (Users.username driver));
                     ("email", JStr (Users.email driver));
                     ("phone", JOpt JStr (Users.phone driver));
                     ("created_at", JInt (Users.created_at driver));
                     ("total_sessions",
                      JInt (Z.of_nat (List.length
                                        (nodup Z.eq_dec (map Sessions.id joined)))));
                     ("total_alerts", JInt (or0 (SUM Sessions.drowsy_detections joined)));
                     ("is_active", JBool (is_some (active_session_start db driver)));
                     ("active_session_start", JOpt JInt (active_session_start db driver))])
            drivers))]).

(** [FROM sessions s JOIN users u ON s.user_id = u.id
     ORDER BY s.start_time DESC]. *)
Definition listed_sessions (db : DB) : list (Sessions.row * Users.row) :=
  order_by_desc (fun su => Sessions.start_time (fst su))
    (flat_map (fun s =>
                 map (fun u => (s, u))
                     (filter (fun u => Sessions.user_id s =? Users.id u) (users db)))
              (sessions db)).

Definition get_all_sessions (db : DB) (limit offset : Z) : outcome json :=
  let sessions_page := limit_offset limit offset (listed_sessions db) in
  let total_count := Z.of_nat (List.length (sessions db)) in
  Return (JDict [("success", JBool true);
    ("data", JDict [
       ("sessions",
        JList (map (fun session =>
                 JDict [("id", JInt (Sessions.id (fst session)));
                        ("user_id", JInt (Sessions.user_id (fst session)));
                        ("username", JStr (Users.username (snd session)));
                        ("start_time", JInt (Sessions.start_time (fst session)));
                        ("end_time", JOpt JInt (Sessions.end_time (fst session)));
                        ("total_detections",
                         JInt (Sessions.total_detections (fst session)));
                        ("alerts", JInt (Sessions.drowsy_detections (fst session)));
                        ("distance", JFloat (Sessions.distance_km (fst session)))])
               sessions_page));
       ("total", JInt total_count);
       ("limit", JInt limit);
       ("offset", JInt offset)])]).

(** *** Histories

    The requests that write to the store, each with the inputs it reads
    from its environment, and the store after a sequence of them. *)
Inductive request : Type :=
| Register (user : UserCreate) (salt : string) (now : Z)
| StartSession (session_data : SessionStart) (now : Z)
| EndSession (session_id : Z) (now : Z)
| Detect (session_id : Z) (file : Upload) (latitude longitude : option Q) (now : Z).

Definition step (db : DB) (r : request) : DB :=
  match r with
  | Register user salt now => snd (register_user db user salt now)
  | StartSession session_data now => snd (start_session db session_data now)
  | EndSession session_id now => snd (end_session db session_id now)
  | Detect session_id file latitude longitude now =>
      snd (detect_drowsiness db session_id file latitude longitude now)
  end.

Definition run (db : DB) (rs : list request) : DB := fold_left step rs db.

(** The store of a fresh deployment: empty tables, then [init_db]. *)
Definition fresh_db (salt : string) (now : Z) : DB :=
  init_db sha256_hexdigest empty_db salt now.

End Api.

Arguments infer_image {Image}.
Arguments detect_drowsiness {Upload Image}.
Arguments step {Upload Image}.
Arguments run {Upload Image}.
Arguments Register {Upload}.
Arguments StartSession {Upload}.
Arguments EndSession {Upload}.
Arguments Detect {Upload}.

(** ** The handlers on the database file

    The section above gives each handler on a connection whose statements
    all execute.  [Live] adds what keeps a statement from executing, after
    which the handler leaves through its [except] clause:
    - binding a Python int outside the signed 64-bit range raises
      [OverflowError], before the statement runs;
    - the first step of an INSERT or UPDATE takes SQLite's write lock and
      raises [OperationalError] when another connection holds it.  The
      handlers leave such connections behind themselves: [end_session]
      raises its 404 and [register_user] meets its [IntegrityError] after
      the statement has taken the lock and before [conn.commit()] and
      [conn.close()], so the connection stays open inside its transaction
      until the interpreter finalises it;
    - [cv2.imdecode] raises on an empty buffer.
    A SELECT is not held up by the write lock.  The ids and counters that
    the tables hold are 64-bit integers. *)
Module Live.

(** The database file: the committed tables, and whether a connection
    that a handler left open still holds the write lock. *)
Record Database : Type := { tables : DB; reserved : bool }.

Definition int64 (n : Z) : bool := (- 2 ^ 63 <=? n) && (n <? 2 ^ 63).

(** Binding an integer parameter of a statement. *)
Definition bind_parameter (n : Z) : outcome unit :=
  if int64 n then Return tt
  else Raise (OverflowError "Python int too large to convert to SQLite INTEGER").

(** The first step of a writing statement. *)
Definition write_lock (s : Database) : outcome unit :=
  if reserved s then Raise (OperationalError "database is locked") else Return tt.

(** After [conn.commit()] and [conn.close()]. *)
Definition committed (db : DB) : Database := {| tables := db; reserved := false |}.

(** The handler raised after its statement took the lock: nothing is
    committed and its connection stays open. *)
Definition abandoned (s : Database) : Database := {| tables := tables s; reserved := true |}.

Section Handlers.

(** [cv2.imdecode] returns the frame, returns [None], or raises. *)
Variables Upload Image : Type.
Variable imdecode : Upload -> outcome (option Image).
Variable model : option (Image -> outcome (list Yolo.Results)).
Variable sha256_hexdigest : string -> string.

Definition register_user (s : Database) (user : UserCreate) (salt : string) (now : Z)
  : outcome json * Database :=
  let db := tables s in
  let body : outcome json * Database :=
    if match uc_role user with
       | Some r => negb (String.eqb r "") && negb (String.eqb r "driver")
       | None => false
       end
    then (Raise (HTTPException 403 (Text "Only driver registration allowed")), s)
    else
      let password_hash := hash_password sha256_hexdigest (uc_password user) salt in
      match write_lock s with
      | Raise e => (Raise e, s)
      | Return _ =>
          if existsb (fun u => String.eqb (Users.username u) (uc_username user)
                               || String.eqb (Users.email u) (uc_email user)) (users db)
          then (Raise IntegrityError, abandoned s)
          else
            let user_id := next_rowid Users.id (users db) in
            (Return (JDict [("success", JBool true); ("user_id", JInt user_id);
                            ("message", JStr "User registered successfully")]),
             committed
               {| users := users db ++
                    [ {| Users.id := user_id;
                         Users.username := uc_username user;
                         Users.email := uc_email user;
                         Users.password_hash := password_hash;
                         Users.phone := uc_phone user;
                         Users.role := "driver";
                         Users.created_at := now |} ];
                  sessions := sessions db;
                  detections := detections db |})
      end
  in
  match body with
  | (Raise e, s') =>
      if isinstance_IntegrityError e
      then (Raise (HTTPException 400 (Text "Username or email already exists")), s')
      else (Raise (HTTPException 500 (FStr "Registration failed: " e)), s')
  | ok => ok
  end.

Definition start_session (s : Database) (session_data : SessionStart) (now : Z)
  : outcome json * Database :=
  let db := tables s in
  let body : outcome json * Database :=
    match (bound <- bind_parameter (ss_user_id session_data) ;; write_lock s) with
    | Raise e => (Raise e, s)
    | Return _ =>
        let session_id := next_rowid Sessions.id (sessions db) in
        (Return (JDict [("success", JBool true); ("session_id", JInt session_id)]),
         committed
           {| users := users db;
              sessions := sessions db ++
                [ {| Sessions.id := session_id;
                     Sessions.user_id := ss_user_id session_data;
                     Sessions.start_time := now;
                     Sessions.end_time := None;
                     Sessions.total_detections := 0;
                     Sessions.drowsy_detections := 0;
                     Sessions.distance_km := 0;
                     Sessions.start_lat := ss_latitude session_data;
                     Sessions.start_lng := ss_longitude session_data;
                     Sessions.end_lat := None;
                     Sessions.end_lng := None |} ];
              detections := detections db |})
    end
  in
  match body with
  | (Raise e, s') => (Raise (HTTPException 500 (FStr "Failed to start session: " e)), s')
  | ok => ok
  end.

Definition end_session (s : Database) (session_id : Z) (now : Z) : outcome json * Database :=
  let db := tables s in
  let body : outcome json * Database :=
    match (bound <- bind_parameter session_id ;; write_lock s) with
    | Raise e => (Raise e, s)
    | Return _ =>
        if (rowcount session_id (sessions db) =? 0)%nat
        then (Raise (HTTPException 404 (Text "Session not found")), abandoned s)
        else (Return (JDict [("success", JBool true);
                             ("message", JStr "Session ended successfully")]),
              committed
                {| users := users db;
                   sessions := map (set_end_time now session_id) (sessions db);
                   detections := detections db |})
    end
  in
  match body with
  | (Raise e, s') =>
      if isinstance_HTTPException e then (Raise e, s')
      else (Raise (HTTPException 500 (FStr "Failed to end session: " e)), s')
  | ok => ok
  end.

Definition detect_drowsiness (s : Database) (session_id : Z) (file : Upload)
    (latitude longitude : option Q) (now : Z) : json * Database :=
  let db := tables s in
  let body : outcome (json * Database) :=
    img <- imdecode file ;;
    match img with
    | None => Return (JDict [("success", JBool false); ("message", JStr "Invalid image")], s)
    | Some img =>
        let result := infer_image model img in
        let is_drowsy :=
          str_in (lower (prediction result)) ["drowsy"; "sleepy"; "tired"]
          && Qltb (7 # 10) (confidence result) in
        bound <- bind_parameter session_id ;;
        locked <- write_lock s ;;
        let logged :=
          detections db ++
          [ {| Detections.id := next_rowid Detections.id (detections db);
               Detections.session_id := session_id;
               Detections.timestamp := now;
               Detections.prediction := prediction result;
               Detections.confidence := confidence result;
               Detections.latitude := latitude;
               Detections.longitude := longitude |} ] in
        let updated :=
          map (update_stats (if is_drowsy then 1 else 0) session_id) (sessions db) in
        Return
          (JDict [("success", JBool true);
                  ("data", JDict [("prediction", JStr (prediction result));
                                  ("confidence", JFloat (confidence result));
                                  ("is_drowsy", JBool is_drowsy);
                                  ("alert_level",
                                   JStr (if is_drowsy && Qltb (8 # 10) (confidence result)
                                         then "high" else "low"))])],
           committed {| users := users db; sessions := updated; detections := logged |})
    end
  in
  match body with
  | Return answer => answer
  | Raise e => (JDict [("success", JBool false); ("message", JFStr "Detection failed: " e)], s)
  end.

Definition predict_frame_simple (file : Upload) : json :=
  let body : outcome json :=
    img <- imdecode file ;;
    match img with
    | None => Return (JDict [("success", JBool false); ("message", JStr "Invalid image")])
    | Some img =>
        let result := infer_image model img in
        Return (JDict [("success", JBool true);
                       ("data", JDict [("prediction", JStr (prediction result));
                                       ("confidence", JFloat (confidence result))])])
    end
  in
  match body with
  | Return answer => answer
  | Raise e => JDict [("success", JBool false); ("message", JFStr "Prediction failed: " e)]
  end.

Definition predict_image (file : Upload) : json :=
  let body : outcome json :=
    img <- imdecode file ;;
    match img with
    | None => Return (JDict [("success", JBool false); ("message", JStr "Invalid image")])
    | Some img =>
        let result := infer_image model img in
        Return (JDict [("success", JBool true);
                       ("data", JDict [("prediction", JStr (prediction result));
                                       ("confidence", JFloat (confidence result))])])
    end
  in
  match body with
  | Return answer => answer
  | Raise e => JDict [("success", JBool false); ("message", JFStr "Prediction failed: " e)]
  end.

(** The two readers of the statements below bind their integers and
    then run the queries of the section above. *)
Definition get_session_details (s : Database) (session_id : Z) : outcome json :=
  match bind_parameter session_id with
  | Raise e => Raise (HTTPException 500 (FStr "Failed to get session details: " e))
  | Return _ => get_session_details (tables s) session_id
  end.

Definition get_all_sessions (s : Database) (limit offset : Z) : outcome json :=
  match (bound <- bind_parameter limit ;; bind_parameter offset) with
  | Raise e => Raise (HTTPException 500 (FStr "Failed to get sessions: " e))
  | Return _ => get_all_sessions (tables s) limit offset
  end.

(** *** Histories

    The writing requests as they arrive, and the moment at which the
    interpreter finalises the connections that handlers left open:
    their transactions are rolled back and the lock is free again. *)
Inductive event : Type :=
| Call (r : request Upload)
| Finalize.

Definition step (s : Database) (ev : event) : Database :=
  match ev with
  | Call (Register user salt now) => snd (register_user s user salt now)
  | Call (StartSession session_data now) => snd (start_session s session_data now)
  | Call (EndSession session_id now) => snd (end_session s session_id now)
  | Call (Detect session_id file latitude longitude now) =>
      snd (detect_drowsiness s session_id file latitude longitude now)
  | Finalize => committed (tables s)
  end.

Definition run (s : Database) (evs : list event) : Database := fold_left step evs s.

Definition fresh (salt : string) (now : Z) : Database :=
  committed (fresh_db sha256_hexdigest salt now).

End Handlers.

Arguments detect_drowsiness {Upload Image}.
Arguments predict_frame_simple {Upload Image}.
Arguments predict_image {Upload Image}.
Arguments Call {Upload}.
Arguments Finalize {Upload}.
Arguments step {Upload Image}.
Arguments run {Upload Image}.

End Live.

(** What [cv2.imdecode] makes of a file for the handlers above: the
    frame, or no frame. *)
Definition decoded {Upload Image : Type} (imdecode : Upload -> outcome (option Image))
    (file : Upload) : option Image :=
  match imdecode file with
  | Return img => img
  | Raise _ => None
  end.

(** ** Vocabulary of the statements *)

(** The flag computed by [detect_drowsiness], as a proposition. *)
Definition drowsy_signal (result : Prediction) : Prop :=
  In (lower (prediction result)) ["drowsy"; "sleepy"; "tired"]
  /\ (7 # 10 < confidence result)%Q.

Definition detection_body (result : Prediction) (is_drowsy : bool) (alert_level : string)
  : json :=
  JDict [("success", JBool true);
         ("data", JDict [("prediction", JStr (prediction result));
                         ("confidence", JFloat (confidence result));
                         ("is_drowsy", JBool is_drowsy);
                         ("alert_level", JStr alert_level)])].

(** The counters of a session row are consistent. *)
Definition counters_ok (s : Sessions.row) : Prop :=
  0 <= Sessions.drowsy_detections s <= Sessions.total_detections s.

(** What every store reached by the handlers satisfies: consistent
    counters and the primary keys of users and sessions. *)
Definition store_ok (db : DB) : Prop :=
  Forall counters_ok (sessions db) /\
  NoDup (map Users.id (users db)) /\
  NoDup (map Sessions.id (sessions db)).

(** [body[key]] on a JSON object, [JNone] when the key is absent. *)
Fixpoint lookup_item (key : string) (items : list (string * json)) : json :=
  match items with
  | [] => JNone
  | (k, v) :: rest => if String.eqb k key then v else lookup_item key rest
  end.

Definition field (key : string) (body : json) : json :=
  match body with
  | JDict items => lookup_item key items
  | _ => JNone
  end.

(** One element of the detections list of [get_session_details]. *)
Definition detection_entry (det : Detections.row) : json :=
  JDict [("timestamp", JInt (Detections.timestamp det));
         ("prediction", JStr (Detections.prediction det));
         ("confidence", JFloat (Detections.confidence det));
         ("location",
          if truthy (Detections.latitude det) && truthy (Detections.longitude det)
          then JDict [("lat", JOpt JFloat (Detections.latitude det));
                      ("lng", JOpt JFloat (Detections.longitude det))]
          else JNone)].

(** The session's user_id is the id of a row of the users table. *)
Definition owner_exists (db : DB) (s : Sessions.row) : bool :=
  existsb (fun u => Users.id u =? Sessions.user_id s) (users db).

(** The label of the session's latest detection contains drowsy, case
    ignored; false when the session has no detection. *)
Definition latest_label_has_drowsy (db : DB) (s : Sessions.row) : bool :=
  match latest_detection db (Sessions.id s) with
  | Some d => contains "drowsy" (lower (Detections.prediction d))
  | None => false
  end.

(** The dict returned when no label is available. *)
Definition sentinel (label : string) : Prediction :=
  {| prediction := label; confidence := 0 |}.

(** The body of a successful [end_session]. *)
Definition session_ended : json :=
  JDict [("success", JBool true); ("message", JStr "Session ended successfully")].

(** ** A small deployment used in the examples

    An upload either fails to decode or shows one label at one raw
    confidence; the detector reports it as a single box of class 0. *)
Module Sample.
Definition Image : Type := (string * Q)%type.
Definition Upload : Type := option Image.

Definition imdecode (file : Upload) : option Image := file.

Definition model : option (Image -> outcome (list Yolo.Results)) :=
  Some (fun img =>
          Return [ {| Yolo.boxes := Some [ {| Yolo.conf := snd img; Yolo.cls := 0 |} ];
                      Yolo.names := [(0, fst img)] |} ]).

Definition sha256_hexdigest (s : string) : string := s.

Definition frame (label : string) (conf : Q) : Upload := Some (label, conf).

Definition history : list (request Upload) -> DB :=
  run imdecode model sha256_hexdigest (fresh_db sha256_hexdigest "00" 0).

Definition start (user_id now : Z) : request Upload :=
  StartSession {| ss_user_id := user_id; ss_latitude := None; ss_longitude := None |} now.

Definition detect (session_id : Z) (label : string) (conf : Q) (now : Z) : request Upload :=
  Detect session_id (frame label conf) None None now.

Definition driver : request Upload :=
  Register {| uc_username := "dana"; uc_email := "dana@example.org";
              uc_password := "secret"; uc_phone := None; uc_role := Some "driver" |}
           "01" 1.

(** One active session of the admin (user 1). *)
Definition one_session : DB := history [start 1 5].

(** The same session after one tired frame at confidence 0.9. *)
Definition busy : DB := history [start 1 5; detect 1 "tired" (9 # 10) 6].

(** Two active sessions of the admin, no detection yet. *)
Definition two_sessions : DB := history [start 1 1; start 1 2].

(** The registered driver (user 2) has one ended session with 100
    detections, 25 of them drowsy, and one active session with a drowsy
    detection that the score must ignore. *)
Definition scored : DB :=
  history ([driver; start 2 2; start 2 3]
           ++ repeat (detect 1 "sleepy" (9 # 10) 4) 25
           ++ repeat (detect 1 "awake" (9 # 10) 5) 75
           ++ [detect 2 "drowsy" (9 # 10) 6; EndSession 1 7]).


(** One session started for user 99, who does not exist, and one
    drowsy frame recorded on it. *)
Definition unowned : DB := history [start 99 1; detect 1 "drowsy" (9 # 10) 2].

(** The registered driver (user 2) holds three active sessions: the first
    ends on a drowsy frame, the second on an awake one, the third has
    no detection. *)
Definition fleet : DB :=
  history [driver; start 2 2; start 2 3; start 2 4;
           detect 1 "awake" (9 # 10) 5; detect 2 "Drowsy" (9 # 10) 6;
           detect 1 "Drowsy" (6 # 10) 7; detect 2 "awake" (8 # 10) 8].
End Sample.

(** ** A small deployment on the database file

    The uploads of [Sample], and an empty file, on which [cv2.imdecode]
    raises. *)
Module Bench.
Inductive Upload : Type :=
| Empty
| Noise
| Frame (label : string) (conf : Q).

Definition imdecode (file : Upload) : outcome (option Sample.Image) :=
  match file with
  | Empty => Raise (cv2_error "(-215:Assertion failed) !buf.empty() in function 'imdecode_'")
  | Noise => Return None
  | Frame label conf => Return (Some (label, conf))
  end.

Definition history : list (Live.event Upload) -> Live.Database :=
  Live.run imdecode Sample.model Sample.sha256_hexdigest
           (Live.fresh Sample.sha256_hexdigest "00" 0).

Definition start (user_id now : Z) : Live.event Upload :=
  Live.Call (StartSession {| ss_user_id := user_id; ss_latitude := None;
                             ss_longitude := None |} now).

Definition finish (session_id now : Z) : Live.event Upload :=
  Live.Call (EndSession session_id now).

Definition detect (session_id : Z) (label : string) (conf : Q) (now : Z)
  : Live.event Upload :=
  Live.Call (Detect session_id (Frame label conf) None None now).

Definition applicant (name : string) : UserCreate :=
  {| uc_username := name; uc_email := String.append name "@example.org";
     uc_password := "secret"; uc_phone := None; uc_role := Some "driver" |}.

Definition register (name : string) (now : Z) : Live.event Upload :=
  Live.Call (Register (applicant name) "01" now).

(** One active session of the admin (user 1). *)
Definition one_session : Live.Database := history [start 1 5].

(** The same after a request to end session 99, which does not exist: it
    was answered with 404 and its connection is still open. *)
Definition stuck : Live.Database := history [start 1 5; finish 99 6].

(** Two active sessions of the admin, no detection yet. *)
Definition two_sessions : Live.Database := history [start 1 1; start 1 2].

(** The driver dana (user 2) with three sessions, started at 2, 3 and 4. *)
Definition three_sessions : Live.Database :=
  history [register "dana" 1; start 2 2; start 2 3; start 2 4].

(** The driver dana (user 2) is registered; a second registration under
    that name was refused and its connection is still open. *)
Definition refused : Live.Database := history [register "dana" 1; register "dana" 2].
End Bench.

(** ** Vocabulary of the further properties *)

(** No character of the string is a colon. *)
Fixpoint colon_free (s : string) : bool :=
  match s with
  | EmptyString => true
  | String c s' => negb (Ascii.eqb c ":") && colon_free s'
  end.

(** [":".join(parts)]. *)
Fixpoint colon_join (parts : list string) : string :=
  match parts with
  | [] => EmptyString
  | [part] => part
  | part :: rest => String.append part (String ":" (colon_join rest))
  end.

(** The request names a role that is neither empty nor driver. *)
Definition asks_other_role (user : UserCreate) : Prop :=
  exists r, uc_role user = Some r /\ r <> "" /\ r <> "driver".

(** Some stored user already has the requested username or email. *)
Definition credentials_taken (db : DB) (user : UserCreate) : Prop :=
  exists u, In u (users db) /\
            (Users.username u = uc_username user \/ Users.email u = uc_email user).

(** The body of a successful [login_user] for a stored user. *)
Definition login_body (user : Users.row) : json :=
  JDict [("success", JBool true);
         ("user", JDict [("id", JInt (Users.id user));
                         ("username", JStr (Users.username user));
                         ("email", JStr (Users.email user));
                         ("phone", JOpt JStr (Users.phone user));
                         ("role", JStr (Users.role user))])].

(** The users table of a deployment: unique usernames and emails, the
    default admin first and only drivers after it. *)
Definition users_ok (db : DB) : Prop :=
  NoDup (map Users.username (users db)) /\
  NoDup (map Users.email (users db)) /\
  exists admin rest,
    users db = admin :: rest /\
    Users.id admin = 1 /\ Users.username admin = "admin" /\ Users.role admin = "admin" /\
    Forall (fun u => Users.role u = "driver") rest.

(** How a stored session row may differ later: only its counters, which
    do not decrease, and its end_time, which stays set once it is set. *)
Definition evolves (s s' : Sessions.row) : Prop :=
  Sessions.id s' = Sessions.id s /\
  Sessions.user_id s' = Sessions.user_id s /\
  Sessions.start_time s' = Sessions.start_time s /\
  Sessions.start_lat s' = Sessions.start_lat s /\
  Sessions.start_lng s' = Sessions.start_lng s /\
  Sessions.distance_km s' = Sessions.distance_km s /\
  Sessions.end_lat s' = Sessions.end_lat s /\
  Sessions.end_lng s' = Sessions.end_lng s /\
  Sessions.total_detections s <= Sessions.total_detections s' /\
  Sessions.drowsy_detections s <= Sessions.drowsy_detections s' /\
  (Sessions.end_time s <> None -> Sessions.end_time s' <> None).

(** The later store keeps every row of the earlier one: users and
    detections as they were, sessions up to [evolves], new rows behind. *)
Definition grows (db db' : DB) : Prop :=
  (exists new_users, users db' = users db ++ new_users) /\
  (exists new_detections, detections db' = detections db ++ new_detections) /\
  (exists old_sessions new_sessions,
      sessions db' = old_sessions ++ new_sessions /\
      Forall2 evolves (sessions db) old_sessions).

(** The row that [init_db] inserts into an empty users table. *)
Definition default_admin (sha256_hexdigest : string -> string) (salt : string) (now : Z)
  : Users.row :=
  {| Users.id := 1;
     Users.username := "admin";
     Users.email := "admin@drowsyguard.com";
     Users.password_hash := hash_password sha256_hexdigest "admin123" salt;
     Users.phone := None;
     Users.role := "admin";
     Users.created_at := now |}.

(** No request has written a distance or an end location into the row. *)
Definition never_measured (s : Sessions.row) : Prop :=
  Sessions.distance_km s = 0%Q /\ Sessions.end_lat s = None /\ Sessions.end_lng s = None.

(** The drowsiness test of [detect_drowsiness] on a stored row. *)
Definition drowsy_row (d : Detections.row) : bool :=
  str_in (lower (Detections.prediction d)) ["drowsy"; "sleepy"; "tired"]
  && Qltb (7 # 10) (Detections.confidence d).

(** The number of stored detections of a session that pass that test. *)
Definition drowsy_rows (db : DB) (s : Sessions.row) : Z :=
  Z.of_nat (List.length
    (filter (fun d => (Detections.session_id d =? Sessions.id s) && drowsy_row d)
            (detections db))).

(** Every stored detection refers to a stored session. *)
Definition no_orphans (db : DB) : Prop :=
  forall d, In d (detections db) ->
            exists s, In s (sessions db) /\ Sessions.id s = Detections.session_id d.

(** The counters of a row against the stored detections of its session. *)
Definition counters_at_most_rows (db : DB) (s : Sessions.row) : Prop :=
  Sessions.total_detections s <= detection_count db s /\
  Sessions.drowsy_detections s <= drowsy_rows db s.

Definition counters_match_rows (db : DB) (s : Sessions.row) : Prop :=
  Sessions.total_detections s = detection_count db s /\
  Sessions.drowsy_detections s = drowsy_rows db s.


(** The box that [infer_image] reports: the first one of greatest
    confidence. *)
Definition top_box (boxes : list Yolo.Box) : Yolo.Box :=
  nth (argmax (map Yolo.conf boxes)) boxes {| Yolo.conf := 0; Yolo.cls := 0 |}.

(** One element of the recent_sessions list of [get_dashboard]. *)
Definition recent_entry (db : DB) (session : Sessions.row) : json :=
  JDict [("id", JInt (Sessions.id session));
         ("start_time", JInt (Sessions.start_time session));
         ("end_time", JOpt JInt (Sessions.end_time session));
         ("alerts", JInt (Sessions.drowsy_detections session));
         ("total_detections", JInt (Sessions.total_detections session));
         ("detection_count", JInt (detection_count db session))].

(** One element of the recent_logs list of [get_admin_dashboard]. *)
Definition log_entry (log : Detections.row * Users.row) : json :=
  JDict [("id", JInt (Detections.id (fst log)));
         ("session_id", JInt (Detections.session_id (fst log)));
         ("timestamp", JInt (Detections.timestamp (fst log)));
         ("prediction", JStr (Detections.prediction (fst log)));
         ("confidence", JFloat (Detections.confidence (fst log)));
         ("username", JStr (Users.username (snd log)))].

(** The join of the recent_logs query: every detection with the
    session it refers to and the user of that session. *)
Definition joined_logs (db : DB) : list (Detections.row * Users.row) :=
  flat_map (fun d =>
     flat_map (fun s =>
        map (fun u => (d, u))
            (filter (fun u => Sessions.user_id s =? Users.id u) (users db)))
       (filter (fun s => Detections.session_id d =? Sessions.id s) (sessions db)))
    (detections db).

(** The session that the detection refers to exists, and so does the
    user of that session. *)
Definition detection_owned (db : DB) (d : Detections.row) : bool :=
  match select_session db (Detections.session_id d) with
  | Some s => owner_exists db s
  | None => false
  end.

(** One element of the sessions list of [get_all_sessions]. *)
Definition session_entry (session : Sessions.row * Users.row) : json :=
  JDict [("id", JInt (Sessions.id (fst session)));
         ("user_id", JInt (Sessions.user_id (fst session)));
         ("username", JStr (Users.username (snd session)));
         ("start_time", JInt (Sessions.start_time (fst session)));
         ("end_time", JOpt JInt (Sessions.end_time (fst session)));
         ("total_detections", JInt (Sessions.total_detections (fst session)));
         ("alerts", JInt (Sessions.drowsy_detections (fst session)));
         ("distance", JFloat (Sessions.distance_km (fst session)))].

(** One element of the list of [get_all_drivers]. *)
Definition roster_entry (db : DB) (driver : Users.row) : json :=
  JDict [("id", JInt (Users.id driver));
         ("username", JStr (Users.username driver));
         ("email", JStr (Users.email driver));
         ("phone", JOpt JStr (Users.phone driver));
         ("created_at", JInt (Users.created_at driver));
         ("total_sessions",
          JInt (Z.of_nat (List.length
                            (nodup Z.eq_dec (map Sessions.id (driver_sessions db driver))))));
         ("total_alerts",
          JInt (or0 (SUM Sessions.drowsy_detections (driver_sessions db driver))));
         ("is_active", JBool (is_some (active_session_start db driver)));
         ("active_session_start", JOpt JInt (active_session_start db driver))].

(** Every detection request of the history names a session that exists
    when the request arrives. *)
Fixpoint known_targets {Upload Image : Type} (imdecode : Upload -> option Image)
    (model : option (Image -> outcome (list Yolo.Results)))
    (sha256_hexdigest : string -> string) (db : DB) (rs : list (request Upload)) : Prop :=
  match rs with
  | [] => True
  | r :: rest =>
      match r with
      | Detect session_id _ _ _ _ =>
          exists s, In s (sessions db) /\ Sessions.id s = session_id
      | _ => True
      end /\
      known_targets imdecode model sha256_hexdigest
        (step imdecode model sha256_hexdigest db r) rest
  end.

(** A stand-in for SHA-256 in the examples: two lowercase hexadecimal
    digits per character, so digests are colon free and distinct texts
    have distinct digests. *)
Module Hex.
Definition digit (n : N) : ascii :=
  ascii_of_N (if (n <? 10)%N then 48 + n else 87 + n).

Fixpoint hexdigest (s : string) : string :=
  match s with
  | EmptyString => EmptyString
  | String c s' =>
      String (digit (N_of_ascii c / 16)) (String (digit (N_of_ascii c mod 16)) (hexdigest s'))
  end.

Definition history : list (request Sample.Upload) -> DB :=
  run Sample.imdecode Sample.model hexdigest (fresh_db hexdigest "00" 0).
End Hex.

(** * Properties *)

(** ** Booleans of the code against the propositions they decide *)

Lemma Qltb_lt (x y : Q) : Qltb x y = true <-> (x < y)%Q.
Proof.
  unfold Qltb. rewrite negb_true_iff. split; intro H.
  - apply Qnot_le_lt. intro Hle. apply Qle_bool_iff in Hle. congruence.
  - destruct (Qle_bool y x) eqn:E; [|reflexivity].
    apply Qle_bool_iff in E. exfalso. exact (Qlt_not_le _ _ H E).
Qed.

Lemma Qltb_ge (x y : Q) : Qltb x y = false <-> (y <= x)%Q.
Proof.
  unfold Qltb. rewrite negb_false_iff. apply Qle_bool_iff.
Qed.

Lemma str_in_In (x : string) (xs : list string) : str_in x xs = true <-> In x xs.
Proof.
  unfold str_in. rewrite existsb_exists. split.
  - intros [y [Hin Heq]]. apply String.eqb_eq in Heq. now subst.
  - intro Hin. exists x. split; [assumption | apply String.eqb_refl].
Qed.

Lemma int64_range (n : Z) : Live.int64 n = true <-> - 2 ^ 63 <= n < 2 ^ 63.
Proof.
  unfold Live.int64. rewrite andb_true_iff, Z.leb_le, Z.ltb_lt. tauto.
Qed.

Lemma bind_parameter_fits (n : Z) :
  - 2 ^ 63 <= n < 2 ^ 63 -> Live.bind_parameter n = Return tt.
Proof.
  intro H. apply int64_range in H. unfold Live.bind_parameter. now rewrite H.
Qed.

Lemma bind_parameter_overflow (n : Z) :
  ~ (- 2 ^ 63 <= n < 2 ^ 63) ->
  Live.bind_parameter n
  = Raise (OverflowError "Python int too large to convert to SQLite INTEGER").
Proof.
  intro H. unfold Live.bind_parameter.
  destruct (Live.int64 n) eqn:E; [|reflexivity].
  apply int64_range in E. contradiction.
Qed.

(** ** What one detection request does *)

Section Detect.
Variables Upload Image : Type.
Variable imdecode : Upload -> option Image.
Variable model : option (Image -> outcome (list Yolo.Results)).

Lemma detect_drowsiness_decoded
    (db : DB) (session_id : Z) (file : Upload) (latitude longitude : option Q)
    (now : Z) (img : Image) :
  imdecode file = Some img ->
  let result := infer_image model img in
  exists is_drowsy : bool,
    (is_drowsy = true <-> drowsy_signal result) /\
    detect_drowsiness imdecode model db session_id file latitude longitude now =
      (detection_body result is_drowsy
         (if is_drowsy && Qltb (8 # 10) (confidence result) then "high" else "low"),
       {| users := users db;
          sessions := map (update_stats (if is_drowsy then 1 else 0) session_id)
                          (sessions db);
          detections := detections db ++
            [ {| Detections.id := next_rowid Detections.id (detections db);
                 Detections.session_id := session_id;
                 Detections.timestamp := now;
                 Detections.prediction := prediction result;
                 Detections.confidence := confidence result;
                 Detections.latitude := latitude;
                 Detections.longitude := longitude |} ] |}).
Proof.
  intros Hdec result.
  exists (str_in (lower (prediction result)) ["drowsy"; "sleepy"; "tired"]
          && Qltb (7 # 10) (confidence result)).
  split.
  - unfold drowsy_signal. rewrite andb_true_iff, str_in_In, Qltb_lt. tauto.
  - unfold detect_drowsiness. rewrite Hdec. reflexivity.
Qed.

Lemma detect_drowsiness_undecodable
    (db : DB) (session_id : Z) (file : Upload) (latitude longitude : option Q) (now : Z) :
  imdecode file = None ->
  detect_drowsiness imdecode model db session_id file latitude longitude now =
    (JDict [("success", JBool false); ("message", JStr "Invalid image")], db).
Proof.
  intro Hdec. unfold detect_drowsiness. now rewrite Hdec.
Qed.

End Detect.

Lemma Forall2_map_self {A} (R : A -> A -> Prop) (f : A -> A) (l : list A) :
  (forall x, In x l -> R x (f x)) -> Forall2 R l (map f l).
Proof.
  induction l as [|x l IH]; intro H; simpl; constructor.
  - apply H. now left.
  - apply IH. intros y Hy. apply H. now right.
Qed.

Lemma map_unchanged {A} (f : A -> A) (l : list A) :
  (forall x, In x l -> f x = x) -> map f l = l.
Proof.
  induction l as [|x l IH]; intro H; simpl; [reflexivity|].
  rewrite H by now left. f_equal. apply IH. intros y Hy. apply H. now right.
Qed.

Lemma update_stats_other (inc session_id : Z) (s : Sessions.row) :
  Sessions.id s <> session_id -> update_stats inc session_id s = s.
Proof.
  intro H. unfold update_stats. apply Z.eqb_neq in H. now rewrite H.
Qed.

Lemma set_end_time_other (now session_id : Z) (s : Sessions.row) :
  Sessions.id s <> session_id -> set_end_time now session_id s = s.
Proof.
  intro H. unfold set_end_time. apply Z.eqb_neq in H. now rewrite H.
Qed.

Lemma update_stats_id (inc session_id : Z) (s : Sessions.row) :
  Sessions.id (update_stats inc session_id s) = Sessions.id s.
Proof. unfold update_stats. now destruct (Sessions.id s =? session_id). Qed.

Lemma set_end_time_id (now session_id : Z) (s : Sessions.row) :
  Sessions.id (set_end_time now session_id s) = Sessions.id s.
Proof. unfold set_end_time. now destruct (Sessions.id s =? session_id). Qed.

(** C1: the response to a decodable frame carries the classifier's label
    and confidence; its is_drowsy flag is true exactly when the lowercased
    label is one of drowsy, sleepy, tired and the confidence exceeds 0.7;
    its alert_level is high exactly when the flag is true and the
    confidence exceeds 0.8, and low otherwise.  Label tired at 0.65 gives
    a false flag; label Drowsy at 0.85 gives a true flag and level high. *)
Theorem detect_drowsiness_flags :
  forall (Upload Image : Type) (imdecode : Upload -> option Image)
         (model : option (Image -> outcome (list Yolo.Results)))
         (db : DB) (session_id : Z) (file : Upload) (latitude longitude : option Q)
         (now : Z) (img : Image),
    imdecode file = Some img ->
    let result := infer_image model img in
    exists (is_drowsy : bool) (alert_level : string),
      fst (detect_drowsiness imdecode model db session_id file latitude longitude now)
        = detection_body result is_drowsy alert_level /\
      (is_drowsy = true <->
         In (lower (prediction result)) ["drowsy"; "sleepy"; "tired"]
         /\ (7 # 10 < confidence result)%Q) /\
      (alert_level = "high" <-> is_drowsy = true /\ (8 # 10 < confidence result)%Q) /\
      (alert_level = "low" <-> ~ (is_drowsy = true /\ (8 # 10 < confidence result)%Q)) /\
      (prediction result = "tired" -> (confidence result == 65 # 100)%Q ->
         is_drowsy = false /\ alert_level = "low") /\
      (prediction result = "Drowsy" -> (confidence result == 85 # 100)%Q ->
         is_drowsy = true /\ alert_level = "high").
Proof.
  intros Upload Image imdecode model db session_id file latitude longitude now img Hdec result.
  destruct (detect_drowsiness_decoded Upload Image imdecode model db session_id file
              latitude longitude now img Hdec) as [b [Hb Heq]].
  fold result in Hb, Heq.
  exists b, (if b && Qltb (8 # 10) (confidence result) then "high" else "low").
  rewrite Heq. unfold drowsy_signal in Hb.
  assert (Hlevel : b && Qltb (8 # 10) (confidence result) = true <->
                   b = true /\ (8 # 10 < confidence result)%Q)
    by (rewrite andb_true_iff, Qltb_lt; tauto).
  assert (Hhigh : (if b && Qltb (8 # 10) (confidence result) then "high" else "low") = "high"
                   <-> b = true /\ (8 # 10 < confidence result)%Q).
  { rewrite <- Hlevel.
    destruct (b && Qltb (8 # 10) (confidence result)); split; congruence. }
  assert (Hlow : (if b && Qltb (8 # 10) (confidence result) then "high" else "low") = "low"
                   <-> ~ (b = true /\ (8 # 10 < confidence result)%Q)).
  { rewrite <- Hlevel.
    destruct (b && Qltb (8 # 10) (confidence result)); split; congruence. }
  split; [reflexivity|]. split; [exact Hb|].
  split; [exact Hhigh|]. split; [exact Hlow|].
  split.
  - intros Hp Hc.
    assert (Hbf : b = false).
    { destruct b; [|reflexivity].
      destruct Hb as [Hb _]. destruct (Hb eq_refl) as [_ Hlt].
      rewrite Hc in Hlt. discriminate Hlt. }
    split; [exact Hbf|]. apply Hlow. intros [Hbt _]. congruence.
  - intros Hp Hc.
    assert (Hbt : b = true)
      by (apply Hb; rewrite Hp, Hc; split; [simpl; tauto | reflexivity]).
    split; [exact Hbt|]. apply Hhigh. split; [exact Hbt | rewrite Hc; reflexivity].
Qed.

Lemma detect_drowsiness_flags_witness :
  Sample.imdecode (Sample.frame "Drowsy" (85 # 100)) = Some ("Drowsy", 85 # 100) /\
  exists (is_drowsy : bool) (alert_level : string),
    fst (detect_drowsiness Sample.imdecode Sample.model empty_db 1
           (Sample.frame "Drowsy" (85 # 100)) None None 10)
      = detection_body (infer_image Sample.model ("Drowsy", 85 # 100)) is_drowsy alert_level
    /\ is_drowsy = true /\ alert_level = "high".
Proof.
  split; [reflexivity|].
  destruct (detect_drowsiness_flags Sample.Upload Sample.Image Sample.imdecode Sample.model
              empty_db 1 (Sample.frame "Drowsy" (85 # 100)) None None 10
              ("Drowsy", 85 # 100) eq_refl)
    as [b [lvl [Hresp [_ [_ [_ [_ Hex]]]]]]].
  exists b, lvl. split; [exact Hresp|]. apply Hex; reflexivity.
Defined.

(** *** The ways a detection request is answered *)

Section LiveDetect.
Variables Upload Image : Type.
Variable imdecode : Upload -> outcome (option Image).
Variable model : option (Image -> outcome (list Yolo.Results)).

Lemma live_detect_raised (s : Live.Database) (session_id : Z) (file : Upload)
    (latitude longitude : option Q) (now : Z) (e : exn) :
  imdecode file = Raise e ->
  Live.detect_drowsiness imdecode model s session_id file latitude longitude now =
    (JDict [("success", JBool false); ("message", JFStr "Detection failed: " e)], s).
Proof.
  intro Hdec. unfold Live.detect_drowsiness. now rewrite Hdec.
Qed.

Lemma live_detect_undecodable (s : Live.Database) (session_id : Z) (file : Upload)
    (latitude longitude : option Q) (now : Z) :
  imdecode file = Return None ->
  Live.detect_drowsiness imdecode model s session_id file latitude longitude now =
    (JDict [("success", JBool false); ("message", JStr "Invalid image")], s).
Proof.
  intro Hdec. unfold Live.detect_drowsiness. now rewrite Hdec.
Qed.

Lemma live_detect_overflow (s : Live.Database) (session_id : Z) (file : Upload)
    (latitude longitude : option Q) (now : Z) (img : Image) :
  imdecode file = Return (Some img) ->
  ~ (- 2 ^ 63 <= session_id < 2 ^ 63) ->
  Live.detect_drowsiness imdecode model s session_id file latitude longitude now =
    (JDict [("success", JBool false);
            ("message",
             JFStr "Detection failed: "
                   (OverflowError "Python int too large to convert to SQLite INTEGER"))], s).
Proof.
  intros Hdec H. unfold Live.detect_drowsiness.
  now rewrite Hdec, (bind_parameter_overflow _ H).
Qed.

Lemma live_detect_locked (s : Live.Database) (session_id : Z) (file : Upload)
    (latitude longitude : option Q) (now : Z) (img : Image) :
  imdecode file = Return (Some img) ->
  - 2 ^ 63 <= session_id < 2 ^ 63 -> Live.reserved s = true ->
  Live.detect_drowsiness imdecode model s session_id file latitude longitude now =
    (JDict [("success", JBool false);
            ("message", JFStr "Detection failed: " (OperationalError "database is locked"))],
     s).
Proof.
  intros Hdec H Hr. unfold Live.detect_drowsiness, Live.write_lock.
  now rewrite Hdec, (bind_parameter_fits _ H), Hr.
Qed.

(** With the frame decoded, the id bound and the lock free, the request
    does what the handler does on a connection that executes every
    statement, and the connection is closed. *)
Lemma live_detect_stored (s : Live.Database) (session_id : Z) (file : Upload)
    (latitude longitude : option Q) (now : Z) (img : Image) :
  imdecode file = Return (Some img) ->
  - 2 ^ 63 <= session_id < 2 ^ 63 -> Live.reserved s = false ->
  Live.detect_drowsiness imdecode model s session_id file latitude longitude now =
    (fst (detect_drowsiness (decoded imdecode) model (Live.tables s) session_id file
            latitude longitude now),
     Live.committed
       (snd (detect_drowsiness (decoded imdecode) model (Live.tables s) session_id file
               latitude longitude now))).
Proof.
  intros Hdec H Hr.
  unfold Live.detect_drowsiness, Live.write_lock, detect_drowsiness, decoded.
  now rewrite Hdec, (bind_parameter_fits _ H), Hr.
Qed.

(** The answer says success only in the last of the five cases. *)
Lemma live_detect_success (s : Live.Database) (session_id : Z) (file : Upload)
    (latitude longitude : option Q) (now : Z) :
  field "success"
        (fst (Live.detect_drowsiness imdecode model s session_id file latitude longitude now))
  = JBool true ->
  exists img, imdecode file = Return (Some img) /\
              - 2 ^ 63 <= session_id < 2 ^ 63 /\ Live.reserved s = false.
Proof.
  intro Hs. destruct (imdecode file) as [[img|]|e] eqn:Hdec.
  - destruct (Live.int64 session_id) eqn:Ei.
    + apply int64_range in Ei. destruct (Live.reserved s) eqn:Er.
      * rewrite (live_detect_locked _ _ _ _ _ _ img Hdec Ei Er) in Hs. discriminate Hs.
      * exists img. auto.
    + assert (Hover : ~ (- 2 ^ 63 <= session_id < 2 ^ 63))
        by (intro H; apply int64_range in H; congruence).
      rewrite (live_detect_overflow _ _ _ _ _ _ img Hdec Hover) in Hs. discriminate Hs.
  - rewrite (live_detect_undecodable _ _ _ _ _ _ Hdec) in Hs. discriminate Hs.
  - rewrite (live_detect_raised _ _ _ _ _ _ e Hdec) in Hs. discriminate Hs.
Qed.


(** Every other answer leaves the database as it was. *)
Lemma live_detect_failure (s : Live.Database) (session_id : Z) (file : Upload)
    (latitude longitude : option Q) (now : Z) :
  field "success"
        (fst (Live.detect_drowsiness imdecode model s session_id file latitude longitude now))
  <> JBool true ->
  snd (Live.detect_drowsiness imdecode model s session_id file latitude longitude now) = s.
Proof.
  intro Hs. destruct (imdecode file) as [[img|]|e] eqn:Hdec.
  - destruct (Live.int64 session_id) eqn:Ei.
    + apply int64_range in Ei. destruct (Live.reserved s) eqn:Er.
      * now rewrite (live_detect_locked _ _ _ _ _ _ img Hdec Ei Er).
      * exfalso. apply Hs.
        rewrite (live_detect_stored _ _ _ _ _ _ img Hdec Ei Er). cbn [fst].
        assert (Hd : decoded imdecode file = Some img) by (unfold decoded; now rewrite Hdec).
        destruct (detect_drowsiness_decoded Upload Image (decoded imdecode) model
                    (Live.tables s) session_id file latitude longitude now img Hd)
          as [b [_ Heq]].
        rewrite Heq. reflexivity.
    + assert (Hover : ~ (- 2 ^ 63 <= session_id < 2 ^ 63))
        by (intro H; apply int64_range in H; congruence).
      now rewrite (live_detect_overflow _ _ _ _ _ _ img Hdec Hover).
  - now rewrite (live_detect_undecodable _ _ _ _ _ _ Hdec).
  - now rewrite (live_detect_raised _ _ _ _ _ _ e Hdec).
Qed.

End LiveDetect.




(** C8, as the code has it.  Take a detection request with a decodable
    frame whose session id matches no row of the sessions table.  When
    the id fits in 64 bits and the write lock is free it raises nothing:
    it answers with success, appends the detection row carrying that
    unknown id, and leaves the sessions table, hence every counter, as it
    was.  When the id does not fit in 64 bits it cannot be bound to the
    INSERT, and when the lock is held the INSERT fails: the request
    answers with success false and nothing is inserted. *)
Theorem detect_drowsiness_unknown_session :
  forall (Upload Image : Type) (imdecode : Upload -> outcome (option Image))
         (model : option (Image -> outcome (list Yolo.Results)))
         (s : Live.Database) (session_id : Z) (file : Upload)
         (latitude longitude : option Q) (now : Z) (img : Image),
    imdecode file = Return (Some img) ->
    (forall row, In row (sessions (Live.tables s)) -> Sessions.id row <> session_id) ->
    let db := Live.tables s in
    let result := infer_image model img in
    let out := Live.detect_drowsiness imdecode model s session_id file
                 latitude longitude now in
    let db' := Live.tables (snd out) in
    let fits := - 2 ^ 63 <= session_id < 2 ^ 63 in
    (fits -> Live.reserved s = false ->
     exists (is_drowsy : bool) (alert_level : string) (d : Detections.row),
       fst out = detection_body result is_drowsy alert_level /\
       detections db' = detections db ++ [d] /\
       Detections.session_id d = session_id /\
       Detections.prediction d = prediction result /\
       Detections.confidence d = confidence result /\
       select_session db' session_id = None /\
       sessions db' = sessions db /\
       users db' = users db /\
       Live.reserved (snd out) = false) /\
    (~ fits ->
     out = (JDict [("success", JBool false);
                   ("message",
                    JFStr "Detection failed: "
                          (OverflowError
                             "Python int too large to convert to SQLite INTEGER"))], s)) /\
    (fits -> Live.reserved s = true ->
     out = (JDict [("success", JBool false);
                   ("message",
                    JFStr "Detection failed: " (OperationalError "database is locked"))], s)).
Proof.
  intros Upload Image imdecode model s session_id file latitude longitude now img Hdec
         Hnone db result out db' fits.
  subst db' out db.
  split; [|split].
  - intros Hfits Hfree.
    assert (Hd : decoded imdecode file = Some img) by (unfold decoded; now rewrite Hdec).
    destruct (detect_drowsiness_decoded Upload Image (decoded imdecode) model
                (Live.tables s) session_id file latitude longitude now img Hd)
      as [b [_ Heq]].
    fold result in Heq.
    rewrite (live_detect_stored Upload Image imdecode model s session_id file
               latitude longitude now img Hdec Hfits Hfree), Heq.
    cbn [fst snd Live.tables Live.committed Live.reserved users sessions detections].
    assert (Hsame : map (update_stats (if b then 1 else 0) session_id)
                        (sessions (Live.tables s))
                    = sessions (Live.tables s)).
    { apply map_unchanged. intros row Hrow. apply update_stats_other. now apply Hnone. }
    eexists b, _, _. split; [reflexivity|]. split; [reflexivity|].
    repeat (split; [reflexivity|]).
    split; [|split; [exact Hsame | split; reflexivity]].
    unfold select_session. cbn [sessions]. rewrite Hsame.
    destruct (find _ (sessions (Live.tables s))) as [row|] eqn:Hfind; [|reflexivity].
    apply find_some in Hfind. destruct Hfind as [Hin Hid].
    apply Z.eqb_eq in Hid. now apply Hnone in Hin.
  - intro Hover.
    apply (live_detect_overflow Upload Image imdecode model s session_id file
             latitude longitude now img Hdec Hover).
  - intros Hfits Hheld.
    apply (live_detect_locked Upload Image imdecode model s session_id file
             latitude longitude now img Hdec Hfits Hheld).
Qed.

Lemma detect_drowsiness_unknown_session_witness :
  Bench.imdecode (Bench.Frame "drowsy" (9 # 10)) = Return (Some ("drowsy", 9 # 10)) /\
  map Sessions.id (sessions (Live.tables Bench.one_session)) = [1] /\
  Live.reserved Bench.one_session = false /\
  (let out := Live.detect_drowsiness Bench.imdecode Sample.model Bench.one_session 42
                (Bench.Frame "drowsy" (9 # 10)) None None 7 in
   map Detections.session_id (detections (Live.tables (snd out))) = [42] /\
   sessions (Live.tables (snd out)) = sessions (Live.tables Bench.one_session)).
Proof.
  assert (Hnone : forall row, In row (sessions (Live.tables Bench.one_session)) ->
                              Sessions.id row <> 42).
  { intros row [<-|[]]. discriminate. }
  assert (Hfits : - 2 ^ 63 <= 42 < 2 ^ 63) by lia.
  split; [reflexivity|]. split; [reflexivity|]. split; [reflexivity|].
  destruct (detect_drowsiness_unknown_session Bench.Upload Sample.Image Bench.imdecode
              Sample.model Bench.one_session 42 (Bench.Frame "drowsy" (9 # 10))
              None None 7 ("drowsy", 9 # 10) eq_refl Hnone)
    as [Hstored _].
  destruct (Hstored Hfits eq_refl)
    as [b [lvl [d [_ [Hdet [Hsid [_ [_ [_ [Hsess _]]]]]]]]]].
  cbv zeta. rewrite Hdet, Hsess. split; [|reflexivity].
  simpl. now rewrite Hsid.
Defined.

(** C8 as stated fails.  No session has the id 2^63, the frame decodes
    and the write lock is free, yet the request does not succeed and
    inserts no detection row: the id cannot be bound to the INSERT. *)
Lemma detect_drowsiness_unbound :
  map Sessions.id (sessions (Live.tables Bench.one_session)) = [1] /\
  Live.reserved Bench.one_session = false /\
  detections (Live.tables Bench.one_session) = [] /\
  Bench.imdecode (Bench.Frame "drowsy" (9 # 10)) = Return (Some ("drowsy", 9 # 10)) /\
  Live.detect_drowsiness Bench.imdecode Sample.model Bench.one_session (2 ^ 63)
    (Bench.Frame "drowsy" (9 # 10)) None None 7
  = (JDict [("success", JBool false);
            ("message",
             JFStr "Detection failed: "
                   (OverflowError "Python int too large to convert to SQLite INTEGER"))],
     Bench.one_session).
Proof.
  repeat split; reflexivity.
Qed.

(** ** Ending a session *)

Lemma rowcount_zero (session_id : Z) (rows : list Sessions.row) :
  rowcount session_id rows = 0%nat <->
  (forall s, In s rows -> Sessions.id s <> session_id).
Proof.
  unfold rowcount. induction rows as [|r rows IH]; simpl.
  - split; [intros _ s [] | reflexivity].
  - destruct (Sessions.id r =? session_id) eqn:E; simpl.
    + split; [discriminate|]. intro H. exfalso.
      apply Z.eqb_eq in E. exact (H r (or_introl eq_refl) E).
    + rewrite IH. apply Z.eqb_neq in E. split.
      * intros H s [<-|Hin]; [exact E | now apply H].
      * intros H s Hin. apply H. now right.
Qed.

Lemma end_session_missing (db : DB) (session_id now : Z) :
  (forall s, In s (sessions db) -> Sessions.id s <> session_id) ->
  end_session db session_id now = (Raise (HTTPException 404 (Text "Session not found")), db).
Proof.
  intro H. apply rowcount_zero in H. unfold end_session. rewrite H. reflexivity.
Qed.

Lemma end_session_present (db : DB) (session_id now : Z) (s : Sessions.row) :
  In s (sessions db) -> Sessions.id s = session_id ->
  end_session db session_id now =
    (Return session_ended,
     {| users := users db;
        sessions := map (set_end_time now session_id) (sessions db);
        detections := detections db |}).
Proof.
  intros Hin Hid. unfold end_session.
  destruct (rowcount session_id (sessions db) =? 0)%nat eqn:E; [|reflexivity].
  apply Nat.eqb_eq in E. exfalso. exact (proj1 (rowcount_zero _ _) E s Hin Hid).
Qed.


(** *** The four ways a request to end a session is answered *)

Lemma live_end_session_overflow (s : Live.Database) (session_id now : Z) :
  ~ (- 2 ^ 63 <= session_id < 2 ^ 63) ->
  Live.end_session s session_id now =
    (Raise (HTTPException 500
              (FStr "Failed to end session: "
                    (OverflowError "Python int too large to convert to SQLite INTEGER"))), s).
Proof.
  intro H. unfold Live.end_session. now rewrite (bind_parameter_overflow _ H).
Qed.

Lemma live_end_session_locked (s : Live.Database) (session_id now : Z) :
  - 2 ^ 63 <= session_id < 2 ^ 63 -> Live.reserved s = true ->
  Live.end_session s session_id now =
    (Raise (HTTPException 500
              (FStr "Failed to end session: " (OperationalError "database is locked"))), s).
Proof.
  intros H Hr. unfold Live.end_session, Live.write_lock.
  now rewrite (bind_parameter_fits _ H), Hr.
Qed.

Lemma live_end_session_missing (s : Live.Database) (session_id now : Z) :
  - 2 ^ 63 <= session_id < 2 ^ 63 -> Live.reserved s = false ->
  (forall row, In row (sessions (Live.tables s)) -> Sessions.id row <> session_id) ->
  Live.end_session s session_id now =
    (Raise (HTTPException 404 (Text "Session not found")), Live.abandoned s).
Proof.
  intros H Hr Hnone. apply rowcount_zero in Hnone.
  unfold Live.end_session, Live.write_lock.
  now rewrite (bind_parameter_fits _ H), Hr, Hnone.
Qed.

Lemma live_end_session_present (s : Live.Database) (session_id now : Z) (row : Sessions.row) :
  - 2 ^ 63 <= session_id < 2 ^ 63 -> Live.reserved s = false ->
  In row (sessions (Live.tables s)) -> Sessions.id row = session_id ->
  Live.end_session s session_id now =
    (Return session_ended,
     Live.committed
       {| users := users (Live.tables s);
          sessions := map (set_end_time now session_id) (sessions (Live.tables s));
          detections := detections (Live.tables s) |}).
Proof.
  intros H Hr Hin Hid. unfold Live.end_session, Live.write_lock.
  rewrite (bind_parameter_fits _ H), Hr. cbn [bind].
  destruct (rowcount session_id (sessions (Live.tables s)) =? 0)%nat eqn:E; [|reflexivity].
  apply Nat.eqb_eq in E. exfalso. exact (proj1 (rowcount_zero _ _) E row Hin Hid).
Qed.




(** C10: a successful [end_session] keeps the users and detections
    tables and, row by row of the sessions table, every column except
    end_time: id, user_id, start_time, both counters, distance_km and the
    start and end coordinates.  Rows with the requested id get end_time
    set to the time of the call; every other row is unchanged.  The
    handler takes no distance or location, so none is stored. *)
Theorem end_session_frame :
  forall (db : DB) (session_id now : Z) (s0 : Sessions.row),
    In s0 (sessions db) -> Sessions.id s0 = session_id ->
    let db' := snd (end_session db session_id now) in
    fst (end_session db session_id now) = Return session_ended /\
    users db' = users db /\
    detections db' = detections db /\
    Forall2
      (fun s s' =>
         Sessions.id s' = Sessions.id s /\
         Sessions.user_id s' = Sessions.user_id s /\
         Sessions.start_time s' = Sessions.start_time s /\
         Sessions.total_detections s' = Sessions.total_detections s /\
         Sessions.drowsy_detections s' = Sessions.drowsy_detections s /\
         Sessions.distance_km s' = Sessions.distance_km s /\
         Sessions.start_lat s' = Sessions.start_lat s /\
         Sessions.start_lng s' = Sessions.start_lng s /\
         Sessions.end_lat s' = Sessions.end_lat s /\
         Sessions.end_lng s' = Sessions.end_lng s /\
         (Sessions.id s = session_id -> Sessions.end_time s' = Some now) /\
         (Sessions.id s <> session_id -> s' = s))
      (sessions db) (sessions db').
Proof.
  intros db session_id now s0 Hin Hid db'. subst db'.
  rewrite (end_session_present db session_id now s0 Hin Hid). simpl.
  repeat (split; [reflexivity|]).
  apply Forall2_map_self. intros s _. unfold set_end_time.
  destruct (Sessions.id s =? session_id) eqn:E; simpl.
  - apply Z.eqb_eq in E. repeat split; try reflexivity. intro H. contradiction.
  - apply Z.eqb_neq in E. repeat split; try reflexivity. intro H. contradiction.
Qed.

Lemma end_session_frame_witness :
  (exists s, In s (sessions Sample.busy) /\ Sessions.id s = 1) /\
  map (fun s => (Sessions.id s, Sessions.total_detections s, Sessions.drowsy_detections s))
      (sessions (snd (end_session Sample.busy 1 20))) = [(1, 1, 1)] /\
  detections (snd (end_session Sample.busy 1 20)) = detections Sample.busy.
Proof.
  assert (Hin : exists s, In s (sessions Sample.busy) /\ Sessions.id s = 1)
    by (eexists; split; [left; reflexivity | reflexivity]).
  split; [exact Hin|].
  destruct Hin as [s [Hin Hid]].
  destruct (end_session_frame Sample.busy 1 20 s Hin Hid) as [_ [_ [Hdet Hrows]]].
  split; [|exact Hdet].
  remember (sessions (snd (end_session Sample.busy 1 20))) as rows' eqn:Erows. clear Erows.
  inversion Hrows as [|s1 s1' l1 l1' H1 Hnil]; subst.
  inversion Hnil; subst. simpl.
  destruct H1 as [Hi [_ [_ [Ht [Hd _]]]]]. now rewrite Hi, Ht, Hd.
Defined.

(** ** Invariants of the store *)

Lemma next_rowid_above {A} (id : A -> Z) (rows : list A) (x : A) :
  In x rows -> id x < next_rowid id rows.
Proof.
  unfold next_rowid. induction rows as [|y rows IH]; cbn [map fold_right In]; [intros []|].
  intros [->|Hin]; [lia|]. specialize (IH Hin). lia.
Qed.

Lemma NoDup_append_fresh {A} (id : A -> Z) (rows : list A) (x : A) :
  NoDup (map id rows) -> id x = next_rowid id rows -> NoDup (map id (rows ++ [x])).
Proof.
  intros Hnd Hid. rewrite map_app. simpl.
  apply NoDup_app; [exact Hnd | repeat constructor; intros [] |].
  intros k Hk [<-|[]]. apply in_map_iff in Hk. destruct Hk as [y [Hy Hin]].
  apply (next_rowid_above id) in Hin. lia.
Qed.

Lemma store_ok_empty : store_ok empty_db.
Proof. repeat split; constructor. Qed.

Lemma store_ok_init_db (sha256_hexdigest : string -> string) (db : DB) (salt : string)
    (now : Z) :
  store_ok db -> store_ok (init_db sha256_hexdigest db salt now).
Proof.
  intros [Hc [Hu Hs]]. unfold init_db.
  destruct (find _ (users db)); [now repeat split|].
  repeat split; simpl; try assumption.
  now apply NoDup_append_fresh.
Qed.

Section Histories.
Variables Upload Image : Type.
Variable imdecode : Upload -> option Image.
Variable model : option (Image -> outcome (list Yolo.Results)).
Variable sha256_hexdigest : string -> string.

Lemma store_ok_register_user (db : DB) (user : UserCreate) (salt : string) (now : Z) :
  store_ok db -> store_ok (snd (register_user sha256_hexdigest db user salt now)).
Proof.
  intros [Hc [Hu Hs]]. unfold register_user.
  destruct (match uc_role user with Some _ => _ | None => _ end); simpl;
    [now repeat split|].
  destruct (existsb _ (users db)); simpl; [now repeat split|].
  repeat split; simpl; try assumption.
  now apply NoDup_append_fresh.
Qed.

Lemma store_ok_start_session (db : DB) (session_data : SessionStart) (now : Z) :
  store_ok db -> store_ok (snd (start_session db session_data now)).
Proof.
  intros [Hc [Hu Hs]]. unfold start_session. simpl. repeat split; simpl.
  - apply Forall_app. split; [exact Hc|]. repeat constructor; simpl; lia.
  - exact Hu.
  - now apply NoDup_append_fresh.
Qed.

Lemma map_id_preserved {A} (id : A -> Z) (f : A -> A) (rows : list A) :
  (forall x, id (f x) = id x) -> map id (map f rows) = map id rows.
Proof.
  intro H. rewrite map_map. apply map_ext. exact H.
Qed.

Lemma store_ok_end_session (db : DB) (session_id now : Z) :
  store_ok db -> store_ok (snd (end_session db session_id now)).
Proof.
  intros [Hc [Hu Hs]]. unfold end_session.
  destruct (rowcount session_id (sessions db) =? 0)%nat; simpl; [now repeat split|].
  repeat split; simpl; try assumption.
  - apply Forall_map. revert Hc. apply Forall_impl. intros s Hs0.
    unfold counters_ok, set_end_time in *.
    destruct (Sessions.id s =? session_id); simpl; lia.
  - rewrite map_id_preserved; [exact Hs | intro; apply set_end_time_id].
Qed.

Lemma store_ok_detect_drowsiness (db : DB) (session_id : Z) (file : Upload)
    (latitude longitude : option Q) (now : Z) :
  store_ok db ->
  store_ok (snd (detect_drowsiness imdecode model db session_id file latitude longitude now)).
Proof.
  intros [Hc [Hu Hs]]. unfold detect_drowsiness.
  destruct (imdecode file) as [img|]; simpl; [|now repeat split].
  repeat split; simpl; try assumption.
  - apply Forall_map. revert Hc. apply Forall_impl. intros s Hs0.
    unfold counters_ok, update_stats in *.
    destruct (Sessions.id s =? session_id); simpl; [|lia].
    destruct (_ && _); lia.
  - rewrite map_id_preserved; [exact Hs | intro; apply update_stats_id].
Qed.

Lemma store_ok_step (db : DB) (r : request Upload) :
  store_ok db -> store_ok (step imdecode model sha256_hexdigest db r).
Proof.
  destruct r; simpl.
  - apply store_ok_register_user.
  - apply store_ok_start_session.
  - apply store_ok_end_session.
  - apply store_ok_detect_drowsiness.
Qed.

Lemma store_ok_run (rs : list (request Upload)) (db : DB) :
  store_ok db -> store_ok (run imdecode model sha256_hexdigest db rs).
Proof.
  revert db. induction rs as [|r rs IH]; intros db Hok; simpl; [exact Hok|].
  apply IH. now apply store_ok_step.
Qed.

Lemma store_ok_history (salt : string) (now : Z) (rs : list (request Upload)) :
  store_ok (run imdecode model sha256_hexdigest (fresh_db sha256_hexdigest salt now) rs).
Proof.
  apply store_ok_run, store_ok_init_db, store_ok_empty.
Qed.

End Histories.

(** C3: in every store reached from the empty tables, or from the store
    of a fresh deployment, by any sequence of registrations, session
    starts, session ends and detection requests, every session row has
    drowsy_detections <= total_detections. *)
Theorem drowsy_le_total :
  forall (Upload Image : Type) (imdecode : Upload -> option Image)
         (model : option (Image -> outcome (list Yolo.Results)))
         (sha256_hexdigest : string -> string) (salt : string) (now : Z)
         (rs : list (request Upload)),
    Forall (fun s => Sessions.drowsy_detections s <= Sessions.total_detections s)
           (sessions (run imdecode model sha256_hexdigest empty_db rs)) /\
    Forall (fun s => Sessions.drowsy_detections s <= Sessions.total_detections s)
           (sessions (run imdecode model sha256_hexdigest
                          (fresh_db sha256_hexdigest salt now) rs)).
Proof.
  intros. split.
  - destruct (store_ok_run Upload Image imdecode model sha256_hexdigest rs empty_db
                store_ok_empty) as [Hc _].
    revert Hc. apply Forall_impl. unfold counters_ok. intros; lia.
  - destruct (store_ok_history Upload Image imdecode model sha256_hexdigest salt now rs)
      as [Hc _].
    revert Hc. apply Forall_impl. unfold counters_ok. intros; lia.
Qed.

(** ** ORDER BY *)

Section OrderBy.
Variable A : Type.
Variable le : A -> A -> bool.
Variable R : A -> A -> Prop.
Hypothesis le_R : forall x y, le x y = true -> R x y.
Hypothesis le_total : forall x y, le x y = false -> R y x.
Hypothesis R_trans : forall x y z, R x y -> R y z -> R x z.

Lemma insert_by_perm (x : A) (l : list A) : Permutation (insert_by le x l) (x :: l).
Proof.
  induction l as [|y l IH]; simpl; [reflexivity|].
  destruct (le x y); [reflexivity|].
  rewrite IH. apply perm_swap.
Qed.

Lemma insertion_perm (l : list A) : Permutation (fold_right (insert_by le) [] l) l.
Proof.
  induction l as [|x l IH]; simpl; [reflexivity|].
  rewrite insert_by_perm. now constructor.
Qed.

Lemma insert_by_sorted (x : A) (l : list A) :
  StronglySorted R l -> StronglySorted R (insert_by le x l).
Proof.
  induction 1 as [|y l Hs IH Hy]; simpl.
  - repeat constructor.
  - destruct (le x y) eqn:E.
    + constructor; [now constructor|].
      apply le_R in E. constructor; [exact E|].
      revert Hy. apply Forall_impl. intros z Hz. eapply R_trans; eassumption.
    + constructor; [exact IH|].
      apply le_total in E.
      assert (Hall : Forall (R y) (x :: l)) by now constructor.
      revert Hall. apply Permutation_Forall. symmetry. apply insert_by_perm.
Qed.

Lemma insertion_sorted (l : list A) : StronglySorted R (fold_right (insert_by le) [] l).
Proof.
  induction l as [|x l IH]; simpl; [constructor | now apply insert_by_sorted].
Qed.

End OrderBy.

Lemma order_by_perm {A} (key : A -> Z) (rows : list A) :
  Permutation (order_by key rows) rows.
Proof. apply insertion_perm. Qed.

Lemma order_by_desc_perm {A} (key : A -> Z) (rows : list A) :
  Permutation (order_by_desc key rows) rows.
Proof. apply insertion_perm. Qed.

Lemma order_by_sorted {A} (key : A -> Z) (rows : list A) :
  StronglySorted (fun x y => key x <= key y) (order_by key rows).
Proof.
  apply insertion_sorted.
  - intros x y H. now apply Z.leb_le.
  - intros x y H. apply Z.leb_gt in H. lia.
  - intros x y z. lia.
Qed.

Lemma order_by_desc_sorted {A} (key : A -> Z) (rows : list A) :
  StronglySorted (fun x y => key y <= key x) (order_by_desc key rows).
Proof.
  apply insertion_sorted.
  - intros x y H. now apply Z.leb_le.
  - intros x y H. apply Z.leb_gt in H. lia.
  - intros x y z. lia.
Qed.

(** The first row in descending order is a row of the table whose key no
    other row exceeds; there is none exactly when the table is empty. *)
Lemma order_by_desc_head {A} (key : A -> Z) (rows : list A) :
  match hd_error (order_by_desc key rows) with
  | Some x => In x rows /\ forall y, In y rows -> key y <= key x
  | None => rows = []
  end.
Proof.
  pose proof (order_by_desc_perm key rows) as Hp.
  pose proof (order_by_desc_sorted key rows) as Hs.
  destruct (order_by_desc key rows) as [|x l] eqn:E; simpl.
  - now apply Permutation_nil in Hp.
  - split.
    + apply (Permutation_in x Hp). now left.
    + intros y Hy. symmetry in Hp. apply (Permutation_in y Hp) in Hy.
      inversion Hs as [|x' l' _ Hall]; subst.
      destruct Hy as [<-|Hy]; [lia|].
      rewrite Forall_forall in Hall. now apply Hall.
Qed.

(** ** Session details *)

(** C4: what [get_session_details] does.  When no row has the requested
    id the 404 raised inside the handler is caught by its own
    [except Exception] clause and leaves as a 500 error that wraps it; no
    call ever raises the 404.  When a row has the id, the body carries
    that row and the detections of the session, all of them, in ascending
    timestamp order.  On the empty store, id 1 gives the 500 error. *)
Theorem get_session_details_outcomes :
  (forall (db : DB) (session_id : Z),
     match select_session db session_id with
     | None =>
         get_session_details db session_id =
           Raise (HTTPException 500
                    (FStr "Failed to get session details: "
                          (HTTPException 404 (Text "Session not found"))))
     | Some session =>
         exists (body : json) (dets : list Detections.row),
           get_session_details db session_id = Return body /\
           field "success" body = JBool true /\
           field "id" (field "session" (field "data" body)) = JInt session_id /\
           field "total_detections" (field "session" (field "data" body))
             = JInt (Sessions.total_detections session) /\
           field "drowsy_detections" (field "session" (field "data" body))
             = JInt (Sessions.drowsy_detections session) /\
           field "detections" (field "data" body) = JList (map detection_entry dets) /\
           Permutation dets
             (filter (fun d => Detections.session_id d =? session_id) (detections db)) /\
           StronglySorted (fun d1 d2 => Detections.timestamp d1 <= Detections.timestamp d2)
                          dets
     end) /\
  (forall (db : DB) (session_id : Z),
     get_session_details db session_id
       <> Raise (HTTPException 404 (Text "Session not found"))) /\
  get_session_details empty_db 1 =
    Raise (HTTPException 500
             (FStr "Failed to get session details: "
                   (HTTPException 404 (Text "Session not found")))).
Proof.
  split; [|split].
  - intros db session_id. unfold get_session_details.
    destruct (select_session db session_id) as [session|] eqn:Hsel; [|reflexivity].
    eexists _, (session_detections db session_id).
    split; [reflexivity|]. simpl.
    unfold select_session in Hsel. apply find_some in Hsel.
    destruct Hsel as [_ Hid]. apply Z.eqb_eq in Hid. rewrite Hid.
    repeat (split; [reflexivity|]).
    split; [apply order_by_perm | apply order_by_sorted].
  - intros db session_id. unfold get_session_details.
    destruct (select_session db session_id); simpl; discriminate.
  - reflexivity.
Qed.

(** ** Substrings *)

Lemma prefix_spec (sub s : string) :
  prefix sub s = true <-> exists post, s = String.append sub post.
Proof.
  revert s. induction sub as [|c sub IH]; intro s.
  - split; [intros _; now exists s | intros _; now destruct s].
  - destruct s as [|c' s]; simpl.
    + split; [discriminate | intros [post H]; discriminate].
    + destruct (ascii_dec c c') as [->|Hne].
      * rewrite IH. split; intros [post H]; exists post; congruence.
      * split; [discriminate | intros [post H]; congruence].
Qed.

(** [contains sub s] holds exactly when [s] is some text, then [sub],
    then some text. *)
Lemma contains_spec (sub s : string) :
  contains sub s = true <->
  exists pre post, s = String.append pre (String.append sub post).
Proof.
  induction s as [|c s IH]; cbn [contains].
  - rewrite orb_false_r, prefix_spec. split.
    + intros [post H]. now exists "", post.
    + intros [pre [post H]]. destruct pre; [now exists post | discriminate].
  - rewrite orb_true_iff, IH, prefix_spec. split.
    + intros [[post H]|[pre [post H]]].
      * now exists "", post.
      * exists (String c pre), post. simpl. now rewrite H.
    + intros [pre [post H]]. destruct pre as [|c' pre]; simpl in H.
      * left. now exists post.
      * right. exists pre, post. congruence.
Qed.

(** ** The fleet snapshot *)

Lemma filter_length_perm {A} (p : A -> bool) (l l' : list A) :
  Permutation l l' -> List.length (filter p l) = List.length (filter p l').
Proof.
  induction 1 as [|x l l' _ IH|x y l|l l' l'' _ IH1 _ IH2]; simpl.
  - reflexivity.
  - destruct (p x); simpl; congruence.
  - destruct (p x), (p y); reflexivity.
  - congruence.
Qed.

Lemma count_drowsy_filter (db : DB) (rows : list (Sessions.row * Users.row)) (acc : Z) :
  count_drowsy db rows acc =
  acc + Z.of_nat (List.length
          (filter (fun su => latest_label_has_drowsy db (fst su)) rows)).
Proof.
  revert acc. induction rows as [|su rows IH]; intro acc; cbn [count_drowsy filter];
    [simpl; lia|].
  rewrite IH.
  assert (Hflag : json_truthy (latest_is_drowsy (latest_prediction db (Sessions.id (fst su))))
                  = latest_label_has_drowsy db (fst su)).
  { unfold latest_label_has_drowsy, latest_prediction.
    destruct (latest_detection db (Sessions.id (fst su))) as [d|]; simpl; [|reflexivity].
    destruct (String.eqb (Detections.prediction d) "") eqn:E; simpl; [|reflexivity].
    apply String.eqb_eq in E. now rewrite E. }
  rewrite Hflag. destruct (latest_label_has_drowsy db (fst su)); cbn [List.length]; lia.
Qed.

Lemma unique_match (us : list Users.row) (k : Z) :
  NoDup (map Users.id us) ->
  List.length (filter (fun u => k =? Users.id u) us)
  = if existsb (fun u => Users.id u =? k) us then 1%nat else 0%nat.
Proof.
  induction us as [|u us IH]; simpl; [reflexivity|].
  intro Hnd. inversion Hnd as [|i ids Hnotin Hnd']; subst.
  rewrite (Z.eqb_sym (Users.id u) k).
  destruct (k =? Users.id u) eqn:E; simpl.
  - apply Z.eqb_eq in E. subst k.
    assert (Hnone : filter (fun u0 => Users.id u =? Users.id u0) us = []).
    { clear IH Hnd Hnd'. induction us as [|v us IHus]; simpl; [reflexivity|].
      destruct (Users.id u =? Users.id v) eqn:Ev.
      - apply Z.eqb_eq in Ev. exfalso. apply Hnotin. simpl. now left.
      - apply IHus. intro Hin. apply Hnotin. simpl. now right. }
    now rewrite Hnone.
  - now apply IH.
Qed.

Lemma joined_count (db : DB) (p : Sessions.row -> bool) (ss : list Sessions.row) :
  NoDup (map Users.id (users db)) ->
  List.length
    (filter (fun su : Sessions.row * Users.row => p (fst su))
       (flat_map (fun s =>
                    map (fun u => (s, u))
                        (filter (fun u => Sessions.user_id s =? Users.id u) (users db)))
                 (filter (fun s => is_none (Sessions.end_time s)) ss)))
  = List.length
      (filter (fun s => is_none (Sessions.end_time s) && owner_exists db s && p s) ss).
Proof.
  intro Hnd. induction ss as [|s ss IH]; simpl; [reflexivity|].
  destruct (is_none (Sessions.end_time s)); simpl; [|exact IH].
  rewrite filter_app, length_app, IH. clear IH.
  pose proof (unique_match (users db) (Sessions.user_id s) Hnd) as Hm.
  unfold owner_exists at 2.
  destruct (existsb _ (users db)); simpl.
  - destruct (filter _ (users db)) as [|u [|u' rest]]; try discriminate Hm. simpl.
    destruct (p s); reflexivity.
  - destruct (filter _ (users db)) as [|u rest]; [reflexivity | discriminate Hm].
Qed.

Lemma latest_detection_spec (db : DB) (session_id : Z) :
  match latest_detection db session_id with
  | Some d =>
      In d (detections db) /\ Detections.session_id d = session_id /\
      forall d', In d' (detections db) -> Detections.session_id d' = session_id ->
                 Detections.timestamp d' <= Detections.timestamp d
  | None => forall d, In d (detections db) -> Detections.session_id d <> session_id
  end.
Proof.
  unfold latest_detection.
  pose proof (order_by_desc_head Detections.timestamp
                (filter (fun d => Detections.session_id d =? session_id) (detections db)))
    as H.
  destruct (hd_error _) as [d|].
  - destruct H as [Hin Hmax]. apply filter_In in Hin. destruct Hin as [Hin Hid].
    apply Z.eqb_eq in Hid. repeat split; try assumption.
    intros d' Hin' Hid'. apply Hmax. apply filter_In. split; [exact Hin'|].
    now apply Z.eqb_eq.
  - intros d Hin Hid. assert (Hf : In d []); [|destruct Hf].
    rewrite <- H. apply filter_In. split; [exact Hin | now apply Z.eqb_eq].
Qed.

(** C7, as the code has it: drowsy_drivers is the number of session rows
    that are active (end_time NULL), whose user_id is the id of an
    existing user (the query joins users), and whose latest detection has
    a label containing drowsy, case ignored.  The latest detection of a
    session is one of its detections with the greatest timestamp, and
    there is none exactly when the session has no detection.  The count
    is per session row, not per user. *)
Theorem drowsy_drivers_count :
  forall db : DB,
    NoDup (map Users.id (users db)) ->
    (exists body : json,
       get_admin_dashboard db = Return body /\
       field "drowsy_drivers" (field "data" body) =
         JInt (Z.of_nat (List.length
                 (filter (fun s => is_none (Sessions.end_time s)
                                   && owner_exists db s
                                   && latest_label_has_drowsy db s)
                         (sessions db))))) /\
    (forall session_id : Z,
       match latest_detection db session_id with
       | Some d =>
           In d (detections db) /\ Detections.session_id d = session_id /\
           forall d', In d' (detections db) -> Detections.session_id d' = session_id ->
                      Detections.timestamp d' <= Detections.timestamp d
       | None => forall d, In d (detections db) -> Detections.session_id d <> session_id
       end).
Proof.
  intros db Hnd. split; [|apply latest_detection_spec].
  unfold get_admin_dashboard. eexists. split; [reflexivity|].
  transitivity (JInt (count_drowsy db (active_sessions db) 0)); [reflexivity|].
  f_equal. rewrite count_drowsy_filter. unfold active_sessions.
  rewrite (filter_length_perm _ _ _ (order_by_desc_perm _ _)).
  rewrite (joined_count db (latest_label_has_drowsy db) (sessions db) Hnd).
  reflexivity.
Qed.

Lemma drowsy_drivers_count_witness :
  NoDup (map Users.id (users Sample.fleet)) /\
  map (fun s => (Sessions.id s, Sessions.user_id s, Sessions.end_time s,
                 latest_label_has_drowsy Sample.fleet s))
      (sessions Sample.fleet)
    = [(1, 2, None, true); (2, 2, None, false); (3, 2, None, false)] /\
  exists body : json,
    get_admin_dashboard Sample.fleet = Return body /\
    field "drowsy_drivers" (field "data" body) = JInt 1.
Proof.
  assert (Hnd : NoDup (map Users.id (users Sample.fleet))).
  { apply (store_ok_history Sample.Upload Sample.Image Sample.imdecode Sample.model
             Sample.sha256_hexdigest). }
  split; [exact Hnd|]. split; [vm_compute; reflexivity|].
  destruct (drowsy_drivers_count Sample.fleet Hnd) as [[body [Hbody Hcount]] _].
  exists body. split; [exact Hbody|]. rewrite Hcount. vm_compute. reflexivity.
Defined.

(** C7 as stated fails: an active session whose latest label is drowsy
    but whose user_id matches no user is left out of the count. *)
Lemma drowsy_drivers_skips_unowned :
  List.length (filter (fun s => is_none (Sessions.end_time s)
                                && latest_label_has_drowsy Sample.unowned s)
                      (sessions Sample.unowned)) = 1%nat /\
  exists body : json,
    get_admin_dashboard Sample.unowned = Return body /\
    field "drowsy_drivers" (field "data" body) = JInt 0.
Proof.
  split; [vm_compute; reflexivity|].
  eexists. split; [reflexivity|]. vm_compute. reflexivity.
Qed.

(** ** Rounding *)

Lemma round_half_even_near (x : Q) :
  (Qabs (inject_Z (round_half_even x) - x) <= 1 # 2)%Q.
Proof.
  unfold round_half_even.
  pose proof (Qfloor_le x) as Hlo. pose proof (Qlt_floor x) as Hhi.
  rewrite inject_Z_plus in Hhi. change (inject_Z 1) with 1%Q in Hhi.
  apply Qabs_Qle_condition.
  destruct (Qcompare_spec (x - inject_Z (Qfloor x)) (1 # 2)) as [He|Hl|Hg].
  - destruct (Z.even (Qfloor x)).
    + split; lra.
    + rewrite inject_Z_plus. change (inject_Z 1) with 1%Q. split; lra.
  - split; lra.
  - rewrite inject_Z_plus. change (inject_Z 1) with 1%Q. split; lra.
Qed.

Lemma round_half_even_comp (x y : Q) : (x == y)%Q -> round_half_even x = round_half_even y.
Proof.
  intro H. unfold round_half_even.
  rewrite (Qfloor_comp x y H).
  assert (Hc : (x - inject_Z (Qfloor y) ?= 1 # 2)%Q = (y - inject_Z (Qfloor y) ?= 1 # 2)%Q).
  { apply Qcompare_comp; [now rewrite H | reflexivity]. }
  now rewrite Hc.
Qed.

Lemma round_comp (x y : Q) (n : nat) : (x == y)%Q -> round x n = round y n.
Proof.
  intro H. unfold round. f_equal. f_equal. apply round_half_even_comp. now rewrite H.
Qed.

Lemma scale_pos (n : nat) : (0 < inject_Z (10 ^ Z.of_nat n))%Q.
Proof.
  change 0%Q with (inject_Z 0). rewrite <- Zlt_Qlt. apply Z.pow_pos_nonneg; lia.
Qed.

(** [round x n] is a multiple of [10^-n] no further than half a unit of
    that grid from [x]. *)
Lemma round_nearest (x : Q) (n : nat) :
  (exists k : Z, round x n == inject_Z k / inject_Z (10 ^ Z.of_nat n))%Q /\
  (Qabs (round x n - x) * inject_Z (10 ^ Z.of_nat n) <= 1 # 2)%Q.
Proof.
  split; [eexists; unfold round; reflexivity|].
  unfold round. pose proof (scale_pos n) as Hs.
  set (s := inject_Z (10 ^ Z.of_nat n)) in *.
  pose proof (round_half_even_near (x * s)) as Hk.
  set (k := inject_Z (round_half_even (x * s))) in *.
  apply Qabs_Qle_condition in Hk. destruct Hk as [Hk1 Hk2].
  assert (Hd : ((k / s - x) * s == k - x * s)%Q) by (field; lra).
  apply (Qabs_case (k / s - x)); intro Hsign; nra.
Qed.

Lemma round_nearest_4 (x : Q) : (Qabs (round x 4 - x) <= 1 # 20000)%Q.
Proof.
  destruct (round_nearest x 4) as [_ H].
  change (inject_Z (10 ^ Z.of_nat 4)) with (10000 # 1)%Q in H. lra.
Qed.


(** An argument strictly within half a unit of an integer rounds to it. *)
Lemma round_half_even_open (y : Q) (n : Z) :
  (inject_Z n - (1 # 2) < y)%Q -> (y < inject_Z n + (1 # 2))%Q -> round_half_even y = n.
Proof.
  intros Hlo Hhi. pose proof (round_half_even_near y) as Hk.
  set (k := round_half_even y) in *.
  apply Qabs_Qle_condition in Hk. destruct Hk as [Hk1 Hk2].
  assert (H1 : k < n + 1).
  { rewrite Zlt_Qlt, inject_Z_plus. change (inject_Z 1) with 1%Q. lra. }
  assert (H2 : n < k + 1).
  { rewrite Zlt_Qlt, inject_Z_plus. change (inject_Z 1) with 1%Q. lra. }
  lia.
Qed.


(** ** Double precision *)

Lemma pow2_pos (e : Z) : (0 < 2 ^ e)%Q.
Proof. apply Qpower_0_lt. reflexivity. Qed.

Lemma pow2_inject (a : Z) : 0 <= a -> (inject_Z (2 ^ a) == 2 ^ a)%Q.
Proof. intro H. now rewrite Zpower_Qpower. Qed.

(** A positive rational lies strictly between the powers of two one
    below and one above the difference of the bit lengths of its
    numerator and denominator. *)
Lemma bit_length_bounds (x : Q) :
  (0 < x)%Q ->
  let k := Z.log2 (Qnum x) - Z.log2 (Zpos (Qden x)) in
  (2 ^ (k - 1) < x /\ x < 2 ^ (k + 1))%Q.
Proof.
  intro Hx. destruct x as [n d]. cbn [Qnum Qden].
  assert (Hn : 0 < n).
  { unfold Qlt in Hx. cbn in Hx. lia. }
  set (a := Z.log2 n). set (b := Z.log2 (Z.pos d)).
  assert (Ha : 2 ^ a <= n < 2 ^ (a + 1)).
  { pose proof (Z.log2_spec n Hn) as H. now rewrite <- Z.add_1_r in H. }
  assert (Hb : 2 ^ b <= Z.pos d < 2 ^ (b + 1)).
  { pose proof (Z.log2_spec (Z.pos d) eq_refl) as H. now rewrite <- Z.add_1_r in H. }
  assert (Ha0 : 0 <= a) by apply Z.log2_nonneg.
  assert (Hb0 : 0 <= b) by apply Z.log2_nonneg.
  assert (Hpa : 0 < 2 ^ a) by (apply Z.pow_pos_nonneg; lia).
  assert (Hpb : 0 < 2 ^ b) by (apply Z.pow_pos_nonneg; lia).
  assert (Hnz : ~ (2 == 0)%Q) by discriminate.
  assert (E1 : (2 ^ (a - b - 1) == inject_Z (2 ^ a) / inject_Z (2 ^ (b + 1)))%Q).
  { replace (a - b - 1) with (a - (b + 1)) by lia.
    rewrite (Qpower_minus 2 a (b + 1) Hnz), !pow2_inject by lia. reflexivity. }
  assert (E2 : (2 ^ (a - b + 1) == inject_Z (2 ^ (a + 1)) / inject_Z (2 ^ b))%Q).
  { replace (a - b + 1) with (a + 1 - b) by lia.
    rewrite (Qpower_minus 2 (a + 1) b Hnz), !pow2_inject by lia. reflexivity. }
  cbv zeta. rewrite E1, E2.
  assert (Hd1 : (0 < inject_Z (2 ^ (b + 1)))%Q).
  { change 0%Q with (inject_Z 0). rewrite <- Zlt_Qlt. lia. }
  assert (Hd2 : (0 < inject_Z (2 ^ b))%Q).
  { change 0%Q with (inject_Z 0). rewrite <- Zlt_Qlt. lia. }
  split.
  - apply Qlt_shift_div_r; [exact Hd1|].
    unfold Qlt, Qmult, inject_Z. cbn [Qnum Qden]. nia.
  - apply Qlt_shift_div_l; [exact Hd2|].
    unfold Qlt, Qmult, inject_Z. cbn [Qnum Qden]. nia.
Qed.

(** [Qlog2 x] is the exponent of the binade of [x]. *)
Lemma Qlog2_spec (x : Q) :
  (0 < x)%Q -> (2 ^ Qlog2 x <= x /\ x < 2 ^ (Qlog2 x + 1))%Q.
Proof.
  intro Hx. destruct (bit_length_bounds x Hx) as [Hlo Hhi]. unfold Qlog2.
  set (k := Z.log2 (Qnum x) - Z.log2 (Z.pos (Qden x))) in *.
  destruct (Qle_bool (2 ^ k) x) eqn:E.
  - apply Qle_bool_iff in E. split; [exact E | exact Hhi].
  - assert (Hlt : (x < 2 ^ k)%Q).
    { apply Qnot_le_lt. intro H. apply Qle_bool_iff in H. congruence. }
    replace (k - 1 + 1) with k by lia. split; [now apply Qlt_le_weak | exact Hlt].
Qed.

Lemma Qlog2_below (x : Q) (m : Z) : (0 < x)%Q -> (x < 2 ^ m)%Q -> Qlog2 x < m.
Proof.
  intros Hx Hm. destruct (Qlog2_spec x Hx) as [Hlo _].
  apply (Qpower_lt_compat_l_inv 2); [|reflexivity].
  now apply (Qle_lt_trans _ x).
Qed.

(** The double nearest to [x] is at most half a unit in the last place
    away from [x]. *)
Lemma binary64_ulp (x : Q) :
  ~ (x == 0)%Q ->
  (Qabs (binary64 x - x) <= 2 ^ Z.max (Qlog2 (Qabs x) - 52) (-1074) * (1 # 2))%Q.
Proof.
  intro Hx. unfold binary64.
  destruct (Qeq_bool x 0) eqn:E; [apply Qeq_bool_iff in E; contradiction|].
  cbv zeta. set (e := Z.max (Qlog2 (Qabs x) - 52) (-1074)).
  rewrite Qred_correct.
  pose proof (pow2_pos e) as Hp. set (p := (2 ^ e)%Q) in *.
  pose proof (round_half_even_near (x / p)) as Hk.
  set (k := inject_Z (round_half_even (x / p))) in *.
  apply Qabs_Qle_condition in Hk. destruct Hk as [Hk1 Hk2].
  assert (Hy : (x / p * p == x)%Q) by (field; lra).
  set (y := (x / p)%Q) in *.
  apply Qabs_Qle_condition. split; nra.
Qed.

(** Below 256 in magnitude that is [2^-46] at most. *)
Lemma binary64_near (x : Q) :
  (Qabs x < 256)%Q -> (Qabs (binary64 x - x) <= 1 # 70368744177664)%Q.
Proof.
  intro Hx. destruct (Qeq_dec x 0) as [Hz|Hnz].
  - unfold binary64. rewrite ((proj2 (Qeq_bool_iff x 0)) Hz).
    rewrite Hz. discriminate.
  - apply (Qle_trans _ _ _ (binary64_ulp x Hnz)).
    assert (Hpos : (0 < Qabs x)%Q).
    { apply Qabs_case; intro H; apply Qle_lteq in H; destruct H as [H|H].
      - exact H.
      - exfalso. apply Hnz. now symmetry.
      - lra.
      - exfalso. now apply Hnz. }
    assert (Hl : Qlog2 (Qabs x) < 8) by (apply Qlog2_below; [exact Hpos | exact Hx]).
    assert (He : Z.max (Qlog2 (Qabs x) - 52) (-1074) <= -45) by lia.
    pose proof (Qpower_le_compat_l 2 _ _ He) as Hp.
    assert (Hp' : (2 ^ Z.max (Qlog2 (Qabs x) - 52) (-1074) <= 2 ^ (-45))%Q)
      by (apply Hp; discriminate).
    change (2 ^ (-45))%Q with (1 # 35184372088832)%Q in Hp'. lra.
Qed.

(** On the doubles of the kernel the score takes the values that
    [safety_score] gives it. *)
Lemma safety_score_on_doubles :
  forallb (fun counts =>
             Qeq_bool (float_value (float_safety_score (fst counts) (snd counts)))
                      (safety_score (fst counts) (snd counts)))
          [(49, 160); (25, 100); (0, 7); (7, 7); (1, 3); (2, 3); (1, 7); (3, 8);
           (499, 1000); (12345, 99999); (1, 1000000007); (111, 160); (7, 12);
           (1000, 1999); (33, 100); (29, 57); (5, 0)]
  = true.
Proof. vm_compute. reflexivity. Qed.

(** ** The inference wrapper *)

Lemma argmax_from_spec (xs : list Q) :
  forall (best_idx : nat) (best : Q) (i : nat),
    (argmax_from best_idx best i xs = best_idx /\ Forall (fun y => y <= best)%Q xs) \/
    (exists (j : nat) (v : Q),
        argmax_from best_idx best i xs = (i + j)%nat /\
        nth_error xs j = Some v /\ (best < v)%Q /\
        Forall (fun y => y <= v)%Q xs /\
        forall (j' : nat) (y : Q), (j' < j)%nat -> nth_error xs j' = Some y -> (y < v)%Q).
Proof.
  induction xs as [|x xs IH]; intros best_idx best i; simpl.
  - left. split; [reflexivity | constructor].
  - destruct (Qltb best x) eqn:E.
    + apply Qltb_lt in E. right.
      destruct (IH i x (S i)) as [[Hr Hall]|[j [v [Hr [Hn [Hlt [Hall Hfirst]]]]]]].
      * exists 0%nat, x. rewrite Hr. repeat split.
        -- lia.
        -- exact E.
        -- constructor; [lra | exact Hall].
        -- intros j' y Hj. lia.
      * exists (S j), v. rewrite Hr. repeat split.
        -- lia.
        -- exact Hn.
        -- lra.
        -- constructor; [lra | exact Hall].
        -- intros [|j'] y Hj Hy; simpl in Hy.
           ++ injection Hy as <-. exact Hlt.
           ++ apply (Hfirst j'); [lia | exact Hy].
    + apply Qltb_ge in E.
      destruct (IH best_idx best (S i)) as [[Hr Hall]|[j [v [Hr [Hn [Hlt [Hall Hfirst]]]]]]].
      * left. split; [exact Hr | constructor; assumption].
      * right. exists (S j), v. rewrite Hr. repeat split.
        -- lia.
        -- exact Hn.
        -- exact Hlt.
        -- constructor; [lra | exact Hall].
        -- intros [|j'] y Hj Hy; simpl in Hy.
           ++ injection Hy as <-. lra.
           ++ apply (Hfirst j'); [lia | exact Hy].
Qed.

(** [argmax] of a non-empty list: an index whose value no other value
    exceeds and that every earlier value stays strictly below. *)
Lemma argmax_spec (xs : list Q) :
  xs <> [] ->
  exists v : Q,
    nth_error xs (argmax xs) = Some v /\
    Forall (fun y => y <= v)%Q xs /\
    forall (j : nat) (y : Q), (j < argmax xs)%nat -> nth_error xs j = Some y -> (y < v)%Q.
Proof.
  destruct xs as [|x xs]; [congruence|]. intros _. unfold argmax.
  destruct (argmax_from_spec xs 0%nat x 1%nat)
    as [[Hr Hall]|[j [v [Hr [Hn [Hlt [Hall Hfirst]]]]]]]; rewrite Hr.
  - exists x. split; [reflexivity|]. split; [constructor; [lra | exact Hall]|].
    intros j y Hj. lia.
  - exists v. split; [exact Hn|]. split; [constructor; [lra | exact Hall]|].
    intros [|j'] y Hj Hy; simpl in Hy.
    + injection Hy as <-. exact Hlt.
    + apply (Hfirst j'); [lia | exact Hy].
Qed.

(** C9, as the code has it: [infer_image] returns the model_error
    sentinel when the model is unavailable, the error sentinel when the
    model raises, the no_detection sentinel when it returns no result, no
    boxes object or no box.  Otherwise it takes the first box of greatest
    confidence and returns the label of its class together with its
    confidence rounded to 4 decimal places (within 0.00005 of the box's
    own confidence); when the names table has no entry for that class
    the lookup raises and the error sentinel is returned. *)
Theorem infer_image_outcomes :
  forall (Image : Type) (model : option (Image -> outcome (list Yolo.Results)))
         (img : Image),
    match model with
    | None => infer_image model img = sentinel "model_error"
    | Some m =>
        match m img with
        | Raise _ => infer_image model img = sentinel "error"
        | Return [] => infer_image model img = sentinel "no_detection"
        | Return (r0 :: _) =>
            match Yolo.boxes r0 with
            | None => infer_image model img = sentinel "no_detection"
            | Some [] => infer_image model img = sentinel "no_detection"
            | Some boxes =>
                exists (i : nat) (top : Yolo.Box),
                  nth_error boxes i = Some top /\
                  (forall b, In b boxes -> (Yolo.conf b <= Yolo.conf top)%Q) /\
                  (forall j b, (j < i)%nat -> nth_error boxes j = Some b ->
                               (Yolo.conf b < Yolo.conf top)%Q) /\
                  (Qabs (round (Yolo.conf top) 4 - Yolo.conf top) <= 1 # 20000)%Q /\
                  match getitem (Yolo.names r0) (Yolo.cls top) with
                  | Return label =>
                      infer_image model img =
                        {| prediction := label; confidence := round (Yolo.conf top) 4 |}
                  | Raise _ => infer_image model img = sentinel "error"
                  end
            end
        end
    end.
Proof.
  intros Image model img.
  destruct model as [m|]; [|reflexivity].
  unfold infer_image.
  destruct (m img) as [results|e]; [|reflexivity].
  destruct results as [|r0 rest]; [reflexivity|]. cbn [bind].
  destruct (Yolo.boxes r0) as [boxes|]; [|reflexivity].
  destruct boxes as [|b0 bs]; [reflexivity|].
  set (boxes := b0 :: bs).
  change (List.length boxes =? 0)%nat with false. cbv iota.
  destruct (argmax_spec (map Yolo.conf boxes)) as [v [Hnth [Hall Hfirst]]];
    [discriminate|].
  set (i := argmax (map Yolo.conf boxes)) in *.
  rewrite nth_error_map in Hnth.
  destruct (nth_error boxes i) as [top|] eqn:Htop; [|discriminate].
  simpl in Hnth. injection Hnth as Hv.
  exists i, top. split; [exact Htop|].
  split; [|split; [|split; [apply round_nearest_4|]]].
  - intros b Hb. rewrite Forall_forall in Hall. rewrite Hv.
    apply Hall. now apply in_map.
  - intros j b Hj Hb. rewrite Hv. apply (Hfirst j); [exact Hj|].
    rewrite nth_error_map, Hb. reflexivity.
  - assert (Hc : nth i (map Yolo.cls boxes) 0 = Yolo.cls top).
    { apply nth_error_nth. now rewrite nth_error_map, Htop. }
    assert (Hq : nth i (map Yolo.conf boxes) 0%Q = Yolo.conf top).
    { apply nth_error_nth. now rewrite nth_error_map, Htop. }
    rewrite Hc, Hq.
    destruct (getitem (Yolo.names r0) (Yolo.cls top)); reflexivity.
Qed.

(** C9 as stated fails: for a box of confidence 0.70004 the wrapper
    returns confidence 0.7, not the confidence of the box. *)
Lemma infer_image_rounds_confidence :
  prediction (infer_image Sample.model ("drowsy", 70004 # 100000)) = "drowsy" /\
  (confidence (infer_image Sample.model ("drowsy", 70004 # 100000)) == 7 # 10)%Q /\
  ~ (confidence (infer_image Sample.model ("drowsy", 70004 # 100000))
     == 70004 # 100000)%Q.
Proof.
  split; [reflexivity|]. split; [reflexivity|]. intro H. discriminate H.
Qed.

(** ** The driver dashboard *)

Lemma or0_SUM {A} (col : A -> Z) (rows : list A) :
  or0 (SUM col rows) = fold_right Z.add 0 (map col rows).
Proof. destruct rows; reflexivity. Qed.

Lemma total_nonneg (rows : list Sessions.row) :
  Forall counters_ok rows ->
  0 <= fold_right Z.add 0 (map Sessions.total_detections rows).
Proof.
  induction 1 as [|s rows Hs _ IH]; simpl; [lia|].
  unfold counters_ok in Hs. lia.
Qed.

Lemma max0_Qmax (x : Q) : (max0 x == Qmax 0 x)%Q.
Proof.
  unfold max0. destruct (Qltb 0 x) eqn:E.
  - apply Qltb_lt in E. symmetry. apply Q.max_r. lra.
  - apply Qltb_ge in E. symmetry. now apply Q.max_l.
Qed.

Lemma drowsy_nonneg (rows : list Sessions.row) :
  Forall counters_ok rows ->
  0 <= fold_right Z.add 0 (map Sessions.drowsy_detections rows)
    <= fold_right Z.add 0 (map Sessions.total_detections rows).
Proof.
  induction 1 as [|s rows Hs _ IH]; simpl; [lia|].
  unfold counters_ok in Hs. lia.
Qed.

(** The score before [round(safety_score, 1)]: four operations on
    doubles below 256 take it no further than [204 * 2^-46] from the
    exact value of the formula. *)
Lemma safety_score_near (total_drowsy total_detections : Z) :
  0 <= total_drowsy <= total_detections -> 0 < total_detections ->
  (Qabs (safety_score total_drowsy total_detections
         - Qmax 0 (100 - 2 * (100 * inject_Z total_drowsy / inject_Z total_detections)))
   <= 1 # 100000000000)%Q.
Proof.
  intros [Hd0 Hdt] Ht. unfold safety_score.
  assert (E : (0 <? total_detections) = true) by now apply Z.ltb_lt.
  rewrite E.
  assert (Htq : (0 < inject_Z total_detections)%Q)
    by (change 0%Q with (inject_Z 0); now rewrite <- Zlt_Qlt).
  assert (Hx0 : (0 <= inject_Z total_drowsy / inject_Z total_detections)%Q).
  { apply Qle_shift_div_l; [exact Htq|]. rewrite Qmult_0_l.
    change 0%Q with (inject_Z 0). now rewrite <- Zle_Qle. }
  assert (Hx1 : (inject_Z total_drowsy / inject_Z total_detections <= 1)%Q).
  { apply Qle_shift_div_r; [exact Htq|]. rewrite Qmult_1_l. now rewrite <- Zle_Qle. }
  assert (Hy : (100 * inject_Z total_drowsy / inject_Z total_detections
                == 100 * (inject_Z total_drowsy / inject_Z total_detections))%Q)
    by (field; lra).
  set (y := (100 * inject_Z total_drowsy / inject_Z total_detections)%Q) in *.
  set (x := (inject_Z total_drowsy / inject_Z total_detections)%Q) in *.
  assert (Hq : (Qabs (binary64 x - x) <= 1 # 70368744177664)%Q).
  { apply binary64_near. apply Qabs_Qlt_condition. split; lra. }
  set (q := binary64 x) in *.
  apply Qabs_Qle_condition in Hq. destruct Hq as [Hq1 Hq2].
  assert (Hp : (Qabs (binary64 (q * 100) - q * 100) <= 1 # 70368744177664)%Q).
  { apply binary64_near. apply Qabs_Qlt_condition. split; lra. }
  set (p := binary64 (q * 100)) in *.
  apply Qabs_Qle_condition in Hp. destruct Hp as [Hp1 Hp2].
  assert (Hm : (Qabs (binary64 (p * 2) - p * 2) <= 1 # 70368744177664)%Q).
  { apply binary64_near. apply Qabs_Qlt_condition. split; lra. }
  set (m := binary64 (p * 2)) in *.
  apply Qabs_Qle_condition in Hm. destruct Hm as [Hm1 Hm2].
  assert (Hr : (Qabs (binary64 (100 - m) - (100 - m)) <= 1 # 70368744177664)%Q).
  { apply binary64_near. apply Qabs_Qlt_condition. split; lra. }
  set (r := binary64 (100 - m)) in *.
  apply Qabs_Qle_condition in Hr. destruct Hr as [Hr1 Hr2].
  pose proof (max0_Qmax r) as Hs. set (s := max0 r) in *.
  apply Qabs_Qle_condition.
  destruct (Q.max_spec 0 r) as [[Ha Hb]|[Ha Hb]];
    destruct (Q.max_spec 0 (100 - 2 * y)) as [[Hc Hd]|[Hc Hd]];
    rewrite Hd; split; lra.
Qed.




(** * Further properties of the handlers *)

(** ** Password hashes *)

Lemma str_split_nonempty (sep : ascii) (s : string) : str_split sep s <> [].
Proof.
  destruct s as [|c s]; simpl; [discriminate|].
  destruct (Ascii.eqb c sep); [discriminate|].
  destruct (str_split sep s); discriminate.
Qed.

Lemma str_split_colon_free (s : string) :
  Forall (fun part => colon_free part = true) (str_split ":" s).
Proof.
  induction s as [|c s IH]; simpl; [repeat constructor|].
  destruct (Ascii.eqb c ":") eqn:E.
  - constructor; [reflexivity | exact IH].
  - destruct (str_split ":" s) as [|part parts]; simpl.
    + repeat constructor. simpl. now rewrite E.
    + inversion IH as [|x l Hx Hl]; subst.
      constructor; [simpl; now rewrite E, Hx | exact Hl].
Qed.

Lemma colon_join_split (s : string) : colon_join (str_split ":" s) = s.
Proof.
  induction s as [|c s IH]; [reflexivity|]. cbn [str_split].
  pose proof (str_split_nonempty ":" s) as Hne.
  destruct (Ascii.eqb c ":") eqn:E.
  - apply Ascii.eqb_eq in E. subst c.
    destruct (str_split ":" s) as [|part parts]; [congruence|].
    change (String ":" (colon_join (part :: parts)) = String ":" s). now rewrite IH.
  - destruct (str_split ":" s) as [|part parts]; [congruence|].
    destruct parts as [|part' parts].
    + change (String c part = String c s). simpl in IH. now rewrite IH.
    + change (String c (String.append part (String ":" (colon_join (part' :: parts))))
              = String c s).
      f_equal. exact IH.
Qed.

Lemma str_split_free (s : string) : colon_free s = true -> str_split ":" s = [s].
Proof.
  induction s as [|c s IH]; simpl; [reflexivity|].
  intro H. apply andb_true_iff in H. destruct H as [Hc Hs].
  apply negb_true_iff in Hc. rewrite Hc, (IH Hs). reflexivity.
Qed.

Lemma str_split_append (a b : string) :
  colon_free a = true ->
  str_split ":" (String.append a (String ":" b)) = a :: str_split ":" b.
Proof.
  induction a as [|c a IH]; simpl; [reflexivity|].
  intro H. apply andb_true_iff in H. destruct H as [Hc Ha].
  apply negb_true_iff in Hc. rewrite Hc, (IH Ha). reflexivity.
Qed.

(** X1: checking a candidate password against the text that
    [hash_password] produced for a password and a colon-free salt
    compares the two salted digests, provided digests contain no colon; in
    particular the password itself is always accepted. *)
Theorem verify_hash_password :
  forall (sha256_hexdigest : string -> string) (password salt candidate : string),
    (forall s, colon_free (sha256_hexdigest s) = true) ->
    colon_free salt = true ->
    verify_password sha256_hexdigest candidate
        (hash_password sha256_hexdigest password salt)
      = String.eqb (sha256_hexdigest (String.append candidate salt))
                   (sha256_hexdigest (String.append password salt))
    /\ verify_password sha256_hexdigest password
         (hash_password sha256_hexdigest password salt) = true.
Proof.
  intros sha password salt candidate Hsha Hsalt.
  assert (Heq : forall c, verify_password sha c (hash_password sha password salt)
                          = String.eqb (sha (String.append c salt))
                                       (sha (String.append password salt))).
  { intro c. unfold verify_password, hash_password. cbn [String.append].
    rewrite (str_split_append salt _ Hsalt), (str_split_free _ (Hsha _)). reflexivity. }
  split; [apply Heq|]. rewrite Heq. apply String.eqb_refl.
Qed.

Lemma hex_digit_colon_free (c : ascii) :
  colon_free (Hex.hexdigest (String c EmptyString)) = true.
Proof. destruct c as [[] [] [] [] [] [] [] []]; reflexivity. Qed.

Lemma hexdigest_colon_free (s : string) : colon_free (Hex.hexdigest s) = true.
Proof.
  induction s as [|c s IH]; [reflexivity|].
  pose proof (hex_digit_colon_free c) as Hc. cbn [Hex.hexdigest colon_free] in *.
  rewrite !andb_true_r in Hc. apply andb_true_iff in Hc. destruct Hc as [H1 H2].
  now rewrite H1, H2, IH.
Qed.

Lemma verify_hash_password_witness :
  colon_free "9f3a" = true /\
  verify_password Hex.hexdigest "secret" (hash_password Hex.hexdigest "secret" "9f3a") = true /\
  verify_password Hex.hexdigest "Secret" (hash_password Hex.hexdigest "secret" "9f3a") = false.
Proof.
  destruct (verify_hash_password Hex.hexdigest "secret" "9f3a" "Secret"
              hexdigest_colon_free eq_refl) as [Hother Hsame].
  split; [reflexivity|]. split; [exact Hsame|]. rewrite Hother. reflexivity.
Defined.

(** X2: [verify_password] accepts exactly the stored texts that consist
    of a colon-free salt, one colon and a colon-free digest equal to the
    digest of password followed by salt.  A stored text with no colon or
    with more than one is rejected for every password. *)
Theorem verify_password_accepts :
  forall (sha256_hexdigest : string -> string) (password hashed : string),
    verify_password sha256_hexdigest password hashed = true <->
    exists salt digest : string,
      hashed = String.append salt (String ":" digest) /\
      colon_free salt = true /\ colon_free digest = true /\
      sha256_hexdigest (String.append password salt) = digest.
Proof.
  intros sha password hashed. split.
  - unfold verify_password. intro H.
    pose proof (colon_join_split hashed) as Hjoin.
    pose proof (str_split_colon_free hashed) as Hfree.
    destruct (str_split ":" hashed) as [|salt [|digest [|x rest]]]; try discriminate.
    exists salt, digest. apply String.eqb_eq in H.
    inversion Hfree as [|a l Ha Hl]. inversion Hl as [|b l' Hb _].
    split; [symmetry; exact Hjoin | auto].
  - intros [salt [digest [-> [Hs [Hd Heq]]]]]. unfold verify_password.
    rewrite (str_split_append salt digest Hs), (str_split_free digest Hd).
    now apply String.eqb_eq.
Qed.

(** ** Registration *)

Lemma role_check_true (user : UserCreate) :
  match uc_role user with
  | Some r => negb (String.eqb r "") && negb (String.eqb r "driver")
  | None => false
  end = true <-> asks_other_role user.
Proof.
  unfold asks_other_role. destruct (uc_role user) as [r|].
  - rewrite andb_true_iff, !negb_true_iff, !String.eqb_neq. split.
    + intros [H1 H2]. now exists r.
    + intros [r' [Hr [H1 H2]]]. injection Hr as <-. now split.
  - split; [discriminate | intros [r [Hr _]]; discriminate].
Qed.

Lemma taken_check_true (db : DB) (user : UserCreate) :
  existsb (fun u => String.eqb (Users.username u) (uc_username user)
                    || String.eqb (Users.email u) (uc_email user)) (users db) = true
  <-> credentials_taken db user.
Proof.
  unfold credentials_taken. rewrite existsb_exists.
  split; intros [u [Hin H]]; exists u; (split; [exact Hin|]).
  - apply orb_true_iff in H. now rewrite !String.eqb_eq in H.
  - apply orb_true_iff. now rewrite !String.eqb_eq.
Qed.

Lemma live_register_refused (sha256_hexdigest : string -> string) (s : Live.Database)
    (user : UserCreate) (salt : string) (now : Z) :
  asks_other_role user ->
  Live.register_user sha256_hexdigest s user salt now =
    (Raise (HTTPException 500
              (FStr "Registration failed: "
                    (HTTPException 403 (Text "Only driver registration allowed")))), s).
Proof.
  intro H. apply role_check_true in H. unfold Live.register_user. now rewrite H.
Qed.

Lemma live_register_locked (sha256_hexdigest : string -> string) (s : Live.Database)
    (user : UserCreate) (salt : string) (now : Z) :
  ~ asks_other_role user -> Live.reserved s = true ->
  Live.register_user sha256_hexdigest s user salt now =
    (Raise (HTTPException 500
              (FStr "Registration failed: " (OperationalError "database is locked"))), s).
Proof.
  intros H Hr. unfold Live.register_user, Live.write_lock.
  destruct (match uc_role user with Some _ => _ | None => _ end) eqn:E;
    [apply role_check_true in E; contradiction|].
  now rewrite Hr.
Qed.

Lemma live_register_taken (sha256_hexdigest : string -> string) (s : Live.Database)
    (user : UserCreate) (salt : string) (now : Z) :
  ~ asks_other_role user -> Live.reserved s = false ->
  credentials_taken (Live.tables s) user ->
  Live.register_user sha256_hexdigest s user salt now =
    (Raise (HTTPException 400 (Text "Username or email already exists")), Live.abandoned s).
Proof.
  intros H Hr Ht. apply taken_check_true in Ht. unfold Live.register_user, Live.write_lock.
  destruct (match uc_role user with Some _ => _ | None => _ end) eqn:E;
    [apply role_check_true in E; contradiction|].
  now rewrite Hr, Ht.
Qed.

Lemma live_register_stored (sha256_hexdigest : string -> string) (s : Live.Database)
    (user : UserCreate) (salt : string) (now : Z) :
  ~ asks_other_role user -> Live.reserved s = false ->
  ~ credentials_taken (Live.tables s) user ->
  Live.register_user sha256_hexdigest s user salt now =
    (Return (JDict [("success", JBool true);
                    ("user_id", JInt (next_rowid Users.id (users (Live.tables s))));
                    ("message", JStr "User registered successfully")]),
     Live.committed
       {| users := users (Live.tables s) ++
            [ {| Users.id := next_rowid Users.id (users (Live.tables s));
                 Users.username := uc_username user;
                 Users.email := uc_email user;
                 Users.password_hash := hash_password sha256_hexdigest (uc_password user) salt;
                 Users.phone := uc_phone user;
                 Users.role := "driver";
                 Users.created_at := now |} ];
          sessions := sessions (Live.tables s);
          detections := detections (Live.tables s) |}).
Proof.
  intros H Hr Ht. unfold Live.register_user, Live.write_lock.
  destruct (match uc_role user with Some _ => _ | None => _ end) eqn:E;
    [apply role_check_true in E; contradiction|].
  rewrite Hr.
  destruct (existsb _ (users (Live.tables s))) eqn:Et;
    [apply taken_check_true in Et; contradiction | reflexivity].
Qed.

(** X3: the four outcomes of a registration.  A request for a role
    other than driver ends as error 500 wrapping the 403 (the handler's
    own [except Exception] catches it) and never as the 403.  A request
    that finds the write lock held ends as error 500 as well.  A taken
    username or email ends as error 400, and this refusal leaves its
    connection open with the lock, so that the registrations after it
    end as error 500 until that connection is finalised.  In these three
    cases nothing is stored.  Otherwise one row is appended with the role
    driver whatever the request said, a fresh id that is returned, and
    the salted hash of the password; sessions and detections are
    untouched and the lock is free. *)
Theorem register_user_outcomes :
  forall (sha256_hexdigest : string -> string) (s : Live.Database) (user : UserCreate)
         (salt : string) (now : Z),
    let db := Live.tables s in
    let out := Live.register_user sha256_hexdigest s user salt now in
    (asks_other_role user ->
       fst out = Raise (HTTPException 500
                          (FStr "Registration failed: "
                                (HTTPException 403 (Text "Only driver registration allowed"))))
       /\ snd out = s) /\
    (~ asks_other_role user -> Live.reserved s = true ->
       fst out = Raise (HTTPException 500
                          (FStr "Registration failed: "
                                (OperationalError "database is locked")))
       /\ snd out = s) /\
    (~ asks_other_role user -> Live.reserved s = false -> credentials_taken db user ->
       fst out = Raise (HTTPException 400 (Text "Username or email already exists")) /\
       Live.tables (snd out) = db /\
       Live.reserved (snd out) = true /\
       (forall (user' : UserCreate) (salt' : string) (now' : Z),
          ~ asks_other_role user' ->
          Live.register_user sha256_hexdigest (snd out) user' salt' now' =
            (Raise (HTTPException 500
                      (FStr "Registration failed: "
                            (OperationalError "database is locked"))), snd out)) /\
       (forall (salt' : string) (now' : Z),
          fst (Live.register_user sha256_hexdigest (Live.committed (Live.tables (snd out)))
                 user salt' now')
          = Raise (HTTPException 400 (Text "Username or email already exists")))) /\
    (~ asks_other_role user -> Live.reserved s = false -> ~ credentials_taken db user ->
       exists row : Users.row,
         fst out = Return (JDict [("success", JBool true); ("user_id", JInt (Users.id row));
                                  ("message", JStr "User registered successfully")]) /\
         snd out = Live.committed {| users := users db ++ [row];
                                     sessions := sessions db;
                                     detections := detections db |} /\
         (forall u, In u (users db) -> Users.id u < Users.id row) /\
         Users.username row = uc_username user /\
         Users.email row = uc_email user /\
         Users.phone row = uc_phone user /\
         Users.role row = "driver" /\
         Users.password_hash row = hash_password sha256_hexdigest (uc_password user) salt) /\
    fst out <> Raise (HTTPException 403 (Text "Only driver registration allowed")).
Proof.
  intros sha s user salt now db out. subst out db.
  assert (Hrole : asks_other_role user \/ ~ asks_other_role user).
  { destruct (match uc_role user with
              | Some r => negb (String.eqb r "") && negb (String.eqb r "driver")
              | None => false
              end) eqn:E.
    - left. now apply role_check_true.
    - right. intro H. apply role_check_true in H. congruence. }
  assert (Htaken : credentials_taken (Live.tables s) user
                   \/ ~ credentials_taken (Live.tables s) user).
  { destruct (existsb (fun u => String.eqb (Users.username u) (uc_username user)
                                || String.eqb (Users.email u) (uc_email user))
                      (users (Live.tables s))) eqn:E.
    - left. now apply taken_check_true.
    - right. intro H. apply taken_check_true in H. congruence. }
  destruct Hrole as [Hr|Hr].
  - rewrite (live_register_refused sha s user salt now Hr). cbn [fst snd].
    split; [intros _; split; reflexivity|].
    split; [intro H; contradiction|]. split; [intro H; contradiction|].
    split; [intro H; contradiction | discriminate].
  - split; [intro H; contradiction|].
    destruct (Live.reserved s) eqn:Er.
    + rewrite (live_register_locked sha s user salt now Hr Er). cbn [fst snd].
      split; [intros _ _; split; reflexivity|].
      split; [intros _ H; discriminate H|]. split; [intros _ H; discriminate H | discriminate].
    + split; [intros _ H; discriminate H|].
      destruct Htaken as [Ht|Ht].
      * rewrite (live_register_taken sha s user salt now Hr Er Ht). cbn [fst snd].
        split; [|split; [intros _ _ H; contradiction | discriminate]].
        intros _ _ _. split; [reflexivity|]. split; [reflexivity|]. split; [reflexivity|].
        split.
        -- intros user' salt' now' Hr'.
           apply (live_register_locked sha (Live.abandoned s) user' salt' now' Hr').
           reflexivity.
        -- intros salt' now'.
           change (Live.tables (Live.abandoned s)) with (Live.tables s).
           now rewrite (live_register_taken sha (Live.committed (Live.tables s)) user
                          salt' now' Hr eq_refl Ht).
      * rewrite (live_register_stored sha s user salt now Hr Er Ht). cbn [fst snd].
        split; [intros _ _ H; contradiction|]. split; [|discriminate].
        intros _ _ _.
        exists {| Users.id := next_rowid Users.id (users (Live.tables s));
                  Users.username := uc_username user;
                  Users.email := uc_email user;
                  Users.password_hash := hash_password sha (uc_password user) salt;
                  Users.phone := uc_phone user;
                  Users.role := "driver";
                  Users.created_at := now |}.
        split; [reflexivity|]. split; [reflexivity|].
        split; [|repeat split].
        intros u Hu. simpl. now apply next_rowid_above.
Qed.

Lemma register_user_outcomes_witness :
  ~ asks_other_role (Bench.applicant "dana") /\
  Live.reserved (Bench.history [Bench.register "dana" 1]) = false /\
  credentials_taken (Live.tables (Bench.history [Bench.register "dana" 1]))
                    (Bench.applicant "dana") /\
  fst (Live.register_user Sample.sha256_hexdigest (Bench.history [Bench.register "dana" 1])
         (Bench.applicant "dana") "01" 2)
    = Raise (HTTPException 400 (Text "Username or email already exists")) /\
  fst (Live.register_user Sample.sha256_hexdigest Bench.refused (Bench.applicant "erin") "02" 3)
    = Raise (HTTPException 500
               (FStr "Registration failed: " (OperationalError "database is locked"))) /\
  fst (Live.register_user Sample.sha256_hexdigest
         (Live.step Bench.imdecode Sample.model Sample.sha256_hexdigest Bench.refused
                    Live.Finalize)
         (Bench.applicant "erin") "02" 3)
    = Return (JDict [("success", JBool true); ("user_id", JInt 3);
                     ("message", JStr "User registered successfully")]).
Proof.
  assert (Hrole : forall name, ~ asks_other_role (Bench.applicant name)).
  { intros name [r [Hr [_ Hd]]]. injection Hr as <-. now apply Hd. }
  assert (Htaken : credentials_taken (Live.tables (Bench.history [Bench.register "dana" 1]))
                                     (Bench.applicant "dana")).
  { eexists. split; [right; left; reflexivity | left; reflexivity]. }
  destruct (register_user_outcomes Sample.sha256_hexdigest
              (Bench.history [Bench.register "dana" 1]) (Bench.applicant "dana") "01" 2)
    as [_ [_ [Hrefused _]]].
  destruct (Hrefused (Hrole "dana") eq_refl Htaken) as [H400 [_ [_ [Hlater _]]]].
  split; [apply Hrole|]. split; [reflexivity|]. split; [exact Htaken|].
  split; [exact H400|]. split; [|reflexivity].
  change Bench.refused
    with (snd (Live.register_user Sample.sha256_hexdigest
                 (Bench.history [Bench.register "dana" 1]) (Bench.applicant "dana") "01" 2)).
  now rewrite (Hlater (Bench.applicant "erin") "02" 3 (Hrole "erin")).
Defined.

Lemma register_user_stored (sha256_hexdigest : string -> string) (db : DB)
    (user : UserCreate) (salt : string) (now : Z) (body : json) :
  fst (register_user sha256_hexdigest db user salt now) = Return body ->
  ~ asks_other_role user /\ ~ credentials_taken db user /\
  body = JDict [("success", JBool true);
                ("user_id", JInt (next_rowid Users.id (users db)));
                ("message", JStr "User registered successfully")] /\
  snd (register_user sha256_hexdigest db user salt now) =
    {| users := users db ++
         [ {| Users.id := next_rowid Users.id (users db);
              Users.username := uc_username user;
              Users.email := uc_email user;
              Users.password_hash := hash_password sha256_hexdigest (uc_password user) salt;
              Users.phone := uc_phone user;
              Users.role := "driver";
              Users.created_at := now |} ];
       sessions := sessions db;
       detections := detections db |}.
Proof.
  unfold register_user.
  pose proof (role_check_true user) as Hrole.
  pose proof (taken_check_true db user) as Htaken.
  destruct (match uc_role user with Some _ => _ | None => _ end); [discriminate|].
  destruct (existsb _ (users db)); [discriminate|].
  simpl. intro H. injection H as <-.
  split; [intro Hr; apply Hrole in Hr; discriminate|].
  split; [intro Ht; apply Htaken in Ht; discriminate|].
  split; reflexivity.
Qed.

Lemma register_user_failed (sha256_hexdigest : string -> string) (db : DB)
    (user : UserCreate) (salt : string) (now : Z) (e : exn) :
  fst (register_user sha256_hexdigest db user salt now) = Raise e ->
  snd (register_user sha256_hexdigest db user salt now) = db.
Proof.
  unfold register_user.
  destruct (match uc_role user with Some _ => _ | None => _ end); [reflexivity|].
  destruct (existsb _ (users db)); [reflexivity | discriminate].
Qed.

(** ** Login *)

Lemma find_app_none {A} (p : A -> bool) (l1 l2 : list A) :
  find p l1 = None -> find p (l1 ++ l2) = find p l2.
Proof.
  induction l1 as [|x l1 IH]; simpl; [reflexivity|].
  destruct (p x); [discriminate | exact IH].
Qed.

Lemma find_username_none (db : DB) (name : string) :
  (forall u, In u (users db) -> Users.username u <> name) ->
  find (fun u => String.eqb (Users.username u) name) (users db) = None.
Proof.
  intro H. destruct (find _ (users db)) as [u|] eqn:E; [|reflexivity].
  apply find_some in E. destruct E as [Hin Heq].
  apply String.eqb_eq in Heq. now apply H in Hin.
Qed.

Lemma login_user_of_row (sha256_hexdigest : string -> string) (db : DB)
    (login_data : UserLogin) (user : Users.row) :
  find (fun u => String.eqb (Users.username u) (ul_username login_data)) (users db)
    = Some user ->
  login_user sha256_hexdigest db login_data =
    if verify_password sha256_hexdigest (ul_password login_data) (Users.password_hash user)
    then
      match ul_role login_data with
      | None => Return (login_body user)
      | Some r =>
          if String.eqb r "" then Return (login_body user)
          else if String.eqb (Users.role user) r then Return (login_body user)
          else Raise (HTTPException 403 (Text "Invalid role for this account"))
      end
    else Raise (HTTPException 401 (Text "Invalid username or password")).
Proof.
  intro Hfind. unfold login_user. rewrite Hfind.
  destruct (verify_password _ _ _); [|reflexivity].
  destruct (ul_role login_data) as [r|]; [|reflexivity].
  destruct (String.eqb r ""); [reflexivity|].
  destruct (String.eqb (Users.role user) r); reflexivity.
Qed.

(** X4: registration followed by login.  When digests and the salt are
    colon free and [register_user] succeeds, a login on the resulting
    store with the same username and password succeeds for the role
    driver, the empty role and no role, and returns the id that the
    registration returned and the role driver.  The same login asking for
    another role gets error 403, and a candidate password whose salted
    digest differs gets error 401. *)
Theorem login_after_register :
  forall (sha256_hexdigest : string -> string) (db : DB) (user : UserCreate)
         (salt : string) (now : Z) (body : json),
    (forall s, colon_free (sha256_hexdigest s) = true) ->
    colon_free salt = true ->
    fst (register_user sha256_hexdigest db user salt now) = Return body ->
    let db' := snd (register_user sha256_hexdigest db user salt now) in
    let login password role :=
      login_user sha256_hexdigest db'
        {| ul_username := uc_username user; ul_password := password; ul_role := role |} in
    exists user_id : Z,
      field "user_id" body = JInt user_id /\
      (forall role, role = None \/ role = Some "" \/ role = Some "driver" ->
         login (uc_password user) role =
           Return (JDict [("success", JBool true);
                          ("user", JDict [("id", JInt user_id);
                                          ("username", JStr (uc_username user));
                                          ("email", JStr (uc_email user));
                                          ("phone", JOpt JStr (uc_phone user));
                                          ("role", JStr "driver")])])) /\
      (forall r, r <> "" -> r <> "driver" ->
         login (uc_password user) (Some r) =
           Raise (HTTPException 403 (Text "Invalid role for this account"))) /\
      (forall candidate role,
         sha256_hexdigest (String.append candidate salt)
           <> sha256_hexdigest (String.append (uc_password user) salt) ->
         login candidate role =
           Raise (HTTPException 401 (Text "Invalid username or password"))).
Proof.
  intros sha db user salt now body Hsha Hsalt Hreg db' login.
  destruct (register_user_stored sha db user salt now body Hreg)
    as [_ [Hfree [-> Hdb]]].
  subst login db'. rewrite Hdb. clear Hdb Hreg.
  set (row := {| Users.id := next_rowid Users.id (users db);
                 Users.username := uc_username user;
                 Users.email := uc_email user;
                 Users.password_hash := hash_password sha (uc_password user) salt;
                 Users.phone := uc_phone user;
                 Users.role := "driver";
                 Users.created_at := now |}).
  assert (Hfind : forall password role,
            find (fun u => String.eqb (Users.username u)
                             (ul_username {| ul_username := uc_username user;
                                             ul_password := password; ul_role := role |}))
                 (users {| users := users db ++ [row]; sessions := sessions db;
                           detections := detections db |}) = Some row).
  { intros password role. cbn [users ul_username].
    rewrite find_app_none.
    - simpl. now rewrite String.eqb_refl.
    - apply find_username_none. intros u Hu Heq. apply Hfree. exists u. auto. }
  assert (Hver : forall c, verify_password sha c (Users.password_hash row)
                           = String.eqb (sha (String.append c salt))
                                        (sha (String.append (uc_password user) salt))).
  { intro c. unfold verify_password, row, hash_password. cbn [Users.password_hash String.append].
    rewrite (str_split_append salt _ Hsalt), (str_split_free _ (Hsha _)). reflexivity. }
  exists (next_rowid Users.id (users db)). split; [reflexivity|].
  split; [|split].
  - intros role Hrole. rewrite (login_user_of_row sha _ _ row (Hfind _ _)).
    cbn [ul_password ul_role]. rewrite Hver, String.eqb_refl.
    destruct Hrole as [-> | [-> | ->]]; reflexivity.
  - intros r H1 H2. rewrite (login_user_of_row sha _ _ row (Hfind _ _)).
    cbn [ul_password ul_role]. rewrite Hver, String.eqb_refl.
    apply String.eqb_neq in H1. rewrite H1.
    assert (H3 : String.eqb (Users.role row) r = false)
      by (apply String.eqb_neq; intro; apply H2; now subst r).
    now rewrite H3.
  - intros candidate role Hne. rewrite (login_user_of_row sha _ _ row (Hfind _ _)).
    cbn [ul_password]. rewrite Hver. apply String.eqb_neq in Hne. now rewrite Hne.
Qed.

Lemma login_after_register_witness :
  (forall s, colon_free (Hex.hexdigest s) = true) /\
  colon_free "01" = true /\
  login_user Hex.hexdigest (Hex.history [Sample.driver])
    {| ul_username := "dana"; ul_password := "secret"; ul_role := Some "driver" |}
  = Return (JDict [("success", JBool true);
                   ("user", JDict [("id", JInt 2);
                                   ("username", JStr "dana");
                                   ("email", JStr "dana@example.org");
                                   ("phone", JNone);
                                   ("role", JStr "driver")])]).
Proof.
  split; [exact hexdigest_colon_free|]. split; [reflexivity|].
  destruct (login_after_register Hex.hexdigest (Hex.history [])
              {| uc_username := "dana"; uc_email := "dana@example.org";
                 uc_password := "secret"; uc_phone := None; uc_role := Some "driver" |}
              "01" 1 _ hexdigest_colon_free eq_refl eq_refl)
    as [uid [Hid [Hok _]]].
  simpl in Hid. injection Hid as <-.
  exact (Hok (Some "driver") (or_intror (or_intror eq_refl))).
Defined.

(** ** Stores only grow *)

Lemma evolves_refl (s : Sessions.row) : evolves s s.
Proof. unfold evolves. repeat split; try reflexivity; try lia. auto. Qed.

Lemma evolves_trans (s1 s2 s3 : Sessions.row) :
  evolves s1 s2 -> evolves s2 s3 -> evolves s1 s3.
Proof.
  unfold evolves. intros H1 H2.
  destruct H1 as (A1 & A2 & A3 & A4 & A5 & A6 & A7 & A8 & A9 & A10 & A11).
  destruct H2 as (B1 & B2 & B3 & B4 & B5 & B6 & B7 & B8 & B9 & B10 & B11).
  repeat split; try congruence; try lia. auto.
Qed.

Lemma Forall2_evolves_refl (l : list Sessions.row) : Forall2 evolves l l.
Proof. induction l; constructor; [apply evolves_refl | assumption]. Qed.

Lemma Forall2_evolves_trans (l1 l2 l3 : list Sessions.row) :
  Forall2 evolves l1 l2 -> Forall2 evolves l2 l3 -> Forall2 evolves l1 l3.
Proof.
  intro H. revert l3. induction H as [|x y l l' Hxy _ IH]; intros l3 H3.
  - inversion H3. constructor.
  - inversion H3 as [|y' z l'' l3' Hyz Hrest]; subst.
    constructor; [eapply evolves_trans; eassumption | now apply IH].
Qed.

Lemma grows_refl (db : DB) : grows db db.
Proof.
  repeat split.
  - exists []. now rewrite app_nil_r.
  - exists []. now rewrite app_nil_r.
  - exists (sessions db), []. rewrite app_nil_r. split; [reflexivity|].
    apply Forall2_evolves_refl.
Qed.

Lemma grows_trans (db1 db2 db3 : DB) : grows db1 db2 -> grows db2 db3 -> grows db1 db3.
Proof.
  intros [[u1 Hu1] [[d1 Hd1] [o1 [n1 [Hs1 Hf1]]]]] [[u2 Hu2] [[d2 Hd2] [o2 [n2 [Hs2 Hf2]]]]].
  repeat split.
  - exists (u1 ++ u2). now rewrite Hu2, Hu1, app_assoc.
  - exists (d1 ++ d2). now rewrite Hd2, Hd1, app_assoc.
  - rewrite Hs1 in Hf2. apply Forall2_app_inv_l in Hf2.
    destruct Hf2 as [m1 [m2 [Hm1 [Hm2 ->]]]].
    exists m1, (m2 ++ n2). split; [now rewrite Hs2, app_assoc|].
    eapply Forall2_evolves_trans; eassumption.
Qed.

Lemma grows_same_tables (db db' : DB) :
  users db' = users db -> detections db' = detections db ->
  Forall2 evolves (sessions db) (sessions db') -> grows db db'.
Proof.
  intros Hu Hd Hs. repeat split.
  - exists []. now rewrite app_nil_r.
  - exists []. now rewrite app_nil_r.
  - exists (sessions db'), []. now rewrite app_nil_r.
Qed.

Section Growth.
Variables Upload Image : Type.
Variable imdecode : Upload -> option Image.
Variable model : option (Image -> outcome (list Yolo.Results)).
Variable sha256_hexdigest : string -> string.

Lemma grows_step (db : DB) (r : request Upload) :
  grows db (step imdecode model sha256_hexdigest db r).
Proof.
  destruct r as [user salt now|session_data now|session_id now
                 |session_id file latitude longitude now]; cbn [step].
  - destruct (fst (register_user sha256_hexdigest db user salt now)) as [body|e] eqn:E.
    + destruct (register_user_stored _ _ _ _ _ _ E) as [_ [_ [_ ->]]].
      repeat split; cbn [users sessions detections].
      * eexists. reflexivity.
      * exists []. now rewrite app_nil_r.
      * exists (sessions db), []. rewrite app_nil_r. split; [reflexivity|].
        apply Forall2_evolves_refl.
    + rewrite (register_user_failed _ _ _ _ _ _ E). apply grows_refl.
  - unfold start_session. cbn [snd]. repeat split; cbn [users sessions detections].
    + exists []. now rewrite app_nil_r.
    + exists []. now rewrite app_nil_r.
    + eexists (sessions db), _. split; [reflexivity | apply Forall2_evolves_refl].
  - unfold end_session.
    destruct (rowcount session_id (sessions db) =? 0)%nat; cbn [snd fst];
      [apply grows_refl|].
    apply grows_same_tables; try reflexivity. cbn [sessions].
    apply Forall2_map_self. intros s _. unfold set_end_time, evolves.
    destruct (Sessions.id s =? session_id); cbn;
      repeat split; try reflexivity; try lia; try discriminate; auto.
  - unfold detect_drowsiness. destruct (imdecode file) as [img|]; cbn [snd];
      [|apply grows_refl].
    repeat split; cbn [users sessions detections].
    + exists []. now rewrite app_nil_r.
    + eexists. reflexivity.
    + eexists _, []. rewrite app_nil_r. split; [reflexivity|].
      apply Forall2_map_self. intros s _. unfold update_stats, evolves.
      destruct (Sessions.id s =? session_id); cbn;
        repeat split; try reflexivity; try lia; auto.
      destruct (_ && _); lia.
Qed.

Lemma grows_run (rs : list (request Upload)) (db : DB) :
  grows db (run imdecode model sha256_hexdigest db rs).
Proof.
  revert db. induction rs as [|r rs IH]; intro db; cbn [run fold_left].
  - apply grows_refl.
  - eapply grows_trans; [apply grows_step | apply IH].
Qed.

End Growth.

(** X5: nothing stored is ever deleted or rewritten, except the counters
    and end_time of sessions.  After any sequence of requests the users
    and detections tables are the old tables followed by new rows, and
    the sessions table is the old rows followed by new rows, each old row
    with the same id, user_id, start_time, coordinates and distance_km,
    counters that have not decreased, and end_time still set if it was
    set: an ended session never becomes active again. *)
Theorem stores_only_grow :
  forall (Upload Image : Type) (imdecode : Upload -> option Image)
         (model : option (Image -> outcome (list Yolo.Results)))
         (sha256_hexdigest : string -> string) (db : DB) (rs : list (request Upload)),
    let db' := run imdecode model sha256_hexdigest db rs in
    (exists new_users, users db' = users db ++ new_users) /\
    (exists new_detections, detections db' = detections db ++ new_detections) /\
    (exists old_sessions new_sessions,
        sessions db' = old_sessions ++ new_sessions /\
        Forall2
          (fun s s' =>
             Sessions.id s' = Sessions.id s /\
             Sessions.user_id s' = Sessions.user_id s /\
             Sessions.start_time s' = Sessions.start_time s /\
             Sessions.start_lat s' = Sessions.start_lat s /\
             Sessions.start_lng s' = Sessions.start_lng s /\
             Sessions.distance_km s' = Sessions.distance_km s /\
             Sessions.end_lat s' = Sessions.end_lat s /\
             Sessions.end_lng s' = Sessions.end_lng s /\
             Sessions.total_detections s <= Sessions.total_detections s' /\
             Sessions.drowsy_detections s <= Sessions.drowsy_detections s' /\
             (Sessions.end_time s <> None -> Sessions.end_time s' <> None))
          (sessions db) old_sessions).
Proof.
  intros Upload Image imdecode model sha db rs db'.
  destruct (grows_run Upload Image imdecode model sha rs db) as [Hu [Hd Hs]].
  split; [exact Hu|]. split; [exact Hd|]. exact Hs.
Qed.

(** ** The users table *)

Lemma fresh_db_users (sha256_hexdigest : string -> string) (salt : string) (now : Z) :
  users (fresh_db sha256_hexdigest salt now) = [default_admin sha256_hexdigest salt now].
Proof. reflexivity. Qed.

Lemma users_ok_fresh (sha256_hexdigest : string -> string) (salt : string) (now : Z) :
  users_ok (fresh_db sha256_hexdigest salt now).
Proof.
  unfold users_ok. rewrite fresh_db_users. cbn [map].
  split; [repeat constructor; intros []|]. split; [repeat constructor; intros []|].
  exists (default_admin sha256_hexdigest salt now), []. repeat split. constructor.
Qed.

Lemma NoDup_snoc {A} (l : list A) (x : A) : NoDup l -> ~ In x l -> NoDup (l ++ [x]).
Proof.
  intros Hnd Hx. apply NoDup_app; [exact Hnd | repeat constructor; intros [] |].
  intros y Hy [<-|[]]. contradiction.
Qed.

Section UsersTable.
Variables Upload Image : Type.
Variable imdecode : Upload -> option Image.
Variable model : option (Image -> outcome (list Yolo.Results)).
Variable sha256_hexdigest : string -> string.

Lemma step_users (db : DB) (r : request Upload) :
  users (step imdecode model sha256_hexdigest db r) = users db \/
  exists row,
    users (step imdecode model sha256_hexdigest db r) = users db ++ [row] /\
    Users.role row = "driver" /\
    ~ In (Users.username row) (map Users.username (users db)) /\
    ~ In (Users.email row) (map Users.email (users db)).
Proof.
  destruct r as [user salt now|session_data now|session_id now
                 |session_id file latitude longitude now]; cbn [step].
  - destruct (fst (register_user sha256_hexdigest db user salt now)) as [body|e] eqn:E.
    + destruct (register_user_stored _ _ _ _ _ _ E) as [_ [Hfree [_ ->]]].
      right. eexists. split; [reflexivity|]. cbn. split; [reflexivity|].
      split; intro Hin; apply in_map_iff in Hin; destruct Hin as [u [Hu Hin]];
        apply Hfree; exists u; auto.
    + left. now rewrite (register_user_failed _ _ _ _ _ _ E).
  - left. reflexivity.
  - left. unfold end_session.
    destruct (rowcount session_id (sessions db) =? 0)%nat; reflexivity.
  - left. unfold detect_drowsiness. destruct (imdecode file); reflexivity.
Qed.

Lemma users_ok_step (db : DB) (r : request Upload) :
  users_ok db -> users_ok (step imdecode model sha256_hexdigest db r).
Proof.
  intros [Hn [He [admin [rest [Hu [Hid [Hname [Hrole Hrest]]]]]]]].
  destruct (step_users db r) as [Hsame|[row [Hnew [Hr [Hfn Hfe]]]]].
  - unfold users_ok. rewrite Hsame. split; [exact Hn|]. split; [exact He|].
    exists admin, rest. auto.
  - unfold users_ok. rewrite Hnew, !map_app. cbn [map].
    split; [now apply NoDup_snoc|]. split; [now apply NoDup_snoc|].
    exists admin, (rest ++ [row]). rewrite Hu. split; [reflexivity|].
    repeat split; try assumption.
    apply Forall_app. split; [exact Hrest | now constructor].
Qed.

Lemma users_ok_run (rs : list (request Upload)) (db : DB) :
  users_ok db -> users_ok (run imdecode model sha256_hexdigest db rs).
Proof.
  revert db. induction rs as [|r rs IH]; intros db Hok; cbn [run fold_left];
    [exact Hok|].
  apply IH. now apply users_ok_step.
Qed.

Lemma run_fresh_users (salt : string) (now : Z) (rs : list (request Upload)) :
  exists rest,
    users (run imdecode model sha256_hexdigest (fresh_db sha256_hexdigest salt now) rs)
    = default_admin sha256_hexdigest salt now :: rest.
Proof.
  destruct (grows_run Upload Image imdecode model sha256_hexdigest rs
              (fresh_db sha256_hexdigest salt now)) as [[l Hl] _].
  exists l. rewrite Hl, fresh_db_users. reflexivity.
Qed.

End UsersTable.

(** X6: in every store reached from a fresh deployment usernames are
    unique, emails are unique, the first user is the default admin with
    id 1, and every other user has the role driver: no request creates a
    second admin or changes a role. *)
Theorem users_table_invariant :
  forall (Upload Image : Type) (imdecode : Upload -> option Image)
         (model : option (Image -> outcome (list Yolo.Results)))
         (sha256_hexdigest : string -> string) (salt : string) (now : Z)
         (rs : list (request Upload)),
    let db := run imdecode model sha256_hexdigest (fresh_db sha256_hexdigest salt now) rs in
    NoDup (map Users.username (users db)) /\
    NoDup (map Users.email (users db)) /\
    exists rest,
      users db = default_admin sha256_hexdigest salt now :: rest /\
      Forall (fun u => Users.role u = "driver") rest.
Proof.
  intros Upload Image imdecode model sha salt now rs db.
  destruct (users_ok_run Upload Image imdecode model sha rs _ (users_ok_fresh sha salt now))
    as [Hn [He [admin [rest [Hu [_ [_ [_ Hrest]]]]]]]].
  destruct (run_fresh_users Upload Image imdecode model sha salt now rs) as [rest' Hu'].
  fold db in Hu, Hu', Hn, He.
  split; [exact Hn|]. split; [exact He|].
  exists rest'. split; [exact Hu'|].
  rewrite Hu' in Hu. injection Hu as _ ->. exact Hrest.
Qed.

(** ** Restarting the service *)

Lemma init_db_has_admin (sha256_hexdigest : string -> string) (db : DB)
    (salt : string) (now : Z) :
  find (fun u => String.eqb (Users.username u) "admin")
       (users (init_db sha256_hexdigest db salt now)) <> None.
Proof.
  unfold init_db.
  destruct (find _ (users db)) as [u|] eqn:E; [now rewrite E|].
  cbn [users]. rewrite (find_app_none _ _ _ E). discriminate.
Qed.

Lemma init_db_keeps (sha256_hexdigest : string -> string) (db : DB)
    (salt : string) (now : Z) :
  find (fun u => String.eqb (Users.username u) "admin") (users db) <> None ->
  init_db sha256_hexdigest db salt now = db.
Proof.
  intro H. unfold init_db. destruct (find _ (users db)); [reflexivity | congruence].
Qed.

(** X7: running [init_db] again on any store reached from a fresh
    deployment changes nothing: a restart neither adds a second admin nor
    resets the admin row, whatever salt and time it draws. *)
Theorem init_db_restart :
  forall (Upload Image : Type) (imdecode : Upload -> option Image)
         (model : option (Image -> outcome (list Yolo.Results)))
         (sha256_hexdigest : string -> string) (salt salt' : string) (now now' : Z)
         (rs : list (request Upload)),
    let db := run imdecode model sha256_hexdigest (fresh_db sha256_hexdigest salt now) rs in
    init_db sha256_hexdigest db salt' now' = db.
Proof.
  intros Upload Image imdecode model sha salt salt' now now' rs db.
  apply init_db_keeps.
  destruct (run_fresh_users Upload Image imdecode model sha salt now rs) as [rest Hu].
  fold db in Hu. rewrite Hu. cbn. discriminate.
Qed.

(** ** The default account *)

(** X8: the default account cannot be closed.  After any sequence of
    requests on a fresh deployment (digests and the salt of [init_db]
    colon free), a login as admin with the password admin123 succeeds
    with no role, the empty role or the role admin, and returns user 1
    with the role admin; asking for any other role gives error 403.  No
    handler changes a stored password. *)
Theorem default_admin_login :
  forall (Upload Image : Type) (imdecode : Upload -> option Image)
         (model : option (Image -> outcome (list Yolo.Results)))
         (sha256_hexdigest : string -> string) (salt : string) (now : Z)
         (rs : list (request Upload)),
    (forall s, colon_free (sha256_hexdigest s) = true) ->
    colon_free salt = true ->
    let db := run imdecode model sha256_hexdigest (fresh_db sha256_hexdigest salt now) rs in
    let login role :=
      login_user sha256_hexdigest db
        {| ul_username := "admin"; ul_password := "admin123"; ul_role := role |} in
    (forall role, role = None \/ role = Some "" \/ role = Some "admin" ->
       login role =
         Return (JDict [("success", JBool true);
                        ("user", JDict [("id", JInt 1);
                                        ("username", JStr "admin");
                                        ("email", JStr "admin@drowsyguard.com");
                                        ("phone", JNone);
                                        ("role", JStr "admin")])])) /\
    (forall r, r <> "" -> r <> "admin" ->
       login (Some r) = Raise (HTTPException 403 (Text "Invalid role for this account"))).
Proof.
  intros Upload Image imdecode model sha salt now rs Hsha Hsalt db login.
  destruct (run_fresh_users Upload Image imdecode model sha salt now rs) as [rest Hu].
  fold db in Hu.
  assert (Hfind : forall role,
            find (fun u => String.eqb (Users.username u)
                             (ul_username {| ul_username := "admin";
                                             ul_password := "admin123";
                                             ul_role := role |}))
                 (users db) = Some (default_admin sha salt now)).
  { intro role. rewrite Hu. reflexivity. }
  assert (Hver : verify_password sha "admin123"
                   (Users.password_hash (default_admin sha salt now)) = true).
  { unfold verify_password, default_admin, hash_password.
    cbn [Users.password_hash String.append].
    rewrite (str_split_append salt _ Hsalt), (str_split_free _ (Hsha _)).
    apply String.eqb_refl. }
  subst login. split.
  - intros role Hrole. rewrite (login_user_of_row sha db _ _ (Hfind role)).
    cbn [ul_password ul_role]. rewrite Hver.
    destruct Hrole as [-> | [-> | ->]]; reflexivity.
  - intros r H1 H2. rewrite (login_user_of_row sha db _ _ (Hfind (Some r))).
    cbn [ul_password ul_role]. rewrite Hver.
    apply String.eqb_neq in H1. rewrite H1.
    assert (H3 : String.eqb (Users.role (default_admin sha salt now)) r = false)
      by (apply String.eqb_neq; intro; apply H2; now subst r).
    now rewrite H3.
Qed.

Lemma default_admin_login_witness :
  (forall s, colon_free (Hex.hexdigest s) = true) /\
  colon_free "00" = true /\
  login_user Hex.hexdigest
    (Hex.history [Sample.driver; Sample.start 2 2; Sample.detect 1 "drowsy" (9 # 10) 3])
    {| ul_username := "admin"; ul_password := "admin123"; ul_role := Some "admin" |}
  = Return (JDict [("success", JBool true);
                   ("user", JDict [("id", JInt 1);
                                   ("username", JStr "admin");
                                   ("email", JStr "admin@drowsyguard.com");
                                   ("phone", JNone);
                                   ("role", JStr "admin")])]).
Proof.
  split; [exact hexdigest_colon_free|]. split; [reflexivity|].
  destruct (default_admin_login Sample.Upload Sample.Image Sample.imdecode Sample.model
              Hex.hexdigest "00" 0
              [Sample.driver; Sample.start 2 2; Sample.detect 1 "drowsy" (9 # 10) 3]
              hexdigest_colon_free eq_refl) as [Hok _].
  exact (Hok (Some "admin") (or_intror (or_intror eq_refl))).
Defined.

(** X9: [login_user] answers with a body, with error 401 or with error
    403, never with error 500: its [except HTTPException: raise] passes
    the two errors on unchanged.  A username that is not stored gets the
    same 401 as a wrong password. *)
Theorem login_user_errors :
  forall (sha256_hexdigest : string -> string) (db : DB) (login_data : UserLogin),
    ((exists user, In user (users db) /\
                   Users.username user = ul_username login_data /\
                   verify_password sha256_hexdigest (ul_password login_data)
                     (Users.password_hash user) = true /\
                   login_user sha256_hexdigest db login_data = Return (login_body user))
     \/ login_user sha256_hexdigest db login_data
        = Raise (HTTPException 401 (Text "Invalid username or password"))
     \/ login_user sha256_hexdigest db login_data
        = Raise (HTTPException 403 (Text "Invalid role for this account"))) /\
    ((forall u, In u (users db) -> Users.username u <> ul_username login_data) ->
     login_user sha256_hexdigest db login_data
     = Raise (HTTPException 401 (Text "Invalid username or password"))).
Proof.
  intros sha db login_data. split.
  - destruct (find (fun u => String.eqb (Users.username u) (ul_username login_data))
                   (users db)) as [user|] eqn:Hfind.
    + rewrite (login_user_of_row sha db login_data user Hfind).
      apply find_some in Hfind. destruct Hfind as [Hin Hname].
      apply String.eqb_eq in Hname.
      destruct (verify_password sha _ _) eqn:Hver; [|right; left; reflexivity].
      destruct (ul_role login_data) as [r|]; [|left; exists user; auto].
      destruct (String.eqb r ""); [left; exists user; auto|].
      destruct (String.eqb (Users.role user) r); [left; exists user; auto|].
      right. right. reflexivity.
    + right. left. unfold login_user. now rewrite Hfind.
  - intro Hnone. unfold login_user. now rewrite (find_username_none db _ Hnone).
Qed.

Lemma login_user_errors_witness :
  (forall u, In u (users (Hex.history [])) -> Users.username u <> "mallory") /\
  login_user Hex.hexdigest (Hex.history [])
    {| ul_username := "mallory"; ul_password := "admin123"; ul_role := None |}
  = Raise (HTTPException 401 (Text "Invalid username or password")).
Proof.
  assert (H : forall u, In u (users (Hex.history [])) -> Users.username u <> "mallory").
  { intros u [<-|[]]. discriminate. }
  split; [exact H|].
  destruct (login_user_errors Hex.hexdigest (Hex.history [])
              {| ul_username := "mallory"; ul_password := "admin123"; ul_role := None |})
    as [_ Hunknown].
  exact (Hunknown H).
Defined.

(** ** Columns that are never written *)

Section Ledger.
Variables Upload Image : Type.
Variable imdecode : Upload -> option Image.
Variable model : option (Image -> outcome (list Yolo.Results)).
Variable sha256_hexdigest : string -> string.

Lemma step_register (db : DB) (user : UserCreate) (salt : string) (now : Z) :
  sessions (snd (register_user sha256_hexdigest db user salt now)) = sessions db /\
  detections (snd (register_user sha256_hexdigest db user salt now)) = detections db.
Proof.
  destruct (fst (register_user sha256_hexdigest db user salt now)) as [body|e] eqn:E.
  - destruct (register_user_stored _ _ _ _ _ _ E) as [_ [_ [_ ->]]]. now split.
  - rewrite (register_user_failed _ _ _ _ _ _ E). now split.
Qed.

Lemma never_measured_step (db : DB) (r : request Upload) :
  Forall never_measured (sessions db) ->
  Forall never_measured (sessions (step imdecode model sha256_hexdigest db r)).
Proof.
  intro H.
  destruct r as [user salt now|session_data now|session_id now
                 |session_id file latitude longitude now]; cbn [step].
  - now rewrite (proj1 (step_register db user salt now)).
  - unfold start_session. cbn [snd sessions]. apply Forall_app. split; [exact H|].
    repeat constructor.
  - unfold end_session.
    destruct (rowcount session_id (sessions db) =? 0)%nat; cbn [snd fst sessions];
      [exact H|].
    apply Forall_map. revert H. apply Forall_impl. intros s Hs.
    unfold set_end_time. destruct (Sessions.id s =? session_id); exact Hs.
  - unfold detect_drowsiness. destruct (imdecode file); cbn [snd sessions]; [|exact H].
    apply Forall_map. revert H. apply Forall_impl. intros s Hs.
    unfold update_stats. destruct (Sessions.id s =? session_id); exact Hs.
Qed.

Lemma never_measured_run (rs : list (request Upload)) (db : DB) :
  Forall never_measured (sessions db) ->
  Forall never_measured (sessions (run imdecode model sha256_hexdigest db rs)).
Proof.
  revert db. induction rs as [|r rs IH]; intros db H; cbn [run fold_left]; [exact H|].
  apply IH. now apply never_measured_step.
Qed.

End Ledger.

(** X10: in every store reached from a fresh deployment every session
    row has distance_km 0 and neither an end latitude nor an end
    longitude: no handler writes these three columns. *)
Theorem distance_never_stored :
  forall (Upload Image : Type) (imdecode : Upload -> option Image)
         (model : option (Image -> outcome (list Yolo.Results)))
         (sha256_hexdigest : string -> string) (salt : string) (now : Z)
         (rs : list (request Upload)),
    Forall (fun s => Sessions.distance_km s = 0%Q /\
                     Sessions.end_lat s = None /\ Sessions.end_lng s = None)
           (sessions (run imdecode model sha256_hexdigest
                          (fresh_db sha256_hexdigest salt now) rs)).
Proof.
  intros Upload Image imdecode model sha salt now rs.
  assert (H0 : Forall never_measured (sessions (fresh_db sha salt now))) by constructor.
  pose proof (never_measured_run Upload Image imdecode model sha rs _ H0) as H.
  revert H. apply Forall_impl. intros s Hs. exact Hs.
Qed.

(** ** Counters and stored detections *)

Lemma count_snoc {A} (p : A -> bool) (l : list A) (x : A) :
  Z.of_nat (List.length (filter p (l ++ [x])))
  = Z.of_nat (List.length (filter p l)) + (if p x then 1 else 0).
Proof.
  rewrite filter_app, length_app. cbn [filter].
  destruct (p x); cbn [List.length]; lia.
Qed.

Lemma filter_nothing {A} (p : A -> bool) (l : list A) :
  (forall x, In x l -> p x = false) -> filter p l = [].
Proof.
  induction l as [|x l IH]; intro H; cbn [filter]; [reflexivity|].
  rewrite (H x (or_introl eq_refl)). apply IH. intros y Hy. apply H. now right.
Qed.

Lemma rows_of_detect (db : DB) (session_id now : Z) (result : Prediction)
    (latitude longitude : option Q) (s : Sessions.row) :
  let d := {| Detections.id := next_rowid Detections.id (detections db);
              Detections.session_id := session_id;
              Detections.timestamp := now;
              Detections.prediction := prediction result;
              Detections.confidence := confidence result;
              Detections.latitude := latitude;
              Detections.longitude := longitude |} in
  let is_drowsy := str_in (lower (prediction result)) ["drowsy"; "sleepy"; "tired"]
                   && Qltb (7 # 10) (confidence result) in
  let inc := if is_drowsy then 1 else 0 in
  forall db' : DB,
    detections db' = detections db ++ [d] ->
    detection_count db' (update_stats inc session_id s)
      - Sessions.total_detections (update_stats inc session_id s)
      = detection_count db s - Sessions.total_detections s /\
    drowsy_rows db' (update_stats inc session_id s)
      - Sessions.drowsy_detections (update_stats inc session_id s)
      = drowsy_rows db s - Sessions.drowsy_detections s.
Proof.
  intros d is_drowsy inc db' Hdb'.
  unfold detection_count, drowsy_rows. rewrite Hdb', update_stats_id, !count_snoc.
  assert (Hrow : drowsy_row d = is_drowsy) by reflexivity.
  rewrite Hrow. cbn [Detections.session_id d]. subst d. cbn [Detections.session_id].
  unfold update_stats. rewrite (Z.eqb_sym session_id (Sessions.id s)).
  destruct (Sessions.id s =? session_id); cbn [Sessions.total_detections
    Sessions.drowsy_detections andb]; subst inc; destruct is_drowsy; lia.
Qed.

Section Counters.
Variables Upload Image : Type.
Variable imdecode : Upload -> option Image.
Variable model : option (Image -> outcome (list Yolo.Results)).
Variable sha256_hexdigest : string -> string.

Lemma at_most_rows_step (db : DB) (r : request Upload) :
  Forall (counters_at_most_rows db) (sessions db) ->
  Forall (counters_at_most_rows (step imdecode model sha256_hexdigest db r))
         (sessions (step imdecode model sha256_hexdigest db r)).
Proof.
  intro H.
  destruct r as [user salt now|session_data now|session_id now
                 |session_id file latitude longitude now]; cbn [step].
  - destruct (step_register sha256_hexdigest db user salt now) as [Hs Hd].
    rewrite Hs. revert H. apply Forall_impl. intros s.
    unfold counters_at_most_rows, detection_count, drowsy_rows. now rewrite Hd.
  - unfold start_session. cbn [snd sessions]. apply Forall_app. split.
    + revert H. apply Forall_impl. intros s Hs. exact Hs.
    + repeat constructor; unfold detection_count, drowsy_rows;
        cbn [Sessions.total_detections Sessions.drowsy_detections]; lia.
  - unfold end_session.
    destruct (rowcount session_id (sessions db) =? 0)%nat; cbn [snd fst]; [exact H|].
    cbn [sessions]. apply Forall_map. revert H. apply Forall_impl. intros s Hs.
    unfold counters_at_most_rows, detection_count, drowsy_rows in *.
    cbn [detections]. rewrite set_end_time_id.
    unfold set_end_time. destruct (Sessions.id s =? session_id); exact Hs.
  - unfold detect_drowsiness. destruct (imdecode file) as [img|]; cbn [snd]; [|exact H].
    cbn [sessions]. apply Forall_map. revert H. apply Forall_impl. intros s [Ht Hd].
    match goal with
    | |- counters_at_most_rows ?db' _ =>
        destruct (rows_of_detect db session_id now (infer_image model img)
                    latitude longitude s db' eq_refl) as [Et Ed]
    end.
    unfold counters_at_most_rows. split; lia.
Qed.

Lemma at_most_rows_run (rs : list (request Upload)) (db : DB) :
  Forall (counters_at_most_rows db) (sessions db) ->
  let db' := run imdecode model sha256_hexdigest db rs in
  Forall (counters_at_most_rows db') (sessions db').
Proof.
  revert db. induction rs as [|r rs IH]; intros db H; cbn [run fold_left]; [exact H|].
  apply IH. now apply at_most_rows_step.
Qed.

End Counters.

(** X11: in every store reached from a fresh deployment, the stored
    total_detections of a session is at most the number of detection rows
    that carry its id, and its drowsy_detections is at most the number of
    those rows that pass the drowsiness test.  The inequality can be
    strict: a frame recorded for an id that does not exist yet is
    attributed to the session that later receives that id, whose counters
    start at 0. *)
Theorem counters_at_most_stored_rows :
  (forall (Upload Image : Type) (imdecode : Upload -> option Image)
          (model : option (Image -> outcome (list Yolo.Results)))
          (sha256_hexdigest : string -> string) (salt : string) (now : Z)
          (rs : list (request Upload)),
      let db := run imdecode model sha256_hexdigest (fresh_db sha256_hexdigest salt now) rs in
      Forall (fun s => Sessions.total_detections s <= detection_count db s /\
                       Sessions.drowsy_detections s <= drowsy_rows db s)
             (sessions db)) /\
  (let db := Sample.history [Sample.detect 1 "drowsy" (9 # 10) 1; Sample.start 1 2] in
   map (fun s => (Sessions.id s, Sessions.total_detections s, detection_count db s))
       (sessions db) = [(1, 0, 1)]).
Proof.
  split; [|reflexivity].
  intros Upload Image imdecode model sha salt now rs db.
  assert (H0 : Forall (counters_at_most_rows (fresh_db sha salt now))
                      (sessions (fresh_db sha salt now))) by constructor.
  pose proof (at_most_rows_run Upload Image imdecode model sha rs _ H0) as H.
  revert H. apply Forall_impl. intros s Hs. exact Hs.
Qed.

Lemma orphan_free_below (db : DB) (d : Detections.row) :
  no_orphans db -> In d (detections db) ->
  Detections.session_id d < next_rowid Sessions.id (sessions db).
Proof.
  intros Hno Hin. destruct (Hno d Hin) as [s [Hs <-]].
  now apply next_rowid_above.
Qed.

Section Matching.
Variables Upload Image : Type.
Variable imdecode : Upload -> option Image.
Variable model : option (Image -> outcome (list Yolo.Results)).
Variable sha256_hexdigest : string -> string.

Lemma match_rows_step (db : DB) (r : request Upload) :
  no_orphans db -> Forall (counters_match_rows db) (sessions db) ->
  match r with
  | Detect session_id _ _ _ _ => exists s, In s (sessions db) /\ Sessions.id s = session_id
  | _ => True
  end ->
  no_orphans (step imdecode model sha256_hexdigest db r) /\
  Forall (counters_match_rows (step imdecode model sha256_hexdigest db r))
         (sessions (step imdecode model sha256_hexdigest db r)).
Proof.
  intros Hno H Hknown.
  destruct r as [user salt now|session_data now|session_id now
                 |session_id file latitude longitude now]; cbn [step].
  - destruct (step_register sha256_hexdigest db user salt now) as [Hs Hd]. split.
    + unfold no_orphans. rewrite Hs, Hd. exact Hno.
    + rewrite Hs. revert H. apply Forall_impl. intros s.
      unfold counters_match_rows, detection_count, drowsy_rows. now rewrite Hd.
  - unfold start_session. cbn [snd]. split.
    + intros d Hd. cbn [detections] in Hd. destruct (Hno d Hd) as [s [Hs Hid]].
      exists s. split; [|exact Hid]. cbn [sessions]. apply in_or_app. now left.
    + cbn [sessions]. apply Forall_app. split.
      * revert H. apply Forall_impl. intros s Hs. exact Hs.
      * constructor; [|constructor].
        unfold counters_match_rows, detection_count, drowsy_rows.
        cbn [Sessions.total_detections Sessions.drowsy_detections Sessions.id detections].
        rewrite !filter_nothing; [split; reflexivity | |];
          intros d Hd; pose proof (orphan_free_below db d Hno Hd) as Hlt;
          assert (E : (Detections.session_id d =? next_rowid Sessions.id (sessions db)) = false)
            by (apply Z.eqb_neq; lia);
          now rewrite E.
  - unfold end_session.
    destruct (rowcount session_id (sessions db) =? 0)%nat; cbn [snd fst];
      [split; assumption|].
    split.
    + intros d Hd. cbn [detections] in Hd. destruct (Hno d Hd) as [s [Hs Hid]].
      exists (set_end_time now session_id s). cbn [sessions].
      split; [now apply in_map | now rewrite set_end_time_id].
    + cbn [sessions]. apply Forall_map. revert H. apply Forall_impl. intros s Hs.
      unfold counters_match_rows, detection_count, drowsy_rows in *.
      cbn [detections]. rewrite set_end_time_id.
      unfold set_end_time. destruct (Sessions.id s =? session_id); exact Hs.
  - unfold detect_drowsiness.
    destruct (imdecode file) as [img|]; cbn [snd]; [|split; assumption].
    split.
    + intros d Hd. cbn [detections] in Hd. apply in_app_or in Hd.
      assert (Hkeep : forall s, In s (sessions db) ->
                exists s', In s' (map (update_stats
                  (if str_in (lower (prediction (infer_image model img)))
                             ["drowsy"; "sleepy"; "tired"]
                      && Qltb (7 # 10) (confidence (infer_image model img))
                   then 1 else 0) session_id) (sessions db))
                /\ Sessions.id s' = Sessions.id s).
      { intros s Hs. eexists. split; [apply in_map; exact Hs | apply update_stats_id]. }
      cbn [sessions]. destruct Hd as [Hd|[<-|[]]].
      * destruct (Hno d Hd) as [s [Hs Hid]].
        destruct (Hkeep s Hs) as [s' [Hs' Hid']]. exists s'. split; [exact Hs' | congruence].
      * destruct Hknown as [s [Hs Hid]].
        destruct (Hkeep s Hs) as [s' [Hs' Hid']]. exists s'. split; [exact Hs'|].
        cbn [Detections.session_id]. congruence.
    + cbn [sessions]. apply Forall_map. revert H. apply Forall_impl. intros s [Ht Hd].
      match goal with
      | |- counters_match_rows ?db' _ =>
          destruct (rows_of_detect db session_id now (infer_image model img)
                      latitude longitude s db' eq_refl) as [Et Ed]
      end.
      unfold counters_match_rows. split; lia.
Qed.

Lemma match_rows_run (rs : list (request Upload)) (db : DB) :
  no_orphans db -> Forall (counters_match_rows db) (sessions db) ->
  known_targets imdecode model sha256_hexdigest db rs ->
  let db' := run imdecode model sha256_hexdigest db rs in
  no_orphans db' /\ Forall (counters_match_rows db') (sessions db').
Proof.
  revert db. induction rs as [|r rs IH]; intros db Hno H Hk; cbn [run fold_left];
    [now split|].
  destruct Hk as [Hr Hrest].
  destruct (match_rows_step db r Hno H Hr) as [Hno' H'].
  now apply IH.
Qed.

End Matching.

(** X12: when every detection request of a history on a fresh
    deployment names a session that exists at that moment, the reached
    store has no orphan detection (each refers to a stored session) and
    every session's counters agree with the stored rows:
    total_detections is the number of detection rows of the session, the
    join count of the driver dashboard, and drowsy_detections is the
    number of those rows that pass the drowsiness test. *)
Theorem counters_match_stored_rows :
  forall (Upload Image : Type) (imdecode : Upload -> option Image)
         (model : option (Image -> outcome (list Yolo.Results)))
         (sha256_hexdigest : string -> string) (salt : string) (now : Z)
         (rs : list (request Upload)),
    known_targets imdecode model sha256_hexdigest (fresh_db sha256_hexdigest salt now) rs ->
    let db := run imdecode model sha256_hexdigest (fresh_db sha256_hexdigest salt now) rs in
    (forall d, In d (detections db) ->
               exists s, In s (sessions db) /\ Sessions.id s = Detections.session_id d) /\
    Forall (fun s => Sessions.total_detections s = detection_count db s /\
                     Sessions.drowsy_detections s = drowsy_rows db s)
           (sessions db).
Proof.
  intros Upload Image imdecode model sha salt now rs Hk db.
  assert (Hno : no_orphans (fresh_db sha salt now)) by (intros d []).
  assert (H0 : Forall (counters_match_rows (fresh_db sha salt now))
                      (sessions (fresh_db sha salt now))) by constructor.
  destruct (match_rows_run Upload Image imdecode model sha rs _ Hno H0 Hk) as [Hno' H].
  split; [exact Hno'|].
  revert H. apply Forall_impl. intros s Hs. exact Hs.
Qed.

Lemma counters_match_stored_rows_witness :
  known_targets Sample.imdecode Sample.model Sample.sha256_hexdigest
    (fresh_db Sample.sha256_hexdigest "00" 0)
    [Sample.start 1 5; Sample.detect 1 "tired" (9 # 10) 6] /\
  map (fun s => (Sessions.total_detections s, Sessions.drowsy_detections s))
      (sessions Sample.busy) = [(1, 1)] /\
  Forall (fun s => Sessions.total_detections s = detection_count Sample.busy s /\
                   Sessions.drowsy_detections s = drowsy_rows Sample.busy s)
         (sessions Sample.busy).
Proof.
  assert (Hk : known_targets Sample.imdecode Sample.model Sample.sha256_hexdigest
                 (fresh_db Sample.sha256_hexdigest "00" 0)
                 [Sample.start 1 5; Sample.detect 1 "tired" (9 # 10) 6]).
  { cbn [known_targets Sample.start Sample.detect]. split; [exact I|]. split; [|exact I].
    eexists. split; [left; reflexivity | reflexivity]. }
  split; [exact Hk|]. split; [reflexivity|].
  exact (proj2 (counters_match_stored_rows Sample.Upload Sample.Image Sample.imdecode
                  Sample.model Sample.sha256_hexdigest "00" 0
                  [Sample.start 1 5; Sample.detect 1 "tired" (9 # 10) 6] Hk)).
Defined.

(** ** Frames without a label *)




(** ** The thresholds on the raw confidence *)

Lemma inject_Z_succ (n : Z) : (inject_Z (n + 1) == inject_Z n + 1)%Q.
Proof. rewrite inject_Z_plus. reflexivity. Qed.

Lemma Z_lt_Q_succ (a b : Z) : a < b -> (inject_Z a + 1 <= inject_Z b)%Q.
Proof.
  intro H. rewrite <- inject_Z_succ. rewrite <- Zle_Qle. lia.
Qed.

Lemma round_half_even_above (x : Q) (n : Z) :
  Z.even n = true ->
  (n < round_half_even x <-> (inject_Z n + (1 # 2) < x)%Q).
Proof.
  intro Heven. unfold round_half_even.
  pose proof (Qfloor_le x) as Hlo. pose proof (Qlt_floor x) as Hhi.
  rewrite inject_Z_succ in Hhi.
  set (f := Qfloor x) in *.
  assert (Hcmp : forall a b : Z, a < b \/ a = b \/ b < a) by (intros; lia).
  destruct (Qcompare_spec (x - inject_Z f) (1 # 2)) as [He|Hl|Hg].
  - destruct (Hcmp n f) as [Hnf|[Hnf|Hnf]].
    + pose proof (Z_lt_Q_succ n f Hnf).
      split; [intros _; lra | intros _; destruct (Z.even f); lia].
    + subst f. rewrite <- Hnf, Heven. split; [lia | intro H; rewrite <- Hnf in He; lra].
    + pose proof (Z_lt_Q_succ f n Hnf).
      split; [destruct (Z.even f); lia | intro; lra].
  - destruct (Hcmp n f) as [Hnf|[Hnf|Hnf]].
    + pose proof (Z_lt_Q_succ n f Hnf). split; [intros _; lra | intros _; lia].
    + subst f. rewrite <- Hnf in Hl. split; [lia | intro; lra].
    + pose proof (Z_lt_Q_succ f n Hnf). split; [lia | intro; lra].
  - destruct (Hcmp n f) as [Hnf|[Hnf|Hnf]].
    + pose proof (Z_lt_Q_succ n f Hnf). split; [intros _; lra | intros _; lia].
    + subst f. rewrite <- Hnf in Hg. split; [intros _; lra | intros _; lia].
    + pose proof (Z_lt_Q_succ f n Hnf). split; [lia | intro; lra].
Qed.

Lemma round4_above (c : Q) (n : Z) :
  Z.even n = true ->
  Qltb (inject_Z n / 10000) (round c 4) = true <->
  ((inject_Z n + (1 # 2)) / 10000 < c)%Q.
Proof.
  intro Heven. rewrite Qltb_lt. unfold round.
  change (inject_Z (10 ^ Z.of_nat 4)) with 10000%Q.
  set (k := round_half_even (c * 10000)).
  assert (Hk : n < k <-> (inject_Z n + (1 # 2) < c * 10000)%Q)
    by (apply round_half_even_above; exact Heven).
  assert (Hq : (inject_Z n / 10000 < inject_Z k / 10000)%Q <-> n < k).
  { rewrite Zlt_Qlt. split; intro H.
    - apply (Qmult_lt_r _ _ (/ 10000)%Q); [reflexivity | exact H].
    - apply (Qmult_lt_r _ _ (/ 10000)%Q) in H; [exact H | reflexivity]. }
  rewrite Hq, Hk. split; intro H.
  - apply Qlt_shift_div_r; [reflexivity | exact H].
  - apply (Qmult_lt_r _ _ 10000%Q) in H; [|reflexivity].
    assert (E : ((inject_Z n + (1 # 2)) / 10000 * 10000 == inject_Z n + (1 # 2))%Q)
      by (field).
    rewrite E in H. exact H.
Qed.

Lemma infer_image_top {Image : Type} (m : Image -> outcome (list Yolo.Results))
    (img : Image) (r0 : Yolo.Results) (rest : list Yolo.Results)
    (boxes : list Yolo.Box) (label : string) :
  m img = Return (r0 :: rest) ->
  Yolo.boxes r0 = Some boxes ->
  boxes <> [] ->
  getitem (Yolo.names r0) (Yolo.cls (top_box boxes)) = Return label ->
  infer_image (Some m) img =
    {| prediction := label; confidence := round (Yolo.conf (top_box boxes)) 4 |}.
Proof.
  intros Hm Hb Hne Hlabel. unfold infer_image. rewrite Hm. cbn [bind]. rewrite Hb.
  destruct boxes as [|b0 bs]; [congruence|].
  set (boxes := b0 :: bs) in *.
  change (List.length boxes =? 0)%nat with false. cbv iota.
  unfold top_box in Hlabel.
  set (i := argmax (map Yolo.conf boxes)) in *.
  change (nth i (map Yolo.cls boxes) 0)
    with (nth i (map Yolo.cls boxes) (Yolo.cls {| Yolo.conf := 0; Yolo.cls := 0 |})).
  change (nth i (map Yolo.conf boxes) 0%Q)
    with (nth i (map Yolo.conf boxes) (Yolo.conf {| Yolo.conf := 0; Yolo.cls := 0 |})).
  rewrite !map_nth, Hlabel. reflexivity.
Qed.

(** X14: the thresholds in terms of what the model reports.  When the
    model returns boxes and the label of the first box of greatest
    confidence is found, the recorded confidence is that box's confidence
    rounded to 4 decimal places, so is_drowsy is true exactly when the
    lowercased label is drowsy, sleepy or tired and the box's own
    confidence exceeds 0.70005, and alert_level is high exactly when in
    addition it exceeds 0.80005.  A box at 0.70005 or below never counts
    as drowsy. *)
Theorem raw_confidence_thresholds :
  forall (Upload Image : Type) (imdecode : Upload -> option Image)
         (m : Image -> outcome (list Yolo.Results))
         (db : DB) (session_id : Z) (file : Upload) (latitude longitude : option Q)
         (now : Z) (img : Image) (r0 : Yolo.Results) (rest : list Yolo.Results)
         (boxes : list Yolo.Box) (label : string),
    imdecode file = Some img ->
    m img = Return (r0 :: rest) ->
    Yolo.boxes r0 = Some boxes ->
    boxes <> [] ->
    getitem (Yolo.names r0) (Yolo.cls (top_box boxes)) = Return label ->
    exists (is_drowsy : bool) (alert_level : string),
      fst (detect_drowsiness imdecode (Some m) db session_id file latitude longitude now)
        = detection_body
            {| prediction := label; confidence := round (Yolo.conf (top_box boxes)) 4 |}
            is_drowsy alert_level /\
      (is_drowsy = true <->
         In (lower label) ["drowsy"; "sleepy"; "tired"]
         /\ (70005 # 100000 < Yolo.conf (top_box boxes))%Q) /\
      (alert_level = "high" <->
         In (lower label) ["drowsy"; "sleepy"; "tired"]
         /\ (80005 # 100000 < Yolo.conf (top_box boxes))%Q).
Proof.
  intros Upload Image imdecode m db session_id file latitude longitude now img r0 rest
         boxes label Hdec Hm Hb Hne Hlabel.
  destruct (detect_drowsiness_decoded Upload Image imdecode (Some m) db session_id file
              latitude longitude now img Hdec) as [b [Hsignal Heq]].
  rewrite (infer_image_top m img r0 rest boxes label Hm Hb Hne Hlabel) in Hsignal, Heq.
  unfold drowsy_signal in Hsignal. cbn [prediction confidence] in Hsignal, Heq.
  set (c := Yolo.conf (top_box boxes)) in *.
  assert (H7 : (7 # 10 < round c 4)%Q <-> (70005 # 100000 < c)%Q).
  { assert (E : (7 # 10 == inject_Z 7000 / 10000)%Q) by reflexivity.
    assert (E' : ((inject_Z 7000 + (1 # 2)) / 10000 == 70005 # 100000)%Q) by reflexivity.
    rewrite E, <- E', <- Qltb_lt. apply round4_above. reflexivity. }
  assert (H8 : Qltb (8 # 10) (round c 4) = true <-> (80005 # 100000 < c)%Q).
  { assert (E : (8 # 10 == inject_Z 8000 / 10000)%Q) by reflexivity.
    assert (E' : ((inject_Z 8000 + (1 # 2)) / 10000 == 80005 # 100000)%Q) by reflexivity.
    rewrite Qltb_lt, E, <- E', <- Qltb_lt. apply round4_above. reflexivity. }
  exists b, (if b && Qltb (8 # 10) (round c 4) then "high" else "low").
  rewrite Heq. split; [reflexivity|]. split.
  - rewrite Hsignal, H7. reflexivity.
  - assert (Hhigh : (if b && Qltb (8 # 10) (round c 4) then "high" else "low") = "high"
                    <-> b = true /\ Qltb (8 # 10) (round c 4) = true).
    { rewrite <- andb_true_iff.
      destruct (b && Qltb (8 # 10) (round c 4)); split; congruence. }
    rewrite Hhigh, Hsignal, H7, H8. split.
    + intros [[Hl _] H]. now split.
    + intros [Hl H]. repeat split; try assumption. lra.
Qed.

Lemma raw_confidence_thresholds_witness :
  Sample.imdecode (Sample.frame "Tired" (70005 # 100000)) = Some ("Tired", 70005 # 100000) /\
  exists alert_level,
    fst (detect_drowsiness Sample.imdecode Sample.model Sample.one_session 1
           (Sample.frame "Tired" (70005 # 100000)) None None 9)
      = detection_body {| prediction := "Tired"; confidence := round (70005 # 100000) 4 |}
                       false alert_level.
Proof.
  split; [reflexivity|].
  destruct (raw_confidence_thresholds Sample.Upload Sample.Image Sample.imdecode
              (fun img => Return [ {| Yolo.boxes := Some [ {| Yolo.conf := snd img;
                                                              Yolo.cls := 0 |} ];
                                      Yolo.names := [(0, fst img)] |} ])
              Sample.one_session 1 (Sample.frame "Tired" (70005 # 100000)) None None 9
              ("Tired", 70005 # 100000) _ _ _ "Tired" eq_refl eq_refl eq_refl
              ltac:(discriminate) eq_refl)
    as [b [lvl [Hbody [Hb _]]]].
  exists lvl.
  assert (E : b = false).
  { destruct b; [|reflexivity]. destruct Hb as [Hb _].
    destruct (Hb eq_refl) as [_ Hlt]. vm_compute in Hlt. discriminate Hlt. }
  rewrite E in Hbody. exact Hbody.
Defined.

(** ** Stateless prediction *)

(** X15: the two stateless endpoints answer alike, and a decodable
    frame gets from them the label and confidence that a detection
    request records.  A file that [cv2.imdecode] returns no frame for
    gets the same Invalid image body from all three handlers.  A file on
    which it raises is answered with Prediction failed by the stateless
    endpoints and with Detection failed by the detection request.  For a
    decodable file the stateless endpoints always report the classifier's
    label and confidence; the detection request stores exactly these in
    the appended row when it answers success, and stores nothing
    otherwise (an id that does not bind, a locked database). *)
Theorem predict_agrees_with_detect :
  forall (Upload Image : Type) (imdecode : Upload -> outcome (option Image))
         (model : option (Image -> outcome (list Yolo.Results)))
         (s : Live.Database) (session_id : Z) (file : Upload)
         (latitude longitude : option Q) (now : Z),
    let out := Live.detect_drowsiness imdecode model s session_id file
                 latitude longitude now in
    Live.predict_frame_simple imdecode model file = Live.predict_image imdecode model file /\
    match imdecode file with
    | Raise e =>
        Live.predict_image imdecode model file
          = JDict [("success", JBool false); ("message", JFStr "Prediction failed: " e)] /\
        fst out = JDict [("success", JBool false); ("message", JFStr "Detection failed: " e)] /\
        snd out = s
    | Return None =>
        Live.predict_image imdecode model file
          = JDict [("success", JBool false); ("message", JStr "Invalid image")] /\
        fst out = Live.predict_image imdecode model file /\
        snd out = s
    | Return (Some img) =>
        let result := infer_image model img in
        Live.predict_image imdecode model file
          = JDict [("success", JBool true);
                   ("data", JDict [("prediction", JStr (prediction result));
                                   ("confidence", JFloat (confidence result))])] /\
        (field "success" (fst out) = JBool true ->
           field "prediction" (field "data" (fst out)) = JStr (prediction result) /\
           field "confidence" (field "data" (fst out)) = JFloat (confidence result) /\
           exists d : Detections.row,
             detections (Live.tables (snd out)) = detections (Live.tables s) ++ [d] /\
             Detections.prediction d = prediction result /\
             Detections.confidence d = confidence result) /\
        (field "success" (fst out) <> JBool true -> snd out = s)
    end.
Proof.
  intros Upload Image imdecode model s session_id file latitude longitude now out.
  split; [reflexivity|]. subst out.
  destruct (imdecode file) as [[img|]|e] eqn:Hdec.
  - cbv zeta. split; [unfold Live.predict_image; now rewrite Hdec|]. split.
    + intro Hs.
      destruct (live_detect_success Upload Image imdecode model s session_id file
                  latitude longitude now Hs) as [img' [Hdec' [Hfits Hfree]]].
      rewrite Hdec in Hdec'. injection Hdec' as <-.
      assert (Hd : decoded imdecode file = Some img) by (unfold decoded; now rewrite Hdec).
      destruct (detect_drowsiness_decoded Upload Image (decoded imdecode) model
                  (Live.tables s) session_id file latitude longitude now img Hd)
        as [b [_ Heq]].
      rewrite (live_detect_stored Upload Image imdecode model s session_id file
                 latitude longitude now img Hdec Hfits Hfree), Heq.
      cbn [fst snd Live.tables Live.committed detections].
      split; [reflexivity|]. split; [reflexivity|].
      eexists. split; [reflexivity|]. split; reflexivity.
    + apply live_detect_failure.
  - rewrite (live_detect_undecodable Upload Image imdecode model s session_id file
               latitude longitude now Hdec).
    unfold Live.predict_image. rewrite Hdec. repeat split.
  - rewrite (live_detect_raised Upload Image imdecode model s session_id file
               latitude longitude now e Hdec).
    unfold Live.predict_image. rewrite Hdec. repeat split.
Qed.

Lemma predict_agrees_with_detect_witness :
  Live.predict_image Bench.imdecode Sample.model Bench.Empty
  = JDict [("success", JBool false);
           ("message",
            JFStr "Prediction failed: "
                  (cv2_error "(-215:Assertion failed) !buf.empty() in function 'imdecode_'"))] /\
  fst (Live.detect_drowsiness Bench.imdecode Sample.model Bench.one_session 1 Bench.Empty
         None None 9)
  = JDict [("success", JBool false);
           ("message",
            JFStr "Detection failed: "
                  (cv2_error "(-215:Assertion failed) !buf.empty() in function 'imdecode_'"))] /\
  Live.predict_image Bench.imdecode Sample.model Bench.Noise
  = JDict [("success", JBool false); ("message", JStr "Invalid image")] /\
  Live.predict_image Bench.imdecode Sample.model (Bench.Frame "tired" (9 # 10))
  = JDict [("success", JBool true);
           ("data", JDict [("prediction", JStr "tired");
                           ("confidence", JFloat (confidence
                                                    (infer_image Sample.model
                                                       ("tired", 9 # 10))))])].
Proof.
  pose proof (predict_agrees_with_detect Bench.Upload Sample.Image Bench.imdecode Sample.model
                Bench.one_session 1 Bench.Empty None None 9) as [_ [H1 [H2 _]]].
  pose proof (predict_agrees_with_detect Bench.Upload Sample.Image Bench.imdecode Sample.model
                Bench.one_session 1 Bench.Noise None None 9) as [_ [H3 _]].
  pose proof (predict_agrees_with_detect Bench.Upload Sample.Image Bench.imdecode Sample.model
                Bench.one_session 1 (Bench.Frame "tired" (9 # 10)) None None 9)
    as [_ [H4 _]].
  split; [exact H1|]. split; [exact H2|]. split; [exact H3 | exact H4].
Defined.

(** ** The score of the driver dashboard *)

Lemma round_half_even_between (x : Q) (a b : Z) :
  (inject_Z a <= x)%Q -> (x <= inject_Z b)%Q -> a <= round_half_even x <= b.
Proof.
  intros Ha Hb. unfold round_half_even.
  pose proof (Qfloor_le x) as Hlo.
  assert (Haf : a <= Qfloor x).
  { rewrite <- (Qfloor_Z a). now apply Qfloor_resp_le. }
  assert (Hfb : Qfloor x <= b).
  { rewrite <- (Qfloor_Z b). now apply Qfloor_resp_le. }
  set (f := Qfloor x) in *.
  assert (Hup : (0 < x - inject_Z f)%Q -> f + 1 <= b).
  { intro Hpos. destruct (Z.eq_dec f b) as [->|Hne]; [lra | lia]. }
  destruct (Qcompare_spec (x - inject_Z f) (1 # 2)) as [He|Hl|Hg].
  - destruct (Z.even f); [lia|]. assert (f + 1 <= b) by (apply Hup; lra). lia.
  - lia.
  - assert (f + 1 <= b) by (apply Hup; lra). lia.
Qed.

(** [round(x, 1)] when ten times [x] is strictly within half a unit of
    an integer. *)
Lemma round1_of (x : Q) (n : Z) :
  (inject_Z n - (1 # 2) < x * 10)%Q -> (x * 10 < inject_Z n + (1 # 2))%Q ->
  (round x 1 == inject_Z n / 10)%Q.
Proof.
  intros Hlo Hhi. unfold round. change (inject_Z (10 ^ Z.of_nat 1)) with 10%Q.
  now rewrite (round_half_even_open (x * 10) n Hlo Hhi).
Qed.

Lemma round1_between (x : Q) :
  (0 <= x)%Q -> (x <= 100 + (1 # 100))%Q -> (0 <= round x 1 /\ round x 1 <= 100)%Q.
Proof.
  intros H0 H100. unfold round.
  change (inject_Z (10 ^ Z.of_nat 1)) with 10%Q.
  destruct (round_half_even_between (x * 10) 0 1001) as [Hk0 _].
  - change (inject_Z 0) with 0%Q. lra.
  - change (inject_Z 1001) with 1001%Q. lra.
  - assert (Hk1 : round_half_even (x * 10) <= 1000).
    { destruct (Z_lt_le_dec 1000 (round_half_even (x * 10))) as [Hgt|Hle]; [|exact Hle].
      apply (round_half_even_above (x * 10) 1000 eq_refl) in Hgt.
      change (inject_Z 1000) with 1000%Q in Hgt. lra. }
    set (k := round_half_even (x * 10)) in *.
    rewrite Zle_Qle in Hk0, Hk1.
    change (inject_Z 0) with 0%Q in Hk0. change (inject_Z 1000) with 1000%Q in Hk1.
    split.
    + apply Qle_shift_div_l; [reflexivity | lra].
    + apply Qle_shift_div_r; [reflexivity | lra].
Qed.

Lemma safety_score_nonneg (total_drowsy total_detections : Z) :
  (0 <= safety_score total_drowsy total_detections)%Q.
Proof.
  unfold safety_score. destruct (0 <? total_detections); [|discriminate].
  unfold max0. destruct (Qltb 0 _) eqn:E; [|apply Qle_refl].
  apply Qltb_lt in E. now apply Qlt_le_weak.
Qed.

(** X16: the safety score stays between 0 and 100 in every store with
    consistent counters.  It is 100 when the user's ended sessions hold no
    drowsy detection, and it is 0 as soon as at least half of their
    detections are drowsy. *)
Theorem safety_score_range :
  forall (db : DB) (user_id : Z),
    Forall counters_ok (sessions db) ->
    let ended :=
      filter (fun s => (Sessions.user_id s =? user_id) && is_some (Sessions.end_time s))
             (sessions db) in
    let total := fold_right Z.add 0 (map Sessions.total_detections ended) in
    let drowsy := fold_right Z.add 0 (map Sessions.drowsy_detections ended) in
    exists (body : json) (score : Q),
      get_dashboard db user_id = Return body /\
      field "safety_score" (field "data" body) = JFloat score /\
      (0 <= score)%Q /\ (score <= 100)%Q /\
      (drowsy = 0 -> (score == 100)%Q) /\
      (0 < total -> total <= 2 * drowsy -> (score == 0)%Q).
Proof.
  intros db user_id Hok ended total drowsy.
  unfold get_dashboard. fold (ended_sessions_of db user_id).
  change (ended_sessions_of db user_id) with ended.
  eexists _, (round (safety_score drowsy total) 1).
  split; [reflexivity|].
  cbn [snd fst]. rewrite !or0_SUM. fold total drowsy.
  split; [reflexivity|].
  assert (Hended : Forall counters_ok ended).
  { apply Forall_forall. intros s Hs. apply filter_In in Hs.
    rewrite Forall_forall in Hok. now apply Hok. }
  destruct (drowsy_nonneg ended Hended) as [Hd0 Hdt]. fold drowsy total in Hd0, Hdt.
  pose proof (safety_score_nonneg drowsy total) as Hs0.
  destruct (Z.eq_dec total 0) as [Hz|Hnz].
  - assert (E : safety_score drowsy total = 100%Q) by (unfold safety_score; now rewrite Hz).
    rewrite E. split; [discriminate|]. split; [discriminate|].
    split; [reflexivity | lia].
  - assert (Ht : 0 < total) by lia.
    pose proof (safety_score_near drowsy total (conj Hd0 Hdt) Ht) as Hnear.
    assert (Htq : (0 < inject_Z total)%Q)
      by (change 0%Q with (inject_Z 0); now rewrite <- Zlt_Qlt).
    assert (Hy0 : (0 <= 100 * inject_Z drowsy / inject_Z total)%Q).
    { apply Qle_shift_div_l; [exact Htq|]. rewrite Qmult_0_l.
      rewrite Zle_Qle in Hd0. change (inject_Z 0) with 0%Q in Hd0. lra. }
    set (y := (100 * inject_Z drowsy / inject_Z total)%Q) in *.
    set (s := safety_score drowsy total) in *.
    apply Qabs_Qle_condition in Hnear. destruct Hnear as [Hn1 Hn2].
    assert (Hs1 : (s <= 100 + (1 # 100))%Q).
    { destruct (Q.max_spec 0 (100 - 2 * y)) as [[_ Hm]|[_ Hm]]; rewrite Hm in Hn2; lra. }
    destruct (round1_between s Hs0 Hs1) as [Hr0 Hr1].
    split; [exact Hr0|]. split; [exact Hr1|]. split.
    + intro Hz.
      assert (E : (y == 0)%Q).
      { unfold y. rewrite Hz. unfold Qdiv. now rewrite Qmult_0_r, Qmult_0_l. }
      assert (Hm : (Qmax 0 (100 - 2 * y) == 100)%Q).
      { destruct (Q.max_spec 0 (100 - 2 * y)) as [[_ Hm]|[Hl Hm]]; rewrite Hm; lra. }
      rewrite Hm in Hn1, Hn2.
      rewrite (round1_of s 1000); [reflexivity | |]; change (inject_Z 1000) with 1000%Q; lra.
    + intros _ Hhalf.
      assert (Hy : (50 <= y)%Q).
      { apply Qle_shift_div_l; [exact Htq|].
        assert (H2 : (inject_Z total <= 2 * inject_Z drowsy)%Q).
        { change 2%Q with (inject_Z 2). rewrite <- inject_Z_mult, <- Zle_Qle. exact Hhalf. }
        lra. }
      assert (Hm : (Qmax 0 (100 - 2 * y) == 0)%Q).
      { destruct (Q.max_spec 0 (100 - 2 * y)) as [[Hl Hm]|[_ Hm]]; rewrite Hm; lra. }
      rewrite Hm in Hn1, Hn2.
      rewrite (round1_of s 0); [reflexivity | |]; change (inject_Z 0) with 0%Q; lra.
Qed.

Lemma safety_score_range_witness :
  Forall counters_ok (sessions Sample.busy) /\
  exists (body : json) (score : Q),
    get_dashboard (snd (end_session Sample.busy 1 9)) 1 = Return body /\
    field "safety_score" (field "data" body) = JFloat score /\ (score == 0)%Q.
Proof.
  assert (Hok : forall db, db = Sample.busy \/ db = snd (end_session Sample.busy 1 9) ->
                           Forall counters_ok (sessions db)).
  { intros db [->| ->].
    - apply (store_ok_history Sample.Upload Sample.Image Sample.imdecode Sample.model
               Sample.sha256_hexdigest).
    - apply store_ok_end_session.
      apply (store_ok_history Sample.Upload Sample.Image Sample.imdecode Sample.model
               Sample.sha256_hexdigest). }
  split; [apply Hok; now left|].
  destruct (safety_score_range (snd (end_session Sample.busy 1 9)) 1
              (Hok _ (or_intror eq_refl)))
    as [body [score [Hbody [Hscore [_ [_ [_ Hzero]]]]]]].
  exists body, score. split; [exact Hbody|]. split; [exact Hscore|].
  apply Hzero; vm_compute; [reflexivity | discriminate].
Defined.

(** ** Most recent first, cut to a limit *)

Lemma StronglySorted_app_inv {A} (R : A -> A -> Prop) (l1 l2 : list A) :
  StronglySorted R (l1 ++ l2) ->
  StronglySorted R l1 /\ forall x y, In x l1 -> In y l2 -> R x y.
Proof.
  induction l1 as [|a l1 IH]; cbn [app]; intro H.
  - split; [constructor | intros x y []].
  - inversion H as [|a' l' Hs Hall]; subst. destruct (IH Hs) as [Hs1 Hcross].
    rewrite Forall_forall in Hall. split.
    + constructor; [exact Hs1|]. apply Forall_forall. intros x Hx.
      apply Hall. apply in_or_app. now left.
    + intros x y [<-|Hx] Hy; [|now apply Hcross].
      apply Hall. apply in_or_app. now right.
Qed.

Lemma limit_desc {A} (key : A -> Z) (n : nat) (rows : list A) :
  let top := firstn n (order_by_desc key rows) in
  let older := skipn n (order_by_desc key rows) in
  List.length top = Nat.min n (List.length rows) /\
  Permutation (top ++ older) rows /\
  StronglySorted (fun x y => key y <= key x) top /\
  (forall x y, In x top -> In y older -> key y <= key x).
Proof.
  intros top older.
  pose proof (order_by_desc_perm key rows) as Hp.
  pose proof (order_by_desc_sorted key rows) as Hs.
  assert (Hsplit : top ++ older = order_by_desc key rows) by apply firstn_skipn.
  split.
  - subst top. rewrite length_firstn. now rewrite (Permutation_length Hp).
  - split; [now rewrite Hsplit|].
    rewrite <- Hsplit in Hs. now apply StronglySorted_app_inv.
Qed.

(** X17: the recent_sessions list of the driver dashboard holds the
    ended sessions of the user with the latest start times, latest first:
    at most 10 of them, all of them when there are 10 or fewer, and no
    ended session left out started after a listed one.  total_sessions is
    the number of ended sessions of the user, and each entry carries the
    number of detection rows stored for its session. *)
Theorem recent_sessions_listing :
  forall (db : DB) (user_id : Z),
    let ended :=
      filter (fun s => (Sessions.user_id s =? user_id) && is_some (Sessions.end_time s))
             (sessions db) in
    exists (body : json) (listed older : list Sessions.row),
      get_dashboard db user_id = Return body /\
      field "total_sessions" (field "data" body) = JInt (Z.of_nat (List.length ended)) /\
      field "recent_sessions" (field "data" body) = JList (map (recent_entry db) listed) /\
      List.length listed = Nat.min 10 (List.length ended) /\
      Permutation (listed ++ older) ended /\
      StronglySorted (fun s1 s2 => Sessions.start_time s2 <= Sessions.start_time s1) listed /\
      (forall s o, In s listed -> In o older ->
                   Sessions.start_time o <= Sessions.start_time s) /\
      (forall s, field "detection_count" (recent_entry db s)
                 = JInt (Z.of_nat (List.length
                           (filter (fun d => Detections.session_id d =? Sessions.id s)
                                   (detections db))))).
Proof.
  intros db user_id ended.
  destruct (limit_desc Sessions.start_time 10 ended) as [Hlen [Hperm [Hsort Hcut]]].
  exists (match get_dashboard db user_id with Return b => b | Raise _ => JNone end),
         (firstn 10 (order_by_desc Sessions.start_time ended)),
         (skipn 10 (order_by_desc Sessions.start_time ended)).
  split; [reflexivity|]. split; [reflexivity|]. split; [reflexivity|].
  split; [exact Hlen|]. split; [exact Hperm|]. split; [exact Hsort|].
  split; [exact Hcut | reflexivity].
Qed.

(** With unique session ids the WHERE clause on an id selects the row
    that a lookup finds, or nothing. *)
Lemma selected_by_id (rows : list Sessions.row) (k : Z) :
  NoDup (map Sessions.id rows) ->
  filter (fun row => k =? Sessions.id row) rows
  = match find (fun row => Sessions.id row =? k) rows with
    | Some row => [row]
    | None => []
    end.
Proof.
  induction rows as [|row rows IH]; cbn [filter find map]; [reflexivity|].
  intro Hnd. inversion Hnd as [|i ids Hnotin Hnd']; subst.
  rewrite (Z.eqb_sym (Sessions.id row) k).
  destruct (k =? Sessions.id row) eqn:E; [|now apply IH].
  apply Z.eqb_eq in E. subst k. f_equal.
  apply filter_nothing. intros other Hin.
  apply Z.eqb_neq. intro Heq. apply Hnotin. rewrite Heq. now apply in_map.
Qed.

Lemma joined_logs_In (db : DB) (d : Detections.row) (u : Users.row) :
  In (d, u) (joined_logs db) <->
  In d (detections db) /\ In u (users db) /\
  exists s, In s (sessions db) /\
            Sessions.id s = Detections.session_id d /\
            Sessions.user_id s = Users.id u.
Proof.
  unfold joined_logs. rewrite in_flat_map. split.
  - intros [d' [Hd' Hin]].
    apply in_flat_map in Hin. destruct Hin as [s [Hs Hin]].
    apply in_map_iff in Hin. destruct Hin as [u' [Heq Hu']].
    injection Heq as <- <-.
    apply filter_In in Hs. destruct Hs as [Hs Hds].
    apply filter_In in Hu'. destruct Hu' as [Hu' Hsu].
    apply Z.eqb_eq in Hds, Hsu.
    split; [exact Hd'|]. split; [exact Hu'|]. exists s. auto.
  - intros [Hd [Hu [s [Hs [Hid Hsu]]]]].
    exists d. split; [exact Hd|].
    apply in_flat_map. exists s. split.
    + apply filter_In. split; [exact Hs | apply Z.eqb_eq; now symmetry].
    + apply in_map. apply filter_In. split; [exact Hu | now apply Z.eqb_eq].
Qed.

Lemma joined_logs_length (db : DB) :
  NoDup (map Users.id (users db)) -> NoDup (map Sessions.id (sessions db)) ->
  List.length (joined_logs db) = List.length (filter (detection_owned db) (detections db)).
Proof.
  intros Hu Hs. unfold joined_logs.
  induction (detections db) as [|d ds IH]; cbn [flat_map filter]; [reflexivity|].
  rewrite length_app, IH. clear IH.
  rewrite (selected_by_id (sessions db) (Detections.session_id d) Hs).
  unfold detection_owned, select_session.
  destruct (find _ (sessions db)) as [s|]; [|reflexivity].
  cbn [flat_map]. rewrite app_nil_r, length_map.
  rewrite (unique_match (users db) (Sessions.user_id s) Hu).
  unfold owner_exists. destruct (existsb _ (users db)); reflexivity.
Qed.

(** X18: the recent_logs list of the admin dashboard.  The query joins
    every detection with the session it refers to and with the user of
    that session; the list holds the 50 joined rows with the latest
    timestamps, latest first, or all of them when there are fewer: no
    joined row left out is later than a listed one.  With unique user and
    session ids the joined rows are as many as the detections whose
    session exists and belongs to an existing user.  A detection recorded
    for an unknown session id is never listed. *)
Theorem recent_logs_listing :
  forall db : DB,
    exists (body : json) (listed older : list (Detections.row * Users.row)),
      get_admin_dashboard db = Return body /\
      field "recent_logs" (field "data" body) = JList (map log_entry listed) /\
      Permutation (listed ++ older) (joined_logs db) /\
      List.length listed = Nat.min 50 (List.length (joined_logs db)) /\
      StronglySorted (fun l1 l2 => Detections.timestamp (fst l2)
                                   <= Detections.timestamp (fst l1)) listed /\
      (forall l o, In l listed -> In o older ->
                   Detections.timestamp (fst o) <= Detections.timestamp (fst l)) /\
      (forall d u, In (d, u) (joined_logs db) <->
         In d (detections db) /\ In u (users db) /\
         exists s, In s (sessions db) /\
                   Sessions.id s = Detections.session_id d /\
                   Sessions.user_id s = Users.id u) /\
      (NoDup (map Users.id (users db)) -> NoDup (map Sessions.id (sessions db)) ->
       List.length (joined_logs db)
       = List.length (filter (detection_owned db) (detections db))) /\
      (forall d, In d (detections db) ->
         (forall s, In s (sessions db) -> Sessions.id s <> Detections.session_id d) ->
         forall u, ~ In (d, u) listed).
Proof.
  intro db.
  destruct (limit_desc (fun du : Detections.row * Users.row => Detections.timestamp (fst du))
              50 (joined_logs db)) as [Hlen [Hperm [Hsort Hcut]]].
  exists (match get_admin_dashboard db with Return b => b | Raise _ => JNone end),
         (recent_logs db),
         (skipn 50 (order_by_desc
                      (fun du : Detections.row * Users.row => Detections.timestamp (fst du))
                      (joined_logs db))).
  split; [reflexivity|]. split; [reflexivity|].
  split; [exact Hperm|]. split; [exact Hlen|]. split; [exact Hsort|].
  split; [exact Hcut|]. split; [apply joined_logs_In|].
  split; [apply joined_logs_length|].
  intros d Hd Hnone u Hin.
  assert (Hj : In (d, u) (joined_logs db)).
  { apply (Permutation_in _ Hperm). apply in_or_app. now left. }
  apply joined_logs_In in Hj. destruct Hj as [_ [_ [s [Hs [Hid _]]]]].
  exact (Hnone s Hs Hid).
Qed.

Lemma recent_logs_listing_witness :
  List.length (joined_logs Sample.scored) = 101%nat /\
  exists (body : json) (entries : list json),
    get_admin_dashboard Sample.scored = Return body /\
    field "recent_logs" (field "data" body) = JList entries /\
    List.length entries = 50%nat /\
    map (fun entry => (field "timestamp" entry, field "username" entry)) (firstn 3 entries)
    = [(JInt 6, JStr "dana"); (JInt 5, JStr "dana"); (JInt 5, JStr "dana")].
Proof.
  assert (Hcount : List.length (joined_logs Sample.scored) = 101%nat)
    by (vm_compute; reflexivity).
  split; [exact Hcount|].
  destruct (recent_logs_listing Sample.scored)
    as [body [listed [older [Hbody [Hlogs [_ [Hlen _]]]]]]].
  assert (Hfifty : List.length (map log_entry listed) = 50%nat)
    by (rewrite length_map, Hlen, Hcount; reflexivity).
  remember (map log_entry listed) as entries eqn:Hentries. clear Hentries Hlen.
  exists body, entries.
  split; [exact Hbody|]. split; [exact Hlogs|]. split; [exact Hfifty|].
  vm_compute in Hbody. injection Hbody as <-.
  vm_compute in Hlogs. injection Hlogs as <-.
  vm_compute. reflexivity.
Defined.

(** ** The fleet figures *)

Lemma filter_all {A} (l : list A) : filter (fun _ => true) l = l.
Proof. induction l as [|x l IH]; cbn [filter]; [reflexivity | now rewrite IH]. Qed.

Lemma filter_length_le {A} (p : A -> bool) (l : list A) :
  (List.length (filter p l) <= List.length l)%nat.
Proof.
  induction l as [|x l IH]; cbn [filter]; [lia|].
  destruct (p x); cbn [List.length]; lia.
Qed.

Lemma filter_split_length {A} (p : A -> bool) (l : list A) :
  (List.length (filter p l) + List.length (filter (fun x => negb (p x)) l)
   = List.length l)%nat.
Proof.
  induction l as [|x l IH]; cbn [filter]; [reflexivity|].
  destruct (p x); cbn [negb List.length]; lia.
Qed.

Lemma drivers_of_deployment (db : DB) :
  users_ok db ->
  Z.of_nat (List.length (filter (fun u => String.eqb (Users.role u) "driver") (users db)))
  = Z.of_nat (List.length (users db)) - 1.
Proof.
  intros [_ [_ [admin [rest [Hu [_ [_ [Hrole Hrest]]]]]]]].
  rewrite Hu. cbn [filter]. rewrite Hrole.
  assert (Hall : filter (fun u => String.eqb (Users.role u) "driver") rest = rest).
  { clear Hu. induction Hrest as [|u rest Hu _ IH]; cbn [filter]; [reflexivity|].
    rewrite Hu, String.eqb_refl. now rewrite IH. }
  assert (E : String.eqb "admin" "driver" = false) by reflexivity.
  rewrite E, Hall. cbn [List.length]. lia.
Qed.

(** X19: the figures of the admin dashboard in every store reached from
    a fresh deployment.  total_drivers is the number of users minus the
    default admin.  active_drivers is the number of active sessions whose
    user exists, counted per session and not per driver.  drowsy_drivers
    never exceeds active_drivers.  total_sessions is the number of ended
    sessions, so it and the number of sessions without end_time add up to
    the size of the sessions table. *)
Theorem fleet_figures :
  forall (Upload Image : Type) (imdecode : Upload -> option Image)
         (model : option (Image -> outcome (list Yolo.Results)))
         (sha256_hexdigest : string -> string) (salt : string) (now : Z)
         (rs : list (request Upload)),
    let db := run imdecode model sha256_hexdigest (fresh_db sha256_hexdigest salt now) rs in
    exists (body : json) (active drowsy ended : Z),
      get_admin_dashboard db = Return body /\
      field "total_drivers" (field "data" body)
        = JInt (Z.of_nat (List.length (users db)) - 1) /\
      field "active_drivers" (field "data" body) = JInt active /\
      field "drowsy_drivers" (field "data" body) = JInt drowsy /\
      field "total_sessions" (field "data" body) = JInt ended /\
      active = Z.of_nat (List.length
                 (filter (fun s => is_none (Sessions.end_time s) && owner_exists db s)
                         (sessions db))) /\
      0 <= drowsy <= active /\
      ended + Z.of_nat (List.length
                (filter (fun s => is_none (Sessions.end_time s)) (sessions db)))
        = Z.of_nat (List.length (sessions db)).
Proof.
  intros Upload Image imdecode model sha salt now rs db.
  pose proof (users_ok_run Upload Image imdecode model sha rs _ (users_ok_fresh sha salt now))
    as Husers. fold db in Husers.
  assert (Hnd : NoDup (map Users.id (users db))).
  { apply (store_ok_history Upload Image imdecode model sha). }
  exists (match get_admin_dashboard db with Return b => b | Raise _ => JNone end),
         (Z.of_nat (List.length (active_sessions db))),
         (count_drowsy db (active_sessions db) 0),
         (Z.of_nat (List.length (filter (fun s => is_some (Sessions.end_time s))
                                        (sessions db)))).
  split; [reflexivity|]. split.
  - rewrite <- (drivers_of_deployment db Husers). reflexivity.
  - split; [reflexivity|]. split; [reflexivity|]. split; [reflexivity|].
    assert (Hactive : List.length (active_sessions db)
                      = List.length (filter (fun s => is_none (Sessions.end_time s)
                                                      && owner_exists db s) (sessions db))).
    { unfold active_sessions. rewrite (Permutation_length (order_by_desc_perm _ _)).
      pose proof (joined_count db (fun _ => true) (sessions db) Hnd) as Hj.
      rewrite filter_all in Hj. rewrite Hj. f_equal. apply filter_ext.
      intro s. now rewrite andb_true_r. }
    split; [now rewrite Hactive|]. split.
    + rewrite count_drowsy_filter.
      pose proof (filter_length_le
                    (fun su : Sessions.row * Users.row => latest_label_has_drowsy db (fst su))
                    (active_sessions db)).
      lia.
    + pose proof (filter_split_length (fun s => is_some (Sessions.end_time s)) (sessions db))
        as Hsplit.
      assert (Heq : filter (fun s => negb (is_some (Sessions.end_time s))) (sessions db)
                    = filter (fun s => is_none (Sessions.end_time s)) (sessions db)).
      { apply filter_ext. intro s. now destruct (Sessions.end_time s). }
      cbv beta in Hsplit. rewrite Heq in Hsplit. lia.
Qed.

(** ** Paging through the sessions *)

Lemma firstn_then (A : Type) (a b : nat) (l : list A) :
  firstn a l ++ firstn b (skipn a l) = firstn (a + b) l.
Proof.
  revert l. induction a as [|a IH]; intro l; [reflexivity|].
  destruct l as [|x l]; cbn [firstn skipn Nat.add app].
  - now destruct b.
  - now rewrite IH.
Qed.

Lemma limit_offset_pages {A} (limit limit' offset : Z) (rows : list A) :
  0 <= limit -> 0 <= limit' -> 0 <= offset ->
  limit_offset limit offset rows ++ limit_offset limit' (offset + limit) rows
  = limit_offset (limit + limit') offset rows.
Proof.
  intros H1 H2 H3. unfold limit_offset.
  assert (E1 : (limit <? 0) = false) by (apply Z.ltb_ge; lia).
  assert (E2 : (limit' <? 0) = false) by (apply Z.ltb_ge; lia).
  assert (E3 : (limit + limit' <? 0) = false) by (apply Z.ltb_ge; lia).
  rewrite E1, E2, E3.
  rewrite !Z2Nat.inj_add by lia.
  rewrite (Nat.add_comm (Z.to_nat offset)), <- skipn_skipn.
  apply firstn_then.
Qed.

Lemma listed_sessions_length (db : DB) :
  NoDup (map Users.id (users db)) ->
  List.length (listed_sessions db)
  = List.length (filter (owner_exists db) (sessions db)).
Proof.
  intro Hnd. unfold listed_sessions.
  rewrite (Permutation_length (order_by_desc_perm _ _)).
  induction (sessions db) as [|s ss IH]; [reflexivity|].
  cbn [flat_map filter]. rewrite length_app, length_map, IH.
  rewrite (unique_match (users db) (Sessions.user_id s) Hnd).
  unfold owner_exists at 2. destruct (existsb _ (users db)); reflexivity.
Qed.

Lemma listed_sessions_In (db : DB) (row : Sessions.row) (u : Users.row) :
  In (row, u) (listed_sessions db) <->
  In row (sessions db) /\ In u (users db) /\ Sessions.user_id row = Users.id u.
Proof.
  unfold listed_sessions.
  pose proof (order_by_desc_perm (fun su : Sessions.row * Users.row =>
                                    Sessions.start_time (fst su))
                (flat_map (fun s =>
                   map (fun u => (s, u))
                       (filter (fun u => Sessions.user_id s =? Users.id u) (users db)))
                   (sessions db))) as Hperm.
  split.
  - intro Hin. apply (Permutation_in _ Hperm) in Hin.
    apply in_flat_map in Hin. destruct Hin as [s [Hs Hin]].
    apply in_map_iff in Hin. destruct Hin as [u' [Heq Hu']].
    injection Heq as <- <-.
    apply filter_In in Hu'. destruct Hu' as [Hu' Hsu]. apply Z.eqb_eq in Hsu. auto.
  - intros [Hrow [Hu Hsu]]. apply (Permutation_in _ (Permutation_sym Hperm)).
    apply in_flat_map. exists row. split; [exact Hrow|].
    apply in_map. apply filter_In. split; [exact Hu | now apply Z.eqb_eq].
Qed.

(** [LIMIT] and [OFFSET] cut the rows into what is skipped, the page
    and what is left. *)
Lemma limit_offset_split {A} (limit offset : Z) (rows : list A) :
  exists before after : list A,
    rows = before ++ limit_offset limit offset rows ++ after /\
    List.length before = Nat.min (Z.to_nat offset) (List.length rows) /\
    (0 <= limit ->
     List.length (limit_offset limit offset rows)
     = Nat.min (Z.to_nat limit) (List.length rows - List.length before)) /\
    (limit < 0 -> after = []).
Proof.
  unfold limit_offset.
  destruct (limit <? 0) eqn:E.
  - exists (firstn (Z.to_nat offset) rows), [].
    split; [now rewrite app_nil_r, firstn_skipn|].
    split; [apply length_firstn|].
    split; [intro H; apply Z.ltb_lt in E; lia | reflexivity].
  - exists (firstn (Z.to_nat offset) rows),
           (skipn (Z.to_nat limit) (skipn (Z.to_nat offset) rows)).
    split; [now rewrite !firstn_skipn|].
    split; [apply length_firstn|].
    split; [|intro H; apply Z.ltb_ge in E; lia].
    intros _. rewrite !length_firstn, length_skipn. lia.
Qed.

Lemma live_get_all_sessions_bound (s : Live.Database) (limit offset : Z) :
  - 2 ^ 63 <= limit < 2 ^ 63 -> - 2 ^ 63 <= offset < 2 ^ 63 ->
  Live.get_all_sessions s limit offset = get_all_sessions (Live.tables s) limit offset.
Proof.
  intros Hl Ho. unfold Live.get_all_sessions.
  now rewrite (bind_parameter_fits _ Hl), (bind_parameter_fits _ Ho).
Qed.

(** X20: paging of the session list.  The listing joins every session
    with its user, latest start first; a session whose user does not
    exist is not in it, while total counts every session row.  A request
    whose limit or offset does not fit in 64 bits is answered with error
    500.  Otherwise the listing falls into the rows that the offset
    skips (none for a negative offset), the page that is returned and the
    rows left over: the page holds limit rows, or all that remain when
    there are fewer, and with a negative limit nothing is left over.
    With non-negative limits and offset whose sums fit in 64 bits, the
    page at an offset followed by the page right behind it is the page of
    the combined limit at that offset. *)
Theorem sessions_paging :
  forall (s : Live.Database) (limit offset : Z),
    let db := Live.tables s in
    let listing := listed_sessions db in
    let fits := fun n : Z => - 2 ^ 63 <= n < 2 ^ 63 in
    ((forall row u, In (row, u) listing <->
        In row (sessions db) /\ In u (users db) /\ Sessions.user_id row = Users.id u) /\
     StronglySorted (fun a b => Sessions.start_time (fst b) <= Sessions.start_time (fst a))
                    listing /\
     (NoDup (map Users.id (users db)) ->
      List.length listing = List.length (filter (owner_exists db) (sessions db)))) /\
    (~ (fits limit /\ fits offset) ->
     Live.get_all_sessions s limit offset
     = Raise (HTTPException 500
                (FStr "Failed to get sessions: "
                      (OverflowError "Python int too large to convert to SQLite INTEGER")))) /\
    (fits limit -> fits offset ->
     exists (body : json) (before page after : list (Sessions.row * Users.row)),
       Live.get_all_sessions s limit offset = Return body /\
       field "sessions" (field "data" body) = JList (map session_entry page) /\
       field "total" (field "data" body) = JInt (Z.of_nat (List.length (sessions db))) /\
       listing = before ++ page ++ after /\
       List.length before = Nat.min (Z.to_nat offset) (List.length listing) /\
       (0 <= limit ->
        List.length page
        = Nat.min (Z.to_nat limit) (List.length listing - List.length before)) /\
       (limit < 0 -> after = [])) /\
    (forall limit' : Z,
       0 <= limit -> 0 <= limit' -> 0 <= offset ->
       offset + limit < 2 ^ 63 -> limit + limit' < 2 ^ 63 ->
       exists (b1 b2 b12 : json) (page next : list json),
         Live.get_all_sessions s limit offset = Return b1 /\
         Live.get_all_sessions s limit' (offset + limit) = Return b2 /\
         Live.get_all_sessions s (limit + limit') offset = Return b12 /\
         field "sessions" (field "data" b1) = JList page /\
         field "sessions" (field "data" b2) = JList next /\
         field "sessions" (field "data" b12) = JList (page ++ next)).
Proof.
  intros s limit offset db listing fits.
  split; [|split; [|split]].
  - split; [intros row u; apply listed_sessions_In|].
    split; [apply order_by_desc_sorted | apply listed_sessions_length].
  - intro Hover. unfold Live.get_all_sessions, Live.bind_parameter.
    destruct (Live.int64 limit) eqn:El; [|reflexivity].
    destruct (Live.int64 offset) eqn:Eo; [|reflexivity].
    exfalso. apply Hover. split; now apply int64_range.
  - intros Hl Ho.
    rewrite (live_get_all_sessions_bound s limit offset Hl Ho).
    destruct (limit_offset_split limit offset listing)
      as [before [after [Hsplit [Hbefore [Hpage Hafter]]]]].
    exists (match get_all_sessions db limit offset with Return b => b | Raise _ => JNone end),
           before, (limit_offset limit offset listing), after.
    split; [reflexivity|]. split; [reflexivity|]. split; [reflexivity|].
    split; [exact Hsplit|]. split; [exact Hbefore|]. split; assumption.
  - intros limit' H1 H2 H3 H4 H5.
    assert (Hp : 0 < 2 ^ 63) by reflexivity.
    rewrite (live_get_all_sessions_bound s limit offset) by (unfold fits; lia).
    rewrite (live_get_all_sessions_bound s limit' (offset + limit)) by (unfold fits; lia).
    rewrite (live_get_all_sessions_bound s (limit + limit') offset) by (unfold fits; lia).
    exists (match get_all_sessions db limit offset with Return b => b | Raise _ => JNone end),
           (match get_all_sessions db limit' (offset + limit)
            with Return b => b | Raise _ => JNone end),
           (match get_all_sessions db (limit + limit') offset
            with Return b => b | Raise _ => JNone end),
           (map session_entry (limit_offset limit offset listing)),
           (map session_entry (limit_offset limit' (offset + limit) listing)).
    split; [reflexivity|]. split; [reflexivity|]. split; [reflexivity|].
    split; [reflexivity|]. split; [reflexivity|].
    rewrite <- map_app, (limit_offset_pages limit limit' offset _ H1 H2 H3). reflexivity.
Qed.

Lemma sessions_paging_witness :
  map (fun row => (Sessions.id row, Sessions.start_time row))
      (sessions (Live.tables Bench.three_sessions)) = [(1, 2); (2, 3); (3, 4)] /\
  exists (b1 b2 : json) (page next : list json),
    Live.get_all_sessions Bench.three_sessions 2 0 = Return b1 /\
    Live.get_all_sessions Bench.three_sessions 2 2 = Return b2 /\
    field "sessions" (field "data" b1) = JList page /\
    field "sessions" (field "data" b2) = JList next /\
    map (field "id") page = [JInt 3; JInt 2] /\
    map (field "id") next = [JInt 1] /\
    field "total" (field "data" b1) = JInt 3.
Proof.
  split; [vm_compute; reflexivity|].
  destruct (sessions_paging Bench.three_sessions 2 0) as [_ [_ [_ Hpages]]].
  destruct (Hpages 2) as [b1 [b2 [b12 [page [next [Hb1 [Hb2 [_ [Hp [Hn _]]]]]]]]]]; try lia.
  exists b1, b2, page, next.
  split; [exact Hb1|]. split; [exact Hb2|]. split; [exact Hp|]. split; [exact Hn|].
  vm_compute in Hb1. injection Hb1 as <-.
  vm_compute in Hb2. injection Hb2 as <-.
  vm_compute in Hp. injection Hp as <-.
  vm_compute in Hn. injection Hn as <-.
  repeat split; reflexivity.
Defined.

(** A limit of 2^63 cannot be bound to the query. *)
Lemma sessions_paging_overflow :
  Live.get_all_sessions Bench.three_sessions (2 ^ 63) 0
  = Raise (HTTPException 500
             (FStr "Failed to get sessions: "
                   (OverflowError "Python int too large to convert to SQLite INTEGER"))).
Proof. reflexivity. Qed.

(** ** The driver roster *)

Lemma filtered_ids_unique (keep : Sessions.row -> bool) (rows : list Sessions.row) :
  NoDup (map Sessions.id rows) -> NoDup (map Sessions.id (filter keep rows)).
Proof.
  induction rows as [|s rows IH]; cbn [map filter]; intro H; [constructor|].
  inversion H as [|y ys Hnotin Hnd]; subst.
  destruct (keep s); cbn [map]; [|now apply IH].
  constructor; [|now apply IH].
  intro Hin. apply Hnotin. apply in_map_iff in Hin. destruct Hin as [z [Hz Hin]].
  apply filter_In in Hin. apply in_map_iff. exists z. tauto.
Qed.

Lemma sum_filter_le {A} (f : A -> Z) (p q : A -> bool) (l : list A) :
  (forall x, q x = true -> p x = true) ->
  (forall x, In x l -> 0 <= f x) ->
  fold_right Z.add 0 (map f (filter q l)) <= fold_right Z.add 0 (map f (filter p l)).
Proof.
  intros Hqp Hpos. induction l as [|x l IH]; cbn [filter]; [cbn; lia|].
  assert (IH' : fold_right Z.add 0 (map f (filter q l))
                <= fold_right Z.add 0 (map f (filter p l)))
    by (apply IH; intros y Hy; apply Hpos; now right).
  pose proof (Hpos x (or_introl eq_refl)) as Hx.
  destruct (q x) eqn:Eq.
  - rewrite (Hqp x Eq). cbn [map fold_right]. lia.
  - destruct (p x); cbn [map fold_right]; lia.
Qed.

(** X21: the driver roster in a store with consistent counters and
    unique ids.  It lists the users with role driver, each once, latest
    created first.  For a driver, total_sessions is the number of all its
    sessions and total_alerts the sum of drowsy_detections over all of
    them, ended or not, so it is at least the total_alerts of that
    driver's dashboard, which covers ended sessions only.  is_active is
    true exactly when some session of the driver has no end_time,
    whichever of several active sessions the query happens to read. *)
Theorem driver_roster :
  forall db : DB,
    store_ok db ->
    exists (body : json) (drivers : list Users.row),
      get_all_drivers db = Return body /\
      field "data" body = JList (map (roster_entry db) drivers) /\
      Permutation drivers (filter (fun u => String.eqb (Users.role u) "driver") (users db)) /\
      StronglySorted (fun u1 u2 => Users.created_at u2 <= Users.created_at u1) drivers /\
      forall u : Users.row,
        let own := filter (fun s => Users.id u =? Sessions.user_id s) (sessions db) in
        field "total_sessions" (roster_entry db u) = JInt (Z.of_nat (List.length own)) /\
        field "total_alerts" (roster_entry db u)
          = JInt (fold_right Z.add 0 (map Sessions.drowsy_detections own)) /\
        (field "is_active" (roster_entry db u) = JBool true <->
           exists s, In s (sessions db) /\ Sessions.user_id s = Users.id u
                     /\ Sessions.end_time s = None) /\
        fold_right Z.add 0
          (map Sessions.drowsy_detections (ended_sessions_of db (Users.id u)))
          <= fold_right Z.add 0 (map Sessions.drowsy_detections own).
Proof.
  intros db [Hc [_ Hs]].
  exists (match get_all_drivers db with Return b => b | Raise _ => JNone end),
         (order_by_desc Users.created_at
            (filter (fun u => String.eqb (Users.role u) "driver") (users db))).
  split; [reflexivity|]. split; [reflexivity|].
  split; [apply order_by_desc_perm|]. split; [apply order_by_desc_sorted|].
  intros u own. split; [|split; [|split]].
  - change (field "total_sessions" (roster_entry db u))
      with (JInt (Z.of_nat (List.length (nodup Z.eq_dec (map Sessions.id own))))).
    rewrite nodup_fixed_point by (apply filtered_ids_unique; exact Hs).
    now rewrite length_map.
  - change (field "total_alerts" (roster_entry db u))
      with (JInt (or0 (SUM Sessions.drowsy_detections own))).
    now rewrite or0_SUM.
  - change (field "is_active" (roster_entry db u))
      with (JBool (is_some (active_session_start db u))).
    unfold active_session_start.
    destruct (filter (fun s2 => (Sessions.user_id s2 =? Users.id u)
                                && is_none (Sessions.end_time s2)) (sessions db))
      as [|s rest] eqn:E; cbn [hd_error option_map is_some].
    + split; [discriminate|]. intros [s [Hin [Hu He]]]. exfalso.
      assert (Hf : In s []); [|destruct Hf].
      rewrite <- E. apply filter_In. split; [exact Hin|].
      rewrite Hu, Z.eqb_refl, He. reflexivity.
    + split; [|reflexivity]. intros _.
      assert (Hin : In s (s :: rest)) by now left.
      rewrite <- E in Hin. apply filter_In in Hin. destruct Hin as [Hin Hp].
      apply andb_true_iff in Hp. destruct Hp as [Hu He]. apply Z.eqb_eq in Hu.
      exists s. split; [exact Hin|]. split; [exact Hu|].
      now destruct (Sessions.end_time s).
  - unfold ended_sessions_of. subst own. apply sum_filter_le.
    + intros s H. apply andb_true_iff in H. destruct H as [H _].
      apply Z.eqb_eq in H. apply Z.eqb_eq. congruence.
    + intros s Hin. rewrite Forall_forall in Hc. specialize (Hc s Hin).
      unfold counters_ok in Hc. lia.
Qed.

Lemma driver_roster_witness :
  store_ok Sample.scored /\
  exists body : json,
    get_all_drivers Sample.scored = Return body /\
    map (fun e => (field "username" e, field "total_sessions" e, field "total_alerts" e,
                   field "is_active" e))
        (match field "data" body with JList l => l | _ => [] end)
    = [(JStr "dana", JInt 2, JInt 26, JBool true)].
Proof.
  assert (Hok : store_ok Sample.scored).
  { apply (store_ok_history Sample.Upload Sample.Image Sample.imdecode Sample.model
             Sample.sha256_hexdigest). }
  split; [exact Hok|].
  destruct (driver_roster Sample.scored Hok) as [body [drivers [Hbody [Hdata _]]]].
  exists body. split; [exact Hbody|].
  assert (E : get_all_drivers Sample.scored = Return body) by exact Hbody.
  vm_compute in E. injection E as <-. vm_compute. reflexivity.
Defined.

(** ** A session from start to details *)

Lemma select_session_fresh (db : DB) (row : Sessions.row) :
  Sessions.id row = next_rowid Sessions.id (sessions db) ->
  find (fun s => Sessions.id s =? Sessions.id row) (sessions db ++ [row]) = Some row.
Proof.
  intro Hid. rewrite find_app_none.
  - cbn [find]. now rewrite Z.eqb_refl.
  - destruct (find _ (sessions db)) as [s|] eqn:E; [|reflexivity].
    apply find_some in E. destruct E as [Hin Heq]. apply Z.eqb_eq in Heq.
    apply (next_rowid_above Sessions.id) in Hin. lia.
Qed.

Lemma live_start_session_overflow (s : Live.Database) (session_data : SessionStart)
    (now : Z) :
  ~ (- 2 ^ 63 <= ss_user_id session_data < 2 ^ 63) ->
  Live.start_session s session_data now =
    (Raise (HTTPException 500
              (FStr "Failed to start session: "
                    (OverflowError "Python int too large to convert to SQLite INTEGER"))), s).
Proof.
  intro H. unfold Live.start_session. now rewrite (bind_parameter_overflow _ H).
Qed.

Lemma live_start_session_locked (s : Live.Database) (session_data : SessionStart) (now : Z) :
  - 2 ^ 63 <= ss_user_id session_data < 2 ^ 63 -> Live.reserved s = true ->
  Live.start_session s session_data now =
    (Raise (HTTPException 500
              (FStr "Failed to start session: " (OperationalError "database is locked"))), s).
Proof.
  intros H Hr. unfold Live.start_session, Live.write_lock.
  now rewrite (bind_parameter_fits _ H), Hr.
Qed.

Lemma live_start_session_stored (s : Live.Database) (session_data : SessionStart) (now : Z) :
  - 2 ^ 63 <= ss_user_id session_data < 2 ^ 63 -> Live.reserved s = false ->
  Live.start_session s session_data now =
    (fst (start_session (Live.tables s) session_data now),
     Live.committed (snd (start_session (Live.tables s) session_data now))).
Proof.
  intros H Hr. unfold Live.start_session, Live.write_lock, start_session.
  now rewrite (bind_parameter_fits _ H), Hr.
Qed.

(** X22: a request to start a session succeeds exactly when the
    user_id fits in 64 bits and no connection left open holds the write
    lock; otherwise it is answered with error 500 and stores nothing.
    The user_id is stored as given, whether or not such a user exists.
    The id that a successful request returns is new and usable at once:
    no stored session had it; looking it up finds the new row, active,
    with both counters 0, the requested user_id and start coordinates and
    the start time of the call; the lock is free; and, the id being
    within 64 bits, a request to end that session succeeds and the
    session details are found. *)
Theorem start_session_issues_usable_id :
  forall (s : Live.Database) (session_data : SessionStart) (now later : Z),
    let db := Live.tables s in
    let out := Live.start_session s session_data now in
    let db' := Live.tables (snd out) in
    let fits := - 2 ^ 63 <= ss_user_id session_data < 2 ^ 63 in
    ((exists body, fst out = Return body) <-> fits /\ Live.reserved s = false) /\
    (~ fits ->
       fst out = Raise (HTTPException 500
                          (FStr "Failed to start session: "
                                (OverflowError
                                   "Python int too large to convert to SQLite INTEGER")))
       /\ snd out = s) /\
    (fits -> Live.reserved s = true ->
       fst out = Raise (HTTPException 500
                          (FStr "Failed to start session: "
                                (OperationalError "database is locked")))
       /\ snd out = s) /\
    (fits -> Live.reserved s = false ->
       exists (session_id : Z) (row : Sessions.row),
         fst out = Return (JDict [("success", JBool true); ("session_id", JInt session_id)]) /\
         (forall old, In old (sessions db) -> Sessions.id old < session_id) /\
         users db' = users db /\ detections db' = detections db /\
         sessions db' = sessions db ++ [row] /\
         Live.reserved (snd out) = false /\
         select_session db' session_id = Some row /\
         Sessions.id row = session_id /\
         Sessions.user_id row = ss_user_id session_data /\
         Sessions.start_time row = now /\
         Sessions.end_time row = None /\
         Sessions.total_detections row = 0 /\
         Sessions.drowsy_detections row = 0 /\
         Sessions.start_lat row = ss_latitude session_data /\
         Sessions.start_lng row = ss_longitude session_data /\
         (session_id < 2 ^ 63 ->
            fst (Live.end_session (snd out) session_id later) = Return session_ended /\
            exists body,
              Live.get_session_details (snd out) session_id = Return body /\
              field "id" (field "session" (field "data" body)) = JInt session_id)).
Proof.
  intros s session_data now later db out db' fits. subst db' out db.
  destruct (Live.int64 (ss_user_id session_data)) eqn:Ei.
  - assert (Hfits : fits) by now apply int64_range.
    destruct (Live.reserved s) eqn:Er.
    + rewrite (live_start_session_locked s session_data now Hfits Er). cbn [fst snd].
      split; [split; [intros [body H]; discriminate H | intros [_ H]; discriminate H]|].
      split; [intro H; contradiction|].
      split; [intros _ _; split; reflexivity | intros _ H; discriminate H].
    + rewrite (live_start_session_stored s session_data now Hfits Er).
      unfold start_session. cbn [fst snd Live.tables Live.committed Live.reserved].
      split; [split; [intros _; split; [exact Hfits | reflexivity] | intros _; eauto]|].
      split; [intro H; contradiction|]. split; [intros _ H; discriminate H|].
      intros _ _.
      set (db := Live.tables s).
      set (row := {| Sessions.id := next_rowid Sessions.id (sessions db);
                     Sessions.user_id := ss_user_id session_data;
                     Sessions.start_time := now;
                     Sessions.end_time := None;
                     Sessions.total_detections := 0;
                     Sessions.drowsy_detections := 0;
                     Sessions.distance_km := 0;
                     Sessions.start_lat := ss_latitude session_data;
                     Sessions.start_lng := ss_longitude session_data;
                     Sessions.end_lat := None;
                     Sessions.end_lng := None |}).
      set (db' := {| users := users db; sessions := sessions db ++ [row];
                     detections := detections db |}).
      assert (Hsel : select_session db' (next_rowid Sessions.id (sessions db)) = Some row)
        by (apply (select_session_fresh db row); reflexivity).
      exists (next_rowid Sessions.id (sessions db)), row.
      split; [reflexivity|].
      split; [intros old Hold; now apply next_rowid_above|].
      split; [reflexivity|]. split; [reflexivity|]. split; [reflexivity|].
      split; [reflexivity|]. split; [exact Hsel|].
      repeat (split; [reflexivity|]).
      intro Hbound.
      assert (Hid : - 2 ^ 63 <= next_rowid Sessions.id (sessions db) < 2 ^ 63).
      { split; [|exact Hbound]. unfold next_rowid.
        assert (0 <= fold_right Z.max 0 (map Sessions.id (sessions db))).
        { clear. induction (sessions db) as [|x l IH]; simpl; lia. }
        lia. }
      split.
      * assert (Hin : In row (sessions (Live.tables (Live.committed db'))))
          by (cbn; apply in_or_app; right; now left).
        now rewrite (live_end_session_present (Live.committed db')
                       (next_rowid Sessions.id (sessions db)) later row Hid eq_refl Hin eq_refl).
      * unfold Live.get_session_details. rewrite (bind_parameter_fits _ Hid).
        cbn [Live.tables Live.committed]. unfold get_session_details. rewrite Hsel.
        cbn [try_except]. eexists. split; reflexivity.
  - assert (Hover : ~ fits) by (intro H; apply int64_range in H; congruence).
    rewrite (live_start_session_overflow s session_data now Hover). cbn [fst snd].
    split; [split; [intros [body H]; discriminate H | intros [H _]; contradiction]|].
    split; [intros _; split; reflexivity|].
    split; intro H; contradiction.
Qed.

Lemma start_session_issues_usable_id_witness :
  Live.reserved Bench.one_session = false /\
  fst (Live.start_session Bench.one_session
         {| ss_user_id := 77; ss_latitude := Some (52 # 1); ss_longitude := None |} 8)
  = Return (JDict [("success", JBool true); ("session_id", JInt 2)]) /\
  fst (Live.end_session
         (snd (Live.start_session Bench.one_session
                 {| ss_user_id := 77; ss_latitude := Some (52 # 1); ss_longitude := None |} 8))
         2 9)
  = Return session_ended /\
  fst (Live.start_session Bench.stuck
         {| ss_user_id := 1; ss_latitude := None; ss_longitude := None |} 8)
  = Raise (HTTPException 500
             (FStr "Failed to start session: " (OperationalError "database is locked"))) /\
  fst (Live.start_session Bench.one_session
         {| ss_user_id := 2 ^ 63; ss_latitude := None; ss_longitude := None |} 8)
  = Raise (HTTPException 500
             (FStr "Failed to start session: "
                   (OverflowError "Python int too large to convert to SQLite INTEGER"))).
Proof.
  destruct (start_session_issues_usable_id Bench.one_session
              {| ss_user_id := 77; ss_latitude := Some (52 # 1); ss_longitude := None |} 8 9)
    as [_ [_ [_ Hok]]].
  destruct (start_session_issues_usable_id Bench.stuck
              {| ss_user_id := 1; ss_latitude := None; ss_longitude := None |} 8 9)
    as [_ [_ [Hlocked _]]].
  destruct (start_session_issues_usable_id Bench.one_session
              {| ss_user_id := 2 ^ 63; ss_latitude := None; ss_longitude := None |} 8 9)
    as [_ [Hover _]].
  assert (Hfits : forall n, n = 1 \/ n = 77 -> - 2 ^ 63 <= n < 2 ^ 63) by (intros n [->| ->]; lia).
  destruct (Hok (Hfits 77 (or_intror eq_refl)) eq_refl)
    as [session_id [row [Hbody [_ [_ [_ [_ [_ [_ [_ [_ [_ [_ [_ [_ [_ [_ Huse]]]]]]]]]]]]]]]]].
  assert (Hid : session_id = 2) by (vm_compute in Hbody; now injection Hbody as <-).
  subst session_id.
  destruct Huse as [Hend _]; [lia|].
  split; [reflexivity|]. split; [exact Hbody|]. split; [exact Hend|].
  split; [exact (proj1 (Hlocked (Hfits 1 (or_introl eq_refl)) eq_refl))|].
  apply Hover. cbn. lia.
Defined.



(** ** Counters as the endpoints show them *)

(** X24: when every detection request of a history on a fresh
    deployment names an existing session, the endpoints agree with
    themselves: the total_detections that the session details report is
    the number of detections they list, and every entry of the driver
    dashboard has detection_count equal to total_detections. *)
Theorem reported_counts_agree :
  forall (Upload Image : Type) (imdecode : Upload -> option Image)
         (model : option (Image -> outcome (list Yolo.Results)))
         (sha256_hexdigest : string -> string) (salt : string) (now : Z)
         (rs : list (request Upload)),
    known_targets imdecode model sha256_hexdigest (fresh_db sha256_hexdigest salt now) rs ->
    let db := run imdecode model sha256_hexdigest (fresh_db sha256_hexdigest salt now) rs in
    (forall (session_id : Z) (body : json),
        get_session_details db session_id = Return body ->
        exists entries : list json,
          field "detections" (field "data" body) = JList entries /\
          field "total_detections" (field "session" (field "data" body))
            = JInt (Z.of_nat (List.length entries))) /\
    (forall s, In s (sessions db) ->
        field "detection_count" (recent_entry db s)
          = field "total_detections" (recent_entry db s)).
Proof.
  intros Upload Image imdecode model sha salt now rs Hk db.
  assert (Hno : no_orphans (fresh_db sha salt now)) by (intros d []).
  assert (H0 : Forall (counters_match_rows (fresh_db sha salt now))
                      (sessions (fresh_db sha salt now))) by constructor.
  destruct (match_rows_run Upload Image imdecode model sha rs _ Hno H0 Hk) as [_ H].
  fold db in H. rewrite Forall_forall in H. split.
  - intros session_id body Hbody. unfold get_session_details in Hbody.
    destruct (select_session db session_id) as [row|] eqn:Hsel; [|discriminate Hbody].
    cbn [try_except] in Hbody. injection Hbody as <-.
    unfold select_session in Hsel. apply find_some in Hsel. destruct Hsel as [Hin Hid].
    apply Z.eqb_eq in Hid. destruct (H row Hin) as [Ht _].
    exists (map detection_entry (session_detections db session_id)).
    split; [reflexivity|].
    change (field "total_detections" _) with (JInt (Sessions.total_detections row)).
    rewrite Ht. unfold detection_count, session_detections.
    rewrite length_map, (Permutation_length (order_by_perm _ _)), Hid. reflexivity.
  - intros s Hin. destruct (H s Hin) as [Ht _].
    change (JInt (detection_count db s) = JInt (Sessions.total_detections s)).
    now rewrite Ht.
Qed.

Lemma reported_counts_agree_witness :
  known_targets Sample.imdecode Sample.model Sample.sha256_hexdigest
    (fresh_db Sample.sha256_hexdigest "00" 0)
    [Sample.start 1 5; Sample.detect 1 "tired" (9 # 10) 6] /\
  exists (body : json) (entries : list json),
    get_session_details Sample.busy 1 = Return body /\
    field "detections" (field "data" body) = JList entries /\
    field "total_detections" (field "session" (field "data" body))
      = JInt (Z.of_nat (List.length entries)).
Proof.
  assert (Hk : known_targets Sample.imdecode Sample.model Sample.sha256_hexdigest
                 (fresh_db Sample.sha256_hexdigest "00" 0)
                 [Sample.start 1 5; Sample.detect 1 "tired" (9 # 10) 6]).
  { cbn [known_targets Sample.start Sample.detect]. split; [exact I|]. split; [|exact I].
    eexists. split; [left; reflexivity | reflexivity]. }
  split; [exact Hk|].
  destruct (reported_counts_agree Sample.Upload Sample.Image Sample.imdecode
              Sample.model Sample.sha256_hexdigest "00" 0
              [Sample.start 1 5; Sample.detect 1 "tired" (9 # 10) 6] Hk) as [Hdetails _].
  destruct (Hdetails 1 _ eq_refl) as [entries [Hlist Htotal]].
  eexists _, entries. split; [reflexivity|]. split; [exact Hlist | exact Htotal].
Defined.

(** ** Ending a session and the dashboard *)

Lemma filter_length_set {A} (id : A -> Z) (p : A -> bool) (f : A -> A) (k : Z)
    (x : A) (l : list A) :
  NoDup (map id l) -> In x l -> id x = k ->
  (forall y, id y <> k -> f y = y) ->
  Z.of_nat (List.length (filter p (map f l)))
  = Z.of_nat (List.length (filter p l))
    + (if p (f x) then 1 else 0) - (if p x then 1 else 0).
Proof.
  intros Hnd Hin Hid Hother.
  induction l as [|y l IH]; [destruct Hin|].
  cbn [map] in Hnd. inversion Hnd as [|i ids Hnotin Hnd']; subst.
  cbn [map filter]. destruct Hin as [->|Hin].
  - assert (Hrest : map f l = l).
    { apply map_unchanged. intros z Hz. apply Hother. intro Hzk.
      apply Hnotin. rewrite <- Hzk. now apply in_map. }
    rewrite Hrest. destruct (p (f x)), (p x); cbn [List.length]; lia.
  - assert (Hy : id y <> id x).
    { intro E. apply Hnotin. rewrite E. now apply in_map. }
    rewrite (Hother y Hy). specialize (IH Hnd' Hin).
    destruct (p y); cbn [List.length]; lia.
Qed.

(** X25: what ending a session does to the owner's dashboard, in a store
    with unique session ids.  Ending an active session of a user raises
    that user's total_sessions by exactly 1; ending a session that has
    already ended leaves total_sessions as it was; and the total_sessions
    of every other user is unchanged either way. *)
Theorem end_session_on_dashboard :
  forall (db : DB) (session_id now : Z) (s : Sessions.row),
    store_ok db ->
    In s (sessions db) -> Sessions.id s = session_id ->
    let db' := snd (end_session db session_id now) in
    forall user_id : Z,
      exists (before after : json) (n : Z),
        get_dashboard db user_id = Return before /\
        get_dashboard db' user_id = Return after /\
        field "total_sessions" (field "data" before) = JInt n /\
        field "total_sessions" (field "data" after)
          = JInt (if (Sessions.user_id s =? user_id) && is_none (Sessions.end_time s)
                  then n + 1 else n).
Proof.
  intros db session_id now s [_ [_ Hnd]] Hin Hid db' user_id. subst db'.
  rewrite (end_session_present db session_id now s Hin Hid). cbn [snd].
  set (db' := {| users := users db;
                 sessions := map (set_end_time now session_id) (sessions db);
                 detections := detections db |}).
  exists (match get_dashboard db user_id with Return b => b | Raise _ => JNone end),
         (match get_dashboard db' user_id with Return b => b | Raise _ => JNone end),
         (Z.of_nat (List.length (ended_sessions_of db user_id))).
  split; [reflexivity|]. split; [reflexivity|]. split; [reflexivity|].
  change (field "total_sessions" _)
    with (JInt (Z.of_nat (List.length (ended_sessions_of db' user_id)))).
  f_equal. unfold ended_sessions_of. cbn [sessions db'].
  rewrite (filter_length_set Sessions.id _ (set_end_time now session_id) session_id s
             (sessions db) Hnd Hin Hid (set_end_time_other now session_id)).
  unfold set_end_time. rewrite Hid, Z.eqb_refl.
  cbn [Sessions.user_id Sessions.end_time is_some].
  destruct (Sessions.user_id s =? user_id), (Sessions.end_time s);
    cbn [andb is_some is_none]; lia.
Qed.

Lemma end_session_on_dashboard_witness :
  store_ok Sample.busy /\
  (exists s, In s (sessions Sample.busy) /\ Sessions.id s = 1) /\
  exists (before after : json),
    get_dashboard Sample.busy 1 = Return before /\
    get_dashboard (snd (end_session Sample.busy 1 9)) 1 = Return after /\
    field "total_sessions" (field "data" before) = JInt 0 /\
    field "total_sessions" (field "data" after) = JInt 1.
Proof.
  assert (Hok : store_ok Sample.busy).
  { apply (store_ok_history Sample.Upload Sample.Image Sample.imdecode Sample.model
             Sample.sha256_hexdigest). }
  assert (Hs : exists s, In s (sessions Sample.busy) /\ Sessions.id s = 1)
    by (eexists; split; [left; reflexivity | reflexivity]).
  split; [exact Hok|]. split; [exact Hs|].
  destruct Hs as [s [Hin Hid]].
  destruct (end_session_on_dashboard Sample.busy 1 9 s Hok Hin Hid 1)
    as [before [after [n [Hb [Ha [Hn Hn']]]]]].
  exists before, after. split; [exact Hb|]. split; [exact Ha|].
  assert (E : n = 0).
  { pose proof Hb as H. vm_compute in H. injection H as <-.
    vm_compute in Hn. now injection Hn. }
  subst n. split; [exact Hn|]. rewrite Hn'.
  destruct Hin as [<-|[]]. reflexivity.
Defined.

(** ** Histories on the database file *)

Section Refinement.
Variables Upload Image : Type.
Variable imdecode : Upload -> outcome (option Image).
Variable model : option (Image -> outcome (list Yolo.Results)).
Variable sha256_hexdigest : string -> string.

(** A request on the database file either leaves the tables alone or
    does to them what the handler does on a connection that executes
    every statement. *)
Lemma live_step_tables (s : Live.Database) (ev : Live.event Upload) :
  Live.tables (Live.step imdecode model sha256_hexdigest s ev) = Live.tables s \/
  exists r : request Upload,
    ev = Live.Call r /\
    Live.tables (Live.step imdecode model sha256_hexdigest s ev)
    = step (decoded imdecode) model sha256_hexdigest (Live.tables s) r.
Proof.
  destruct ev as [[user salt now|session_data now|session_id now
                   |session_id file latitude longitude now]|]; cbn [Live.step].
  - destruct (match uc_role user with
              | Some r => negb (String.eqb r "") && negb (String.eqb r "driver")
              | None => false
              end) eqn:Erole.
    + left. apply role_check_true in Erole.
      now rewrite (live_register_refused sha256_hexdigest s user salt now Erole).
    + assert (Hrole : ~ asks_other_role user)
        by (intro H; apply role_check_true in H; congruence).
      destruct (Live.reserved s) eqn:Er.
      * left. now rewrite (live_register_locked sha256_hexdigest s user salt now Hrole Er).
      * destruct (existsb (fun u => String.eqb (Users.username u) (uc_username user)
                                    || String.eqb (Users.email u) (uc_email user))
                          (users (Live.tables s))) eqn:Et.
        -- left. pose proof Et as Ht. apply taken_check_true in Ht.
           now rewrite (live_register_taken sha256_hexdigest s user salt now Hrole Er Ht).
        -- right. eexists. split; [reflexivity|].
           assert (Ht : ~ credentials_taken (Live.tables s) user)
             by (intro H; apply taken_check_true in H; congruence).
           rewrite (live_register_stored sha256_hexdigest s user salt now Hrole Er Ht).
           cbn [step snd Live.tables Live.committed]. unfold register_user.
           now rewrite Erole, Et.
  - destruct (Live.int64 (ss_user_id session_data)) eqn:Ei.
    + apply int64_range in Ei. destruct (Live.reserved s) eqn:Er.
      * left. now rewrite (live_start_session_locked s session_data now Ei Er).
      * right. eexists. split; [reflexivity|].
        now rewrite (live_start_session_stored s session_data now Ei Er).
    + left.
      assert (Hover : ~ (- 2 ^ 63 <= ss_user_id session_data < 2 ^ 63))
        by (intro H; apply int64_range in H; congruence).
      now rewrite (live_start_session_overflow s session_data now Hover).
  - destruct (Live.int64 session_id) eqn:Ei.
    + apply int64_range in Ei. destruct (Live.reserved s) eqn:Er.
      * left. now rewrite (live_end_session_locked s session_id now Ei Er).
      * destruct (rowcount session_id (sessions (Live.tables s)) =? 0)%nat eqn:Erc.
        -- left. apply Nat.eqb_eq in Erc.
           pose proof (proj1 (rowcount_zero _ _) Erc) as Hnone.
           now rewrite (live_end_session_missing s session_id now Ei Er Hnone).
        -- right. eexists. split; [reflexivity|].
           unfold Live.end_session, Live.write_lock.
           rewrite (bind_parameter_fits _ Ei), Er. cbn [bind]. rewrite Erc.
           cbn [step snd Live.tables Live.committed]. unfold end_session. now rewrite Erc.
    + left.
      assert (Hover : ~ (- 2 ^ 63 <= session_id < 2 ^ 63))
        by (intro H; apply int64_range in H; congruence).
      now rewrite (live_end_session_overflow s session_id now Hover).
  - destruct (imdecode file) as [[img|]|e] eqn:Hdec.
    + destruct (Live.int64 session_id) eqn:Ei.
      * apply int64_range in Ei. destruct (Live.reserved s) eqn:Er.
        -- left. now rewrite (live_detect_locked Upload Image imdecode model s session_id
                                file latitude longitude now img Hdec Ei Er).
        -- right. eexists. split; [reflexivity|].
           now rewrite (live_detect_stored Upload Image imdecode model s session_id
                          file latitude longitude now img Hdec Ei Er).
      * left.
        assert (Hover : ~ (- 2 ^ 63 <= session_id < 2 ^ 63))
          by (intro H; apply int64_range in H; congruence).
        now rewrite (live_detect_overflow Upload Image imdecode model s session_id
                       file latitude longitude now img Hdec Hover).
    + left. now rewrite (live_detect_undecodable Upload Image imdecode model s session_id
                           file latitude longitude now Hdec).
    + left. now rewrite (live_detect_raised Upload Image imdecode model s session_id
                           file latitude longitude now e Hdec).
  - left. reflexivity.
Qed.

Lemma live_run_tables (evs : list (Live.event Upload)) (s : Live.Database) :
  exists rs : list (request Upload),
    Live.tables (Live.run imdecode model sha256_hexdigest s evs)
    = run (decoded imdecode) model sha256_hexdigest (Live.tables s) rs /\
    (forall r, In r rs -> In (Live.Call r) evs) /\
    (List.length rs <= List.length evs)%nat.
Proof.
  revert s. induction evs as [|ev evs IH]; intro s.
  - exists []. split; [reflexivity|]. split; [intros r []|]. apply Nat.le_refl.
  - destruct (IH (Live.step imdecode model sha256_hexdigest s ev)) as [rs [Hrun [Hin Hlen]]].
    change (Live.run imdecode model sha256_hexdigest s (ev :: evs))
      with (Live.run imdecode model sha256_hexdigest
              (Live.step imdecode model sha256_hexdigest s ev) evs).
    destruct (live_step_tables s ev) as [Hsame|[r [Hev Hstep]]].
    + exists rs. rewrite Hrun, Hsame.
      split; [reflexivity|]. split; [intros r Hr; right; now apply Hin|].
      cbn [List.length]. lia.
    + exists (r :: rs). rewrite Hrun, Hstep.
      split; [reflexivity|]. split.
      * intros r' [<-|Hr]; [left; now symmetry | right; now apply Hin].
      * cbn [List.length]. lia.
Qed.

End Refinement.

(** X26: the tables that the service reaches on the database file are
    reached, on a connection that executes every statement, by those of
    the requests that were carried out: a request that fails to bind,
    finds the file locked or cannot decode its upload drops out, and
    finalising the open connections writes nothing.  So the tables of a
    deployment always have consistent counters, unique ids and a sound
    users table, whatever fails in between. *)
Theorem live_histories_are_histories :
  forall (Upload Image : Type) (imdecode : Upload -> outcome (option Image))
         (model : option (Image -> outcome (list Yolo.Results)))
         (sha256_hexdigest : string -> string) (salt : string) (now : Z)
         (evs : list (Live.event Upload)),
    let s := Live.run imdecode model sha256_hexdigest
               (Live.fresh sha256_hexdigest salt now) evs in
    (exists rs : list (request Upload),
       Live.tables s = run (decoded imdecode) model sha256_hexdigest
                           (fresh_db sha256_hexdigest salt now) rs /\
       (forall r, In r rs -> In (Live.Call r) evs) /\
       (List.length rs <= List.length evs)%nat) /\
    store_ok (Live.tables s) /\
    users_ok (Live.tables s) /\
    Forall (fun row => Sessions.drowsy_detections row <= Sessions.total_detections row)
           (sessions (Live.tables s)).
Proof.
  intros Upload Image imdecode model sha salt now evs s.
  destruct (live_run_tables Upload Image imdecode model sha evs (Live.fresh sha salt now))
    as [rs [Hrun [Hin Hlen]]].
  fold s in Hrun. change (Live.tables (Live.fresh sha salt now)) with (fresh_db sha salt now) in Hrun.
  assert (Hok : store_ok (Live.tables s)).
  { rewrite Hrun. apply store_ok_history. }
  split; [exists rs; auto|]. split; [exact Hok|]. split.
  - rewrite Hrun. apply users_ok_run, users_ok_fresh.
  - destruct Hok as [Hc _]. revert Hc. apply Forall_impl.
    intros row Hrow. unfold counters_ok in Hrow. lia.
Qed.

(** A history with a refused request, a locked one and a finalisation in
    it: of five requests three are carried out. *)
Lemma live_histories_sample :
  let evs := [Bench.start 1 5; Bench.finish 99 6; Bench.detect 1 "sleepy" (9 # 10) 7;
              Live.Finalize; Bench.detect 1 "sleepy" (9 # 10) 8; Bench.finish 1 9] in
  Live.tables (Bench.history evs)
  = run (decoded Bench.imdecode) Sample.model Sample.sha256_hexdigest
        (fresh_db Sample.sha256_hexdigest "00" 0)
        [StartSession {| ss_user_id := 1; ss_latitude := None; ss_longitude := None |} 5;
         Detect 1 (Bench.Frame "sleepy" (9 # 10)) None None 8;
         EndSession 1 9] /\
  map (fun row => (Sessions.id row, Sessions.end_time row, Sessions.total_detections row,
                   Sessions.drowsy_detections row))
      (sessions (Live.tables (Bench.history evs))) = [(1, Some 9, 1, 1)] /\
  Live.reserved (Bench.history evs) = false.
Proof.
  repeat split; vm_compute; reflexivity.
Qed.
